(** * Baltimore housing-permit server: a shallow embedding of [server.py]

    The development follows the source file top to bottom:
    - [Py]: the Python values the server handles (decoded JSON, exceptions,
      truthiness, [dict.get], [len], iteration);
    - the remote feature service, seen as a function from the requests issued
      so far and the query parameters to a reply;
    - [query_permit_api] and the pagination loop [query_permit_api_paginated];
    - [format_permit], the filter builders and [call_tool];
    - the properties of these functions.

    Integers are Python's unbounded [int] ([Z]); a [float] that the server
    computes with is an IEEE 754 binary64 number.  A call threads the list of
    requests it has issued (the trace), so that statements can speak about
    which requests were made and in which order. *)

From Stdlib Require Import ZArith List String Ascii Bool Lia DecimalString.
From Stdlib Require Import Floats.SpecFloat.
From Stdlib Require Import Sorting.Sorted Sorting.Permutation.
Import ListNotations.

Local Open Scope string_scope.
Local Open Scope list_scope.
Local Open Scope Z_scope.

Infix "^^" := String.append (at level 60, right associativity).

#[local] Set Warnings "-register-all".

(** ** Python values *)

Module Py.

(** Decoded JSON, as [response.json()] returns it.  A fractional number is
    kept exactly as [m * 2^e]; an object is the list of its bindings in
    insertion order, which iteration follows, looked up from the front; a
    text is kept in UTF-8, one [ascii] per byte, and its characters are the
    code points these bytes encode. *)
Inductive json : Type :=
| JNull
| JBool (b : bool)
| JInt (z : Z)
| JFloat (m e : Z)
| JStr (s : string)
| JArr (items : list json)
| JObj (fields : list (string * json)).

(** The exceptions the server can meet.  [Exception] is the plain
    [Exception(...)] that [query_permit_api] raises; a JSON decoding error is
    a [ValueError], which it subclasses. *)
Inductive exn : Type :=
| Exception (msg : string)
| ValueError (msg : string)
| TypeError
| AttributeError
| KeyError
| IndexError
| OverflowError
| OSError.

Inductive outcome (A : Type) : Type :=
| Ok (a : A)
| Raise (e : exn).
Arguments Ok {A} a.
Arguments Raise {A} e.

Definition bind {A B : Type} (c : outcome A) (k : A -> outcome B) : outcome B :=
  match c with
  | Ok a => k a
  | Raise e => Raise e
  end.

(** [bool(v)] *)
Definition truthy (v : json) : bool :=
  match v with
  | JNull => false
  | JBool b => b
  | JInt z => negb (z =? 0)
  | JFloat m _ => negb (m =? 0)
  | JStr s => negb (String.eqb s "")
  | JArr items => match items with [] => false | _ => true end
  | JObj fields => match fields with [] => false | _ => true end
  end.

Fixpoint lookup (k : string) (fields : list (string * json)) : option json :=
  match fields with
  | [] => None
  | (k', v) :: rest => if String.eqb k k' then Some v else lookup k rest
  end.

(** [d.get(k, default)]: only a dict has [get]. *)
Definition dict_get (d : json) (k : string) (default : json) : outcome json :=
  match d with
  | JObj fields =>
      Ok (match lookup k fields with Some v => v | None => default end)
  | _ => Raise AttributeError
  end.

(** A byte [10xxxxxx], which continues the code point begun before it. *)
Definition continuation (c : ascii) : bool :=
  match c with
  | Ascii _ _ _ _ _ _ b6 b7 => b7 && negb b6
  end.

(** The continuation bytes a text begins with, and the code points that
    follow them, each with its continuation bytes. *)
Fixpoint split_chars (s : string) : string * list string :=
  match s with
  | EmptyString => (EmptyString, [])
  | String c rest =>
      let (k, l) := split_chars rest in
      if continuation c then (String c k, l) else (EmptyString, String c k :: l)
  end.

(** The characters of a text (well-formed text begins with no continuation
    byte). *)
Definition code_points (s : string) : list string :=
  let (k, l) := split_chars s in
  match k with
  | EmptyString => l
  | _ => k :: l
  end.

Definition chars (s : string) : list json := map JStr (code_points s).

(** The elements [for x in v] visits: the items of a list, the characters of a
    string, the keys of a dict. *)
Definition py_iter (v : json) : outcome (list json) :=
  match v with
  | JArr items => Ok items
  | JStr s => Ok (chars s)
  | JObj fields => Ok (map (fun kv => JStr (fst kv)) fields)
  | _ => Raise TypeError
  end.

(** [len(v)] *)
Definition py_len (v : json) : outcome Z :=
  match v with
  | JArr items => Ok (Z.of_nat (List.length items))
  | JStr s => Ok (Z.of_nat (List.length (code_points s)))
  | JObj fields => Ok (Z.of_nat (List.length fields))
  | _ => Raise TypeError
  end.

(** [str(z)] for an integer *)
Definition str_of_int (z : Z) : string := NilZero.string_of_int (Z.to_int z).

End Py.
Import Py.

Notation "x <- c1 ;; c2" := (bind c1 (fun x => c2))
  (at level 61, c1 at next level, right associativity).

(** ** The remote feature service *)

(** A value of the [params] dict handed to [client.get]. *)
Inductive pval : Type :=
| PStr (s : string)
| PInt (z : Z).

Definition params := list (string * pval).

Fixpoint param (k : string) (p : params) : option pval :=
  match p with
  | [] => None
  | (k', v) :: rest => if String.eqb k k' then Some v else param k rest
  end.

(** What one GET ends in: a decoded body, an [httpx.HTTPError] (transport
    failure, timeout, or the status error of [raise_for_status]), or a body
    that is not JSON. *)
Inductive reply : Type :=
| Body (data : json)
| HTTPError (msg : string)
| BadJson (msg : string).

(** The service answers the [n]-th request of a call (counted from 0) from its
    parameters; nothing is assumed about the answers. *)
Definition remote := nat -> params -> reply.

Definition trace := list params.

(** A computation that may issue requests: from the trace so far to an
    outcome and the extended trace. *)
Definition IO (A : Type) := trace -> outcome A * trace.

Definition io_ret {A : Type} (o : outcome A) : IO A := fun t => (o, t).

Definition io_bind {A B : Type} (c : IO A) (k : A -> IO B) : IO B :=
  fun t =>
    match c t with
    | (Ok a, t') => k a t'
    | (Raise e, t') => (Raise e, t')
    end.

Notation "x <~ c1 ;; c2" := (io_bind c1 (fun x => c2))
  (at level 61, c1 at next level, right associativity).

Section Fetcher.

Variable service : remote.

Definition opt_param (k : string) (v : option Z) : params :=
  match v with
  | Some z => [(k, PInt z)]
  | None => []
  end.

(** The [params] dict of [query_permit_api], in insertion order. *)
Definition build_params (where_clause out_fields : string)
    (result_offset max_records : option Z) (return_count_only : bool) : params :=
  [("where", PStr where_clause);
   ("outFields", PStr out_fields);
   ("f", PStr "geojson");
   ("returnGeometry", PStr "true")]
  ++ opt_param "resultOffset" result_offset
  ++ opt_param "resultRecordCount" max_records
  ++ (if return_count_only then [("returnCountOnly", PStr "true")] else []).

(** [query_permit_api]: one GET.  An [httpx.HTTPError] is re-raised as
    [Exception("Failed to fetch permit data: ...")]; nothing else is caught. *)
Definition query_permit_api (where_clause out_fields : string)
    (result_offset max_records : option Z) (return_count_only : bool) : IO json :=
  fun t =>
    let p := build_params where_clause out_fields result_offset max_records
               return_count_only in
    (match service (List.length t) p with
     | Body data => Ok data
     | HTTPError msg => Raise (Exception ("Failed to fetch permit data: " ^^ msg))
     | BadJson msg => Raise (ValueError msg)
     end,
     t ++ [p]).

(** How one round of the [while] loop ends. *)
Inductive round_end : Type :=
| Continue (all_features : list json) (offset : Z)
| Break (all_features : list json).

(** [len(all_features) < total_requested], where [total_requested] is
    [max_records], or [float('inf')] when it is [None]. *)
Definition below_total (all_features : list json) (max_records : option Z) : bool :=
  match max_records with
  | Some m => Z.of_nat (List.length all_features) <? m
  | None => true
  end.

Definition batch_size_of (all_features : list json) (max_records : option Z)
    (page_size : Z) : Z :=
  match max_records with
  | Some m => Z.min page_size (m - Z.of_nat (List.length all_features))
  | None => page_size
  end.

(** What a round does with the page it received: the three [break]s, and the
    advance of the offset. *)
Definition after_page (data : json) (batch_size : Z) (all_features : list json)
    (offset : Z) : outcome round_end :=
  features <- dict_get data "features" (JArr []) ;;
  if negb (truthy features) then Ok (Break all_features)
  else
    items <- py_iter features ;;
    let all_features' := all_features ++ items in
    n <- py_len features ;;
    if n <? batch_size then Ok (Break all_features')
    else
      more <- dict_get data "exceededTransferLimit" (JBool false) ;;
      if negb (truthy more) then Ok (Break all_features')
      else Ok (Continue all_features' (offset + n)).

(** The body of the [while] loop of [query_permit_api_paginated]. *)
Definition page_round (where_clause out_fields : string) (max_records : option Z)
    (page_size : Z) (all_features : list json) (offset : Z) : IO round_end :=
  let batch_size := batch_size_of all_features max_records page_size in
  data <~ query_permit_api where_clause out_fields (Some offset) (Some batch_size) false ;;
  io_ret (after_page data batch_size all_features offset).

(** The [while] loop, run for at most [fuel] rounds; [None] when the rounds
    allowed are used up before the loop has ended. *)
Fixpoint paginate (fuel : nat) (where_clause out_fields : string)
    (max_records : option Z) (page_size : Z)
    (all_features : list json) (offset : Z) (t : trace)
    : option (outcome (list json) * trace) :=
  if below_total all_features max_records then
    match fuel with
    | O => None
    | S fuel' =>
        match page_round where_clause out_fields max_records page_size
                all_features offset t with
        | (Raise e, t') => Some (Raise e, t')
        | (Ok (Break all_features'), t') => Some (Ok all_features', t')
        | (Ok (Continue all_features' offset'), t') =>
            paginate fuel' where_clause out_fields max_records page_size
              all_features' offset' t'
        end
    end
  else Some (Ok all_features, t).

(** The dict [query_permit_api_paginated] returns. *)
Definition feature_collection (all_features : list json) : json :=
  JObj [("type", JStr "FeatureCollection");
        ("features", JArr all_features);
        ("totalRetrieved", JInt (Z.of_nat (List.length all_features)))].

Definition query_permit_api_paginated (fuel : nat) (where_clause out_fields : string)
    (max_records : option Z) (page_size : Z) (t : trace)
    : option (outcome json * trace) :=
  match paginate fuel where_clause out_fields max_records page_size [] 0 t with
  | Some (Ok all_features, t') => Some (Ok (feature_collection all_features), t')
  | Some (Raise e, t') => Some (Raise e, t')
  | None => None
  end.

End Fetcher.

(** ** What the interpreter and the host supply *)

(** A number: [int], [float], and [bool], which Python counts among the
    integers. *)
Inductive num : Type :=
| NInt (z : Z)
| NFloat (m e : Z).

Definition as_num (v : json) : option num :=
  match v with
  | JInt z => Some (NInt z)
  | JFloat m e => Some (NFloat m e)
  | JBool b => Some (NInt (if b then 1 else 0))
  | _ => None
  end.

(** The library functions whose result depends on the host (time zone, clock)
    or on floating-point printing are taken from the platform:
    - [local_date x] is [datetime.fromtimestamp(x / 1000).strftime("%Y-%m-%d")];
    - [fixed6 x] is [format(x, ".6f")] and [grouped0 x] is [format(x, ",.0f")];
    - [repr v] is [repr(v)];
    - [local_midnight y m d] is [datetime(y, m, d).timestamp()]: the whole
      number of seconds it returns (between the years 1 and 9999 it is below
      [2^38] in size, so that the float holds it and its product with 1000
      exactly), or the exception it raises where the host's local time has no
      answer ([ValueError] for 0001-01-01 on a host in UTC, [OSError] or
      [OverflowError] elsewhere);
    - [today_midnight] is
      [datetime.now().replace(hour=0, minute=0, second=0, microsecond=0).timestamp()],
      a whole number of seconds. *)
Record platform : Type := {
  local_date : num -> outcome string;
  fixed6 : num -> outcome string;
  grouped0 : num -> outcome string;
  repr : json -> string;
  local_midnight : Z -> Z -> Z -> outcome Z;
  today_midnight : Z
}.

(** ** Floats

    Python's [float] is the IEEE 754 binary64 format (53 bits of precision,
    exponents below 1024); its operations round to the nearest float, ties
    to even. *)

(** [float(z)], as the arithmetic operators convert an [int] operand. *)
Definition float_of_int (z : Z) : outcome spec_float :=
  match binary_normalize 53 1024 z 0 false with
  | S754_infinity _ => Raise OverflowError
  | x => Ok x
  end.

(** [int(x)]: the float cut towards zero. *)
Definition int_of_float (x : spec_float) : outcome Z :=
  match x with
  | S754_zero _ => Ok 0
  | S754_finite s m e =>
      Ok (cond_Zopp s (if 0 <=? e then Zpos m * 2 ^ e else Zpos m / 2 ^ (- e)))
  | S754_infinity _ => Raise OverflowError
  | S754_nan => Raise (ValueError "cannot convert float NaN to integer")
  end.

Definition float_sub (x y : spec_float) : spec_float := SFsub 53 1024 x y.

Definition float_mul (x y : spec_float) : spec_float := SFmul 53 1024 x y.

Definition nl : string := String (ascii_of_nat 10) EmptyString.

Fixpoint map_outcome {A B : Type} (f : A -> outcome B) (l : list A) : outcome (list B) :=
  match l with
  | [] => Ok []
  | x :: rest =>
      y <- f x ;;
      ys <- map_outcome f rest ;;
      Ok (y :: ys)
  end.

(** ** The record formatter *)

Section Formatter.

Variable pf : platform.

(** [str(v)], as an f-string field renders a value. *)
Definition py_str (v : json) : string :=
  match v with
  | JStr s => s
  | JNull => "None"
  | JBool true => "True"
  | JBool false => "False"
  | JInt z => str_of_int z
  | _ => repr pf v
  end.

(** The two date blocks of [format_permit]: empty when the field is falsy;
    otherwise the local date, or [str] of the field when the conversion raises
    [ValueError], [TypeError] or [OSError]. *)
Definition format_date (props : json) (key : string) : outcome string :=
  v <- dict_get props key JNull ;;
  if truthy v then
    match (match as_num v with
           | Some n => local_date pf n
           | None => Raise TypeError
           end) with
    | Ok s => Ok s
    | Raise (ValueError _) => Ok (py_str v)
    | Raise TypeError => Ok (py_str v)
    | Raise OSError => Ok (py_str v)
    | Raise e => Raise e
    end
  else Ok "".

(** [lon, lat = v] *)
Definition unpack2 (v : json) : outcome (json * json) :=
  items <- py_iter v ;;
  match items with
  | [lon; lat] => Ok (lon, lat)
  | _ :: _ :: _ :: _ => Raise (ValueError "too many values to unpack (expected 2)")
  | [_] => Raise (ValueError "not enough values to unpack (expected 2, got 1)")
  | [] => Raise (ValueError "not enough values to unpack (expected 2, got 0)")
  end.

(** [format(v, spec)] for a float presentation type ([.6f], [,.0f]): a number
    is printed, a string rejects the format code, anything else rejects the
    format string. *)
Definition format_float (print : num -> outcome string) (v : json) : outcome string :=
  match as_num v with
  | Some n => print n
  | None =>
      match v with
      | JStr _ => Raise (ValueError "Unknown format code 'f' for object of type 'str'")
      | _ => Raise TypeError
      end
  end.

Definition format_coords (geom : json) : outcome string :=
  c <- dict_get geom "coordinates" JNull ;;
  if truthy c then
    p <- unpack2 c ;;
    let (lon, lat) := p in
    slat <- format_float (fixed6 pf) lat ;;
    slon <- format_float (fixed6 pf) lon ;;
    Ok ("(" ^^ slat ^^ ", " ^^ slon ^^ ")")
  else Ok "".

Definition format_cost (props : json) : outcome string :=
  cost <- dict_get props "Cost" JNull ;;
  if truthy cost then
    s <- format_float (grouped0 pf) cost ;;
    Ok ("$" ^^ s)
  else Ok "N/A".

(** [v[:200]] *)
Definition slice200 (v : json) : outcome json :=
  match v with
  | JStr s => Ok (JStr (String.concat "" (firstn 200 (code_points s))))
  | JArr items => Ok (JArr (firstn 200 items))
  | _ => Raise TypeError
  end.

(** [props.get(key, 'N/A')] inside the f-string, [props] being a dict by then. *)
Definition field (props : json) (key : string) : outcome string :=
  v <- dict_get props key (JStr "N/A") ;;
  Ok (py_str v).

Definition format_permit (permit : json) : outcome string :=
  props <- dict_get permit "properties" (JObj []) ;;
  geom <- dict_get permit "geometry" (JObj []) ;;
  issued_date <- format_date props "IssuedDate" ;;
  expiration_date <- format_date props "ExpirationDate" ;;
  coords <- format_coords geom ;;
  cost_str <- format_cost props ;;
  case_number <- field props "CaseNumber" ;;
  address <- field props "Address" ;;
  neighborhood <- field props "Neighborhood" ;;
  description <- (d <- dict_get props "Description" (JStr "N/A") ;;
                  d200 <- slice200 d ;;
                  Ok (py_str d200)) ;;
  blocklot <- field props "BLOCKLOT" ;;
  district <- field props "Council_District" ;;
  existing_use <- field props "ExistingUse" ;;
  proposed_use <- field props "ProposedUse" ;;
  modification <- dict_get props "IsPermitModification" JNull ;;
  Ok (nl ^^
      "    Permit: " ^^ case_number ^^ nl ^^
      "    Address: " ^^ address ^^ nl ^^
      "    Neighborhood: " ^^ neighborhood ^^ nl ^^
      "    Issued: " ^^ issued_date ^^ nl ^^
      "    Expires: " ^^ expiration_date ^^ nl ^^
      "    Cost: " ^^ cost_str ^^ nl ^^
      "    Description: " ^^ description ^^ "..." ^^ nl ^^
      "    Block/Lot: " ^^ blocklot ^^ nl ^^
      "    Council District: " ^^ district ^^ nl ^^
      "    Existing Use: " ^^ existing_use ^^ nl ^^
      "    Proposed Use: " ^^ proposed_use ^^ nl ^^
      "    Location: " ^^ coords ^^ nl ^^
      "    Modification: " ^^ (if truthy modification then "Yes" else "No") ^^ nl ^^
      "---").

End Formatter.

(** ** Filter expressions *)

Definition quote : ascii := ascii_of_nat 39.

(** [s.replace("'", "''")] *)
Fixpoint escape_quotes (s : string) : string :=
  match s with
  | EmptyString => EmptyString
  | String c rest =>
      if Ascii.eqb c quote then String quote (String quote (escape_quotes rest))
      else String c (escape_quotes rest)
  end.

(** A value of the [arguments] dict: the declared input schemas use strings
    and integers only. *)
Inductive arg : Type :=
| AStr (s : string)
| AInt (z : Z).

Definition arguments := list (string * arg).

Fixpoint arg_lookup (k : string) (args : arguments) : option arg :=
  match args with
  | [] => None
  | (k', v) :: rest => if String.eqb k k' then Some v else arg_lookup k rest
  end.

(** [arguments.get(k, default)] *)
Definition arg_get (args : arguments) (k : string) (default : arg) : arg :=
  match arg_lookup k args with
  | Some v => v
  | None => default
  end.

Definition arg_truthy (a : arg) : bool :=
  match a with
  | AStr s => negb (String.eqb s "")
  | AInt z => negb (z =? 0)
  end.

(** [str(a)], as an f-string field renders an argument. *)
Definition arg_str (a : arg) : string :=
  match a with
  | AStr s => s
  | AInt z => str_of_int z
  end.

(** [a.replace("'", "''")]: an [int] has no [replace]. *)
Definition replace_quotes (a : arg) : outcome string :=
  match a with
  | AStr s => Ok (escape_quotes s)
  | AInt _ => Raise AttributeError
  end.

(** The filter of [search_permits_by_address]. *)
Definition address_where (address : arg) : outcome string :=
  escaped_address <- (if arg_truthy address then replace_quotes address else Ok "") ;;
  Ok (if arg_truthy address then "Address LIKE '%" ^^ escaped_address ^^ "%'" else "1=1").

(** The filter of [search_permits_by_neighborhood]. *)
Definition neighborhood_where (neighborhood : arg) : outcome string :=
  escaped_neighborhood <- replace_quotes neighborhood ;;
  Ok ("Neighborhood LIKE '%" ^^ escaped_neighborhood ^^ "%'").

(** The filter of [search_permits_by_case_number]. *)
Definition case_number_where (case_number : arg) : outcome string :=
  escaped_case_number <- replace_quotes case_number ;;
  Ok ("CaseNumber = '" ^^ escaped_case_number ^^ "'").

(** ** [datetime.strptime(s, "%Y-%m-%d")]

    The format compiles to the pattern
    [(\d\d\d\d)-(1[0-2]|0[1-9]|[1-9])-(3[0-1]|[1-2]\d|0[1-9]|[1-9]| [1-9])],
    matched at the start of the text.  The alternatives of the month exclude
    one another once the dash that follows is taken into account, and nothing
    follows the day, so the first alternative that matches is the match.
    Digits are the ASCII digits (CPython 3.11, the interpreter the tests name,
    also takes the other Unicode decimal digits). *)

Definition digit (c : ascii) : option Z :=
  let n := Z.of_nat (nat_of_ascii c) in
  if (48 <=? n) && (n <=? 57) then Some (n - 48) else None.

Definition read_year (s : string) : option (Z * string) :=
  match s with
  | String a (String b (String c (String d rest))) =>
      match digit a, digit b, digit c, digit d with
      | Some x, Some y, Some z, Some w => Some (1000 * x + 100 * y + 10 * z + w, rest)
      | _, _, _, _ => None
      end
  | _ => None
  end.

Definition read_dash (s : string) : option string :=
  match s with
  | String c rest => if Ascii.eqb c "-" then Some rest else None
  | EmptyString => None
  end.

Definition two_digits (s : string) : option (Z * Z * string) :=
  match s with
  | String a (String b rest) =>
      match digit a, digit b with
      | Some x, Some y => Some (x, y, rest)
      | _, _ => None
      end
  | _ => None
  end.

Definition one_digit (s : string) : option (Z * string) :=
  match s with
  | String a rest =>
      match digit a with
      | Some x => Some (x, rest)
      | None => None
      end
  | EmptyString => None
  end.

(** [1[0-2]|0[1-9]|[1-9]] *)
Definition read_month (s : string) : option (Z * string) :=
  match two_digits s with
  | Some (1, y, rest) =>
      if y <=? 2 then Some (10 + y, rest)
      else one_digit s
  | Some (0, y, rest) => if 1 <=? y then Some (y, rest) else None
  | _ =>
      match one_digit s with
      | Some (x, r) => if 1 <=? x then Some (x, r) else None
      | None => None
      end
  end.

(** [3[0-1]|[1-2]\d|0[1-9]|[1-9]| [1-9]] *)
Definition read_day (s : string) : option (Z * string) :=
  match two_digits s with
  | Some (3, y, rest) => if y <=? 1 then Some (30 + y, rest) else one_digit s
  | Some (1, y, rest) => Some (10 + y, rest)
  | Some (2, y, rest) => Some (20 + y, rest)
  | Some (0, y, rest) => if 1 <=? y then Some (y, rest) else None
  | _ =>
      match s with
      | String c rest =>
          if Ascii.eqb c " " then
            match one_digit rest with
            | Some (x, r) => if 1 <=? x then Some (x, r) else None
            | None => None
            end
          else
            match one_digit s with
            | Some (x, r) => if 1 <=? x then Some (x, r) else None
            | None => None
            end
      | EmptyString => None
      end
  end.

(** The pattern as a whole: year, month, day and the text left over. *)
Definition match_ymd (s : string) : option (Z * Z * Z * string) :=
  match read_year s with
  | Some (y, s1) =>
      match read_dash s1 with
      | Some s2 =>
          match read_month s2 with
          | Some (m, s3) =>
              match read_dash s3 with
              | Some s4 =>
                  match read_day s4 with
                  | Some (d, rest) => Some (y, m, d, rest)
                  | None => None
                  end
              | None => None
              end
          | None => None
          end
      | None => None
      end
  | None => None
  end.

Definition is_leap (y : Z) : bool :=
  ((y mod 4 =? 0) && negb (y mod 100 =? 0)) || (y mod 400 =? 0).

Definition days_in_month (y m : Z) : Z :=
  if m =? 2 then (if is_leap y then 29 else 28)
  else if (m =? 4) || (m =? 6) || (m =? 9) || (m =? 11) then 30
  else 31.

Section Strptime.

Variable pf : platform.

(** [datetime.strptime(s, "%Y-%m-%d")], with the messages of its [ValueError]s:
    the text does not match; text is left over after the match; the date does
    not exist. *)
Definition strptime (s : string) : outcome (Z * Z * Z) :=
  match match_ymd s with
  | None =>
      Raise (ValueError ("time data " ^^ repr pf (JStr s) ^^
                         " does not match format '%Y-%m-%d'"))
  | Some (y, m, d, rest) =>
      if negb (String.eqb rest "") then
        Raise (ValueError ("unconverted data remains: " ^^ rest))
      else if y =? 0 then Raise (ValueError "year 0 is out of range")
      else if days_in_month y m <? d then Raise (ValueError "day is out of range for month")
      else Ok (y, m, d)
  end.

(** [int(datetime.strptime(a, "%Y-%m-%d").timestamp() * 1000)]; [strptime]
    refuses an argument that is not a string with a [TypeError], and
    [timestamp] can raise for a date that [strptime] accepted. *)
Definition date_ms (a : arg) : outcome Z :=
  match a with
  | AStr s =>
      ymd <- strptime s ;;
      let '(y, m, d) := ymd in
      ts <- local_midnight pf y m d ;;
      Ok (ts * 1000)
  | AInt _ => Raise TypeError
  end.

End Strptime.

(** ** [sorted(..., key=..., reverse=True)] *)

(** Numbers compare by value, exactly: both are brought to the smaller
    exponent. *)
Definition exponent (n : num) : Z :=
  match n with
  | NInt _ => 0
  | NFloat _ e => e
  end.

Definition scaled (n : num) (e0 : Z) : Z :=
  match n with
  | NInt z => z * 2 ^ (0 - e0)
  | NFloat m e => m * 2 ^ (e - e0)
  end.

Definition num_ltb (a b : num) : bool :=
  let e0 := Z.min (exponent a) (exponent b) in
  scaled a e0 <? scaled b e0.

Definition num_eqb (a b : num) : bool :=
  let e0 := Z.min (exponent a) (exponent b) in
  scaled a e0 =? scaled b e0.

(** [a == b]: numbers by value, texts and [None] by identity of value, lists
    item by item, dicts (which hold each key once) key by key; values of
    different kinds are unequal. *)
Fixpoint py_eq (a b : json) {struct a} : bool :=
  match as_num a, as_num b with
  | Some x, Some y => num_eqb x y
  | _, _ =>
      match a, b with
      | JNull, JNull => true
      | JStr s, JStr s' => String.eqb s s'
      | JArr l, JArr l' =>
          (fix eq_items (l l' : list json) {struct l} : bool :=
             match l, l' with
             | [], [] => true
             | x :: r, y :: r' => py_eq x y && eq_items r r'
             | _, _ => false
             end) l l'
      | JObj f, JObj f' =>
          Nat.eqb (List.length f) (List.length f') &&
          (fix eq_fields (f : list (string * json)) {struct f} : bool :=
             match f with
             | [] => true
             | (k, v) :: r =>
                 match lookup k f' with
                 | Some v' => py_eq v v'
                 | None => false
                 end && eq_fields r
             end) f
      | _, _ => false
      end
  end.

(** [a < b]: numbers with numbers; texts with texts, by code point, which is
    the order of their UTF-8 bytes; lists with lists, by the first pair of
    items that are not equal, or by length when there is none; [None], a
    dict, or operands of different kinds raise [TypeError]. *)
Fixpoint py_lt (a b : json) {struct a} : outcome bool :=
  match as_num a, as_num b with
  | Some x, Some y => Ok (num_ltb x y)
  | _, _ =>
      match a, b with
      | JStr s, JStr s' => Ok (String.ltb s s')
      | JArr l, JArr l' =>
          (fix lt_items (l l' : list json) {struct l} : outcome bool :=
             match l, l' with
             | [], [] => Ok false
             | [], _ :: _ => Ok true
             | _ :: _, [] => Ok false
             | x :: r, y :: r' => if py_eq x y then lt_items r r' else py_lt x y
             end) l l'
      | _, _ => Raise TypeError
      end
  end.

(** The sort key of [get_recent_permits]:
    [x.get("properties", {}).get("IssuedDate", 0)]. *)
Definition issued_key (x : json) : outcome json :=
  props <- dict_get x "properties" (JObj []) ;;
  dict_get props "IssuedDate" (JInt 0).

(** A stable sort into descending key order, on (key, item) pairs: an item
    goes behind the items of larger key and ahead of those of equal key that
    came after it in the input. *)
Fixpoint insert_desc (kx x : json) (l : list (json * json))
    : outcome (list (json * json)) :=
  match l with
  | [] => Ok [(kx, x)]
  | (ky, y) :: rest =>
      b <- py_lt kx ky ;;
      if b then
        r <- insert_desc kx x rest ;;
        Ok ((ky, y) :: r)
      else Ok ((kx, x) :: (ky, y) :: rest)
  end.

Fixpoint sort_desc (l : list (json * json)) : outcome (list (json * json)) :=
  match l with
  | [] => Ok []
  | (k, x) :: rest =>
      s <- sort_desc rest ;;
      insert_desc k x s
  end.

(** [sorted(items, key=issued_key, reverse=True)]: the keys are computed
    first, then the items are ordered by them. *)
Definition sorted_by_issued_desc (items : list json) : outcome (list json) :=
  keys <- map_outcome issued_key items ;;
  s <- sort_desc (combine keys items) ;;
  Ok (map snd s).

(** [l[:n]] *)
Definition take (n : Z) (l : list json) : list json :=
  if 0 <=? n then firstn (Z.to_nat n) l
  else firstn (List.length l - Z.to_nat (- n)) l.

(** ** The operations *)

(** [TextContent(type="text", text=...)] *)
Inductive content : Type :=
| TextContent (text : string).

(** [needle in hay] for strings *)
Fixpoint contains (needle hay : string) : bool :=
  String.prefix needle hay ||
  match hay with
  | EmptyString => false
  | String _ rest => contains needle rest
  end.

(** ["k" in v] *)
Definition py_in (k : string) (v : json) : outcome bool :=
  match v with
  | JObj fields => Ok (match lookup k fields with Some _ => true | None => false end)
  | JArr items =>
      Ok (existsb (fun x => match x with JStr s => String.eqb s k | _ => false end) items)
  | JStr s => Ok (contains k s)
  | _ => Raise TypeError
  end.

(** [v[0]] *)
Definition first_item (v : json) : outcome json :=
  match v with
  | JArr (x :: _) => Ok x
  | JArr [] => Raise IndexError
  | JStr s =>
      match code_points s with
      | c :: _ => Ok (JStr c)
      | [] => Raise IndexError
      end
  | JObj _ => Raise KeyError
  | _ => Raise TypeError
  end.

(** [max_records=limit]: the loop guard compares [len(all_features)] with it,
    and an [int] does not compare with a [str]. *)
Definition limit_of (limit : arg) : outcome Z :=
  match limit with
  | AInt z => Ok z
  | AStr _ => Raise TypeError
  end.

Definition join_lines (results : list string) : string := String.concat nl results.

Section Operations.

Variable pf : platform.
Variable service : remote.

Definition result := option (outcome (list content) * trace).

(** [data = await query_permit_api_paginated(where_clause=where, max_records=...)]
    followed by the rest of the handler. *)
Definition with_pages (fuel : nat) (where_clause : string) (max_records : Z)
    (rest : json -> outcome (list content)) (t : trace) : result :=
  match query_permit_api_paginated service fuel where_clause "*" (Some max_records) 1000 t with
  | Some (Ok data, t') => Some (rest data, t')
  | Some (Raise e, t') => Some (Raise e, t')
  | None => None
  end.

(** The tail the three search handlers share: the "no permits" text when
    [data.get("features")] is falsy, otherwise the formatted records under a
    header that shows [data.get("totalRetrieved", len(results))]. *)
Definition found_or_none (none_text : string) (header : string -> string) (data : json)
    : outcome (list content) :=
  features <- dict_get data "features" JNull ;;
  if negb (truthy features) then Ok [TextContent none_text]
  else
    feats <- py_iter features ;;
    results <- map_outcome (format_permit pf) feats ;;
    total <- dict_get data "totalRetrieved" (JInt (Z.of_nat (List.length results))) ;;
    Ok [TextContent (header (py_str pf total) ^^ join_lines results)].

Definition search_permits_by_address (fuel : nat) (args : arguments) (t : trace) : result :=
  let address := arg_get args "address" (AStr "") in
  let limit := arg_get args "limit" (AInt 50) in
  match address_where address with
  | Raise e => Some (Raise e, t)
  | Ok where_clause =>
      match limit_of limit with
      | Raise e => Some (Raise e, t)
      | Ok max_records =>
          with_pages fuel where_clause max_records
            (found_or_none
               ("No permits found matching address: " ^^ arg_str address)
               (fun total => "Found " ^^ total ^^ " permit(s) matching '" ^^
                             arg_str address ^^ "':" ^^ nl ^^ nl)) t
      end
  end.

Definition search_permits_by_date_range (fuel : nat) (args : arguments) (t : trace)
    : result :=
  let start_date := arg_get args "start_date" (AStr "") in
  let end_date := arg_get args "end_date" (AStr "") in
  let limit := arg_get args "limit" (AInt 50) in
  match (start_ts <- date_ms pf start_date ;;
         end_ts <- date_ms pf end_date ;;
         Ok (start_ts, end_ts)) with
  | Raise (ValueError msg) =>
      Some (Ok [TextContent
                  ("Invalid date format. Please use YYYY-MM-DD format. Error: " ^^ msg)],
            t)
  | Raise e => Some (Raise e, t)
  | Ok (start_ts, end_ts) =>
      let where_clause :=
        "IssuedDate >= " ^^ str_of_int start_ts ^^
        " AND IssuedDate <= " ^^ str_of_int end_ts in
      match limit_of limit with
      | Raise e => Some (Raise e, t)
      | Ok max_records =>
          with_pages fuel where_clause max_records
            (found_or_none
               ("No permits found for date range " ^^ arg_str start_date ^^
                " to " ^^ arg_str end_date)
               (fun total => "Found " ^^ total ^^ " permit(s) from " ^^
                             arg_str start_date ^^ " to " ^^ arg_str end_date ^^
                             ":" ^^ nl ^^ nl)) t
      end
  end.

Definition search_permits_by_neighborhood (fuel : nat) (args : arguments) (t : trace)
    : result :=
  let neighborhood := arg_get args "neighborhood" (AStr "") in
  let limit := arg_get args "limit" (AInt 50) in
  match neighborhood_where neighborhood with
  | Raise e => Some (Raise e, t)
  | Ok where_clause =>
      match limit_of limit with
      | Raise e => Some (Raise e, t)
      | Ok max_records =>
          with_pages fuel where_clause max_records
            (found_or_none
               ("No permits found in neighborhood: " ^^ arg_str neighborhood)
               (fun total => "Found " ^^ total ^^ " permit(s) in '" ^^
                             arg_str neighborhood ^^ "':" ^^ nl ^^ nl)) t
      end
  end.

Definition search_permits_by_case_number (args : arguments) (t : trace) : result :=
  let case_number := arg_get args "case_number" (AStr "") in
  match case_number_where case_number with
  | Raise e => Some (Raise e, t)
  | Ok where_clause =>
      Some ((data <~ query_permit_api service where_clause "*" None None false ;;
             io_ret (
               features <- dict_get data "features" JNull ;;
               if negb (truthy features) then
                 Ok [TextContent ("No permit found with case number: " ^^
                                  arg_str case_number)]
               else
                 feat <- first_item features ;;
                 r <- format_permit pf feat ;;
                 Ok [TextContent ("Permit details:" ^^ nl ^^ nl ^^ r)])) t)
  end.

(** The cutoff of [get_recent_permits],
    [int((cutoff_date.timestamp() - (days * 24 * 60 * 60)) * 1000)]: the
    seconds of the days are an [int]; the difference with the timestamp and
    its product with 1000 are taken in floats, and the result is cut to an
    [int]. *)
Definition cutoff_ts (days : Z) : outcome Z :=
  let now := binary_normalize 53 1024 (today_midnight pf) 0 false in
  seconds <- float_of_int (days * 24 * 60 * 60) ;;
  thousand <- float_of_int 1000 ;;
  int_of_float (float_mul (float_sub now seconds) thousand).

(** The records [get_recent_permits] renders: the fetched batch sorted by
    issue date, newest first, cut to [limit]. *)
Definition recent_selection (limit : Z) (feats : list json) : outcome (list json) :=
  s <- sorted_by_issued_desc feats ;;
  Ok (take limit s).

Definition get_recent_permits (fuel : nat) (args : arguments) (t : trace) : result :=
  let limit := arg_get args "limit" (AInt 50) in
  let days := arg_get args "days" (AInt 30) in
  match days with
  | AStr _ => Some (Raise TypeError, t)
  | AInt d =>
      match cutoff_ts d with
      | Raise e => Some (Raise e, t)
      | Ok cutoff =>
          let where_clause := "IssuedDate >= " ^^ str_of_int cutoff in
          match limit_of limit with
          | Raise e => Some (Raise e, t)
          | Ok l =>
              with_pages fuel where_clause (l * 2)
                (fun data =>
                   fetched <- dict_get data "features" JNull ;;
                   if negb (truthy fetched) then
                     Ok [TextContent ("No permits found in the last " ^^ arg_str days ^^
                                      " days")]
                   else
                     feats <- py_iter fetched ;;
                     features <- recent_selection l feats ;;
                     results <- map_outcome (format_permit pf) features ;;
                     Ok [TextContent
                           ("Found " ^^ str_of_int (Z.of_nat (List.length results)) ^^
                            " recent permit(s) (last " ^^ arg_str days ^^ " days):" ^^
                            nl ^^ nl ^^ join_lines results)]) t
          end
      end
  end.

(** The count the response carries: under [properties] when the response has
    that key, at the top level otherwise, 0 when there is none. *)
Definition count_of (data : json) : outcome json :=
  nested <- py_in "properties" data ;;
  if nested then
    props <- dict_get data "properties" (JObj []) ;;
    dict_get props "count" (JInt 0)
  else dict_get data "count" (JInt 0).

(** [count_permits]; the filter goes out as the text [httpx] makes of it. *)
Definition count_permits (args : arguments) (t : trace) : result :=
  let where_clause := arg_get args "where_clause" (AStr "1=1") in
  Some ((data <~ query_permit_api service (arg_str where_clause) "*" None None true ;;
         io_ret (
           count <- count_of data ;;
           Ok [TextContent ("Found " ^^ py_str pf count ^^
                            " permit(s) matching the query: " ^^
                            arg_str where_clause)])) t).

(** [call_tool]: dispatch on the operation name.  [fuel] bounds the rounds of
    the pagination loop; [None] means they were used up. *)
Definition call_tool (fuel : nat) (name : string) (args : arguments) (t : trace) : result :=
  if String.eqb name "search_permits_by_address" then
    search_permits_by_address fuel args t
  else if String.eqb name "search_permits_by_date_range" then
    search_permits_by_date_range fuel args t
  else if String.eqb name "search_permits_by_neighborhood" then
    search_permits_by_neighborhood fuel args t
  else if String.eqb name "search_permits_by_case_number" then
    search_permits_by_case_number args t
  else if String.eqb name "get_recent_permits" then
    get_recent_permits fuel args t
  else if String.eqb name "count_permits" then
    count_permits args t
  else Some (Raise (ValueError ("Unknown tool: " ^^ name)), t).

End Operations.

(** ** A reference host and reference services

    The properties below hold for every platform and are stated for every
    service; concrete runs use a host in UTC and services that serve a fixed
    list of records. *)

Module Reference.

(** Days since 1970-01-01 of a civil date, and back (proleptic Gregorian). *)
Definition days_from_civil (y m d : Z) : Z :=
  let y' := if m <=? 2 then y - 1 else y in
  let era := y' / 400 in
  let yoe := y' - era * 400 in
  let mp := if 2 <? m then m - 3 else m + 9 in
  let doy := (153 * mp + 2) / 5 + d - 1 in
  let doe := yoe * 365 + yoe / 4 - yoe / 100 + doy in
  era * 146097 + doe - 719468.

Definition civil_from_days (z : Z) : Z * Z * Z :=
  let z' := z + 719468 in
  let era := z' / 146097 in
  let doe := z' - era * 146097 in
  let yoe := (doe - doe / 1460 + doe / 36524 - doe / 146096) / 365 in
  let doy := doe - (365 * yoe + yoe / 4 - yoe / 100) in
  let mp := (5 * doy + 2) / 153 in
  let d := doy - (153 * mp + 2) / 5 + 1 in
  let m := if mp <? 10 then mp + 3 else mp - 9 in
  ((yoe + era * 400) + (if m <=? 2 then 1 else 0), m, d).

(** [z] in decimal, padded with zeros on the left to [width] digits. *)
Definition padded (width : nat) (z : Z) : string :=
  let s := str_of_int z in
  String.concat "" (repeat "0" (width - String.length s)) ^^ s.

(** The number times [10^k], rounded to the nearest integer (halves upward). *)
Definition rounded (k : Z) (n : num) : Z :=
  match n with
  | NInt z => z * 10 ^ k
  | NFloat m e =>
      if 0 <=? e then m * 2 ^ e * 10 ^ k
      else (2 * m * 10 ^ k + 2 ^ (- e)) / 2 ^ (1 - e)
  end.

Definition utc_date (n : num) : outcome string :=
  let '(y, m, d) := civil_from_days (rounded 0 n / 86400000) in
  if (y <? 1) || (9999 <? y) then
    Raise (ValueError ("year " ^^ str_of_int y ^^ " is out of range"))
  else Ok (padded 4 y ^^ "-" ^^ padded 2 m ^^ "-" ^^ padded 2 d).

Definition sign_of (z : Z) : string := if z <? 0 then "-" else "".

Definition fixed6_of (n : num) : outcome string :=
  let r := rounded 6 n in
  Ok (sign_of r ^^ str_of_int (Z.abs r / 1000000) ^^ "." ^^
      padded 6 (Z.abs r mod 1000000)).

(** The digits of [z >= 0] in groups of three, for at most [fuel] groups. *)
Fixpoint grouped (fuel : nat) (z : Z) : string :=
  match fuel with
  | O => str_of_int z
  | S fuel' =>
      if z <? 1000 then str_of_int z
      else grouped fuel' (z / 1000) ^^ "," ^^ padded 3 (z mod 1000)
  end.

Definition grouped0_of (n : num) : outcome string :=
  let r := rounded 0 n in
  Ok (sign_of r ^^ grouped (Z.to_nat (Z.log2 (Z.abs r))) (Z.abs r)).

(** [repr], for text free of quotes, backslashes and control characters. *)
Fixpoint repr_of (v : json) : string :=
  match v with
  | JNull => "None"
  | JBool true => "True"
  | JBool false => "False"
  | JInt z => str_of_int z
  | JFloat m e =>
      match fixed6_of (NFloat m e) with
      | Ok s => s
      | Raise _ => ""
      end
  | JStr s => "'" ^^ s ^^ "'"
  | JArr items => "[" ^^ String.concat ", " (map repr_of items) ^^ "]"
  | JObj fields =>
      "{" ^^ String.concat ", "
               (map (fun kv => match kv with
                               | (k, x) => "'" ^^ k ^^ "': " ^^ repr_of x
                               end) fields) ^^ "}"
  end.

(** A host whose local time is UTC, on 2025-11-04.  [timestamp] looks at the
    local time a day before the date, which for 0001-01-01 lies in the year
    0. *)
Definition utc : platform := {|
  local_date := utc_date;
  fixed6 := fixed6_of;
  grouped0 := grouped0_of;
  repr := repr_of;
  local_midnight := fun y m d =>
    if (y =? 1) && (m =? 1) && (d =? 1) then Raise (ValueError "year 0 is out of range")
    else Ok (days_from_civil y m d * 86400);
  today_midnight := days_from_civil 2025 11 4 * 86400
|}.

(** The window [db[off : off + n]]. *)
Definition window (db : list json) (off n : Z) : list json :=
  firstn (Z.to_nat n) (skipn (Z.to_nat off) db).

(** A service that holds the records [db], returns at most [cap] of them per
    request from the offset asked, and sets [exceededTransferLimit] exactly
    when records remain behind the page. *)
Definition dataset (db : list json) (cap : Z) : remote :=
  fun _ p =>
    let off := match param "resultOffset" p with Some (PInt z) => z | _ => 0 end in
    let n := match param "resultRecordCount" p with
             | Some (PInt z) => Z.min z cap
             | _ => cap
             end in
    Body (JObj [("type", JStr "FeatureCollection");
                ("features", JArr (window db off n));
                ("exceededTransferLimit",
                 JBool (off + n <? Z.of_nat (List.length db)))]).


(** A service like [dataset], whose [k]-th request fails in transport. *)
Definition failing_at (k : nat) (msg : string) (db : list json) (cap : Z) : remote :=
  fun n p => if Nat.eqb n k then HTTPError msg else dataset db cap n p.

(** A service that answers every request with the same body. *)
Definition constant (data : json) : remote := fun _ _ => Body data.

(** A permit with a case number and an issue date. *)
Definition permit (case_number : string) (issued : Z) : json :=
  JObj [("type", JStr "Feature");
        ("properties", JObj [("CaseNumber", JStr case_number);
                             ("IssuedDate", JInt issued)]);
        ("geometry", JObj [("type", JStr "Point");
                           ("coordinates", JArr [JFloat (-5020713) (-16);
                                                 JFloat 2575237 (-16)])])].

End Reference.

(** ** Contracts a service may honour *)

(** A request of the pagination loop carries a record count of at least one. *)
Definition asks_for_some (p : params) : Prop :=
  exists b, param "resultRecordCount" p = Some (PInt b) /\ 1 <= b.

(** The service holds the records [db], returns at most [cap] per request
    from the offset asked, and flags [exceededTransferLimit] exactly when
    records remain behind the page it returned. *)
Definition serves (db : list json) (cap : Z) (service : remote) : Prop :=
  forall n w f off cnt, 0 <= off -> 1 <= cnt ->
    exists data more,
      service n (build_params w f (Some off) (Some cnt) false) = Body data /\
      dict_get data "features" (JArr []) =
        Ok (JArr (Reference.window db off (Z.min cnt cap))) /\
      dict_get data "exceededTransferLimit" (JBool false) = Ok more /\
      truthy more = (off + Z.min cnt cap <? Z.of_nat (List.length db)).


(** A record that carries an integer issue date, or none: an object whose
    [properties], when it has them, are an object whose [IssuedDate], when it
    has one, is an integer. *)
Definition dated_record (x : json) : Prop :=
  match x with
  | JObj fields =>
      match lookup "properties" fields with
      | None => True
      | Some (JObj props) =>
          match lookup "IssuedDate" props with
          | None | Some (JInt _) => True
          | Some _ => False
          end
      | Some _ => False
      end
  | _ => False
  end.

(** The service sends well-formed pages: each reply is a body whose
    [features] is a list of dated records, not longer than the request
    allowed. *)
Definition tidy (service : remote) : Prop :=
  forall n p,
    exists data page,
      service n p = Body data /\
      dict_get data "features" (JArr []) = Ok (JArr page) /\
      Forall dated_record page /\
      (forall b, param "resultRecordCount" p = Some (PInt b) ->
                 Z.of_nat (List.length page) <= Z.max b 0).

(** The issue date of a record in epoch milliseconds, read off the record:
    the integer that its properties hold as [IssuedDate].  A record that
    holds none counts as issued at 0. *)
Definition issued_ms (x : json) : Z :=
  match x with
  | JObj fields =>
      match lookup "properties" fields with
      | Some (JObj props) =>
          match lookup "IssuedDate" props with
          | Some (JInt z) => z
          | _ => 0
          end
      | _ => 0
      end
  | _ => 0
  end.

(** ** String literals of the filter language

    The service reads a filter as SQL: a string literal opens with a quote and
    runs to the next quote that is not doubled; a doubled quote stands for one
    quote of the text. *)

(** After the opening quote: the text the literal denotes and what follows
    its closing quote; [None] when the literal is not closed. *)
Fixpoint read_quoted (s : string) : option (string * string) :=
  match s with
  | EmptyString => None
  | String c rest =>
      if Ascii.eqb c quote then
        match rest with
        | String c' rest' =>
            if Ascii.eqb c' quote then
              match read_quoted rest' with
              | Some (text, after) => Some (String quote text, after)
              | None => None
              end
            else Some (EmptyString, rest)
        | EmptyString => Some (EmptyString, EmptyString)
        end
      else
        match read_quoted rest with
        | Some (text, after) => Some (String c text, after)
        | None => None
        end
  end.

Definition read_literal (s : string) : option (string * string) :=
  match s with
  | String c rest => if Ascii.eqb c quote then read_quoted rest else None
  | EmptyString => None
  end.

Fixpoint count_quotes (s : string) : nat :=
  match s with
  | EmptyString => O
  | String c rest => ((if Ascii.eqb c quote then 1 else 0) + count_quotes rest)%nat
  end.

(** The filter each search operation sends for a text value. *)
Definition address_clause (s : string) : string :=
  if String.eqb s "" then "1=1" else "Address LIKE '%" ^^ escape_quotes s ^^ "%'".

Definition neighborhood_clause (s : string) : string :=
  "Neighborhood LIKE '%" ^^ escape_quotes s ^^ "%'".

Definition case_number_clause (s : string) : string :=
  "CaseNumber = '" ^^ escape_quotes s ^^ "'".

(** The filter of [get_recent_permits] for a cutoff in epoch milliseconds. *)
Definition recent_clause (cutoff : Z) : string :=
  "IssuedDate >= " ^^ str_of_int cutoff.

(** The answer of [get_recent_permits] for the records it selected. *)
Definition recent_answer (pf : platform) (days : Z) (selection : list json)
    : outcome (list content) :=
  results <- map_outcome (format_permit pf) selection ;;
  Ok [TextContent
        ("Found " ^^ str_of_int (Z.of_nat (List.length results)) ^^
         " recent permit(s) (last " ^^ str_of_int days ^^ " days):" ^^
         nl ^^ nl ^^ join_lines results)].

(** Newest first. *)
Definition newer_first (a b : json) : Prop := issued_ms b <= issued_ms a.

(** A (key, record) pair of the sort whose key is the record's issue date. *)
Definition dated (p : json * json) : Prop := fst p = JInt (issued_ms (snd p)).

(** ** The declared operations *)

Definition dq : string := String (ascii_of_nat 34) EmptyString.

(** One entry of a schema's ["properties"]: its type, description and
    default, when it declares one. *)
Record property : Type := {
  prop_type : string;
  prop_description : string;
  prop_default : option arg
}.

(** [Tool(name=..., description=..., inputSchema={"type": "object",
    "properties": ..., "required": ...})] *)
Record Tool : Type := {
  tool_name : string;
  tool_description : string;
  tool_properties : list (string * property);
  tool_required : list string
}.

Definition limit_property : property := {|
  prop_type := "integer";
  prop_description := "Maximum number of results to return (default: 50)";
  prop_default := Some (AInt 50)
|}.

(** [list_tools] *)
Definition list_tools : list Tool := [
  {| tool_name := "search_permits_by_address";
     tool_description :=
       "Search for building permits by address or address pattern. Returns permits matching the address search.";
     tool_properties :=
       [("address",
         {| prop_type := "string";
            prop_description :=
              "Address or part of address to search for (e.g., '100 Main St' or 'Main')";
            prop_default := None |});
        ("limit", limit_property)];
     tool_required := ["address"] |};
  {| tool_name := "search_permits_by_date_range";
     tool_description :=
       "Search for permits issued within a date range. Dates should be in YYYY-MM-DD format.";
     tool_properties :=
       [("start_date",
         {| prop_type := "string";
            prop_description := "Start date in YYYY-MM-DD format (e.g., '2024-01-01')";
            prop_default := None |});
        ("end_date",
         {| prop_type := "string";
            prop_description := "End date in YYYY-MM-DD format (e.g., '2024-12-31')";
            prop_default := None |});
        ("limit", limit_property)];
     tool_required := ["start_date"; "end_date"] |};
  {| tool_name := "search_permits_by_neighborhood";
     tool_description := "Search for permits in a specific neighborhood.";
     tool_properties :=
       [("neighborhood",
         {| prop_type := "string";
            prop_description := "Neighborhood name (e.g., 'Fells Point', 'Canton')";
            prop_default := None |});
        ("limit", limit_property)];
     tool_required := ["neighborhood"] |};
  {| tool_name := "search_permits_by_case_number";
     tool_description := "Get a specific permit by case number (e.g., 'COM2018-86246').";
     tool_properties :=
       [("case_number",
         {| prop_type := "string";
            prop_description := "Permit case number (e.g., 'COM2018-86246')";
            prop_default := None |})];
     tool_required := ["case_number"] |};
  {| tool_name := "get_recent_permits";
     tool_description :=
       "Get recently issued permits. Returns the most recent permits up to the specified limit.";
     tool_properties :=
       [("limit", limit_property);
        ("days",
         {| prop_type := "integer";
            prop_description := "Number of days to look back (default: 30)";
            prop_default := Some (AInt 30) |})];
     tool_required := [] |};
  {| tool_name := "count_permits";
     tool_description :=
       "Count permits matching a query. Useful for checking how many permits match criteria before fetching details.";
     tool_properties :=
       [("where_clause",
         {| prop_type := "string";
            prop_description :=
              "SQL WHERE clause for filtering (e.g., " ^^ dq ^^ "Address LIKE '%Main%'" ^^
              dq ^^ ", " ^^ dq ^^ "Council_District = 1" ^^ dq ^^ ")";
            prop_default := None |})];
     tool_required := ["where_clause"] |}
].

(** ** What a fetch has received *)

(** The records a round takes from a reply: the elements of a truthy
    [features] that can be iterated, none otherwise. *)
Definition page_items (r : reply) : list json :=
  match r with
  | Body data =>
      match dict_get data "features" (JArr []) with
      | Ok features =>
          if truthy features then
            match py_iter features with
            | Ok items => items
            | Raise _ => []
            end
          else []
      | Raise _ => []
      end
  | _ => []
  end.

(** The [k]-th request of a trace, counted from 0. *)
Definition request (t : trace) (k : nat) : params := nth k t [].

(** The records taken from the replies to the first [n] requests of a
    trace, in the order of the requests. *)
Definition received (service : remote) (t : trace) (n : nat) : list json :=
  flat_map (fun i => page_items (service i (request t i))) (seq 0 n).

(** The service never sends more records than a request asked for. *)
Definition modest (service : remote) : Prop :=
  forall n p b,
    param "resultRecordCount" p = Some (PInt b) ->
    Z.of_nat (List.length (page_items (service n p))) <= Z.max b 0.

(** The exception a reply makes the round raise whatever the state of the
    loop, when there is one: the body is not JSON, or it is JSON but not an
    object. *)
Definition unreadable (r : reply) : option exn :=
  match r with
  | BadJson msg => Some (ValueError msg)
  | Body (JObj _) => None
  | Body _ => Some AttributeError
  | HTTPError _ => None
  end.

(** The answer of a search handler for the records fetched: the text for
    none, or the header with the number of rendered records over the
    rendered records. *)
Definition search_answer (pf : platform) (none_text : string)
    (header : string -> string) (fetched : list json) : outcome (list content) :=
  match fetched with
  | [] => Ok [TextContent none_text]
  | _ :: _ =>
      results <- map_outcome (format_permit pf) fetched ;;
      Ok [TextContent (header (str_of_int (Z.of_nat (List.length results))) ^^
                       join_lines results)]
  end.

(** ** Records the formatter can render *)

(** The exceptions the date blocks of [format_permit] catch:
    [except (ValueError, TypeError, OSError)]. *)
Definition caught (e : exn) : bool :=
  match e with
  | ValueError _ | TypeError | OSError => true
  | _ => false
  end.

(** A number that the given float format prints. *)
Definition number_prints (print : num -> outcome string) (v : json) : Prop :=
  exists n s, as_num v = Some n /\ print n = Ok s.

(** A date field the formatter gets past: empty, not a number, or a number
    whose conversion to a local date succeeds or fails with a caught
    exception. *)
Definition date_ok (pf : platform) (v : json) : Prop :=
  truthy v = true ->
  forall n e, as_num v = Some n -> local_date pf n = Raise e -> caught e = true.

(** Coordinates the formatter gets past: none, or exactly two numbers. *)
Definition coords_ok (pf : platform) (c : json) : Prop :=
  truthy c = true ->
  exists lon lat,
    py_iter c = Ok [lon; lat] /\
    number_prints (fixed6 pf) lat /\ number_prints (fixed6 pf) lon.

(** A cost the formatter gets past: none or zero, or a number. *)
Definition cost_ok (pf : platform) (c : json) : Prop :=
  truthy c = true -> number_prints (grouped0 pf) c.

(** A description that can be sliced: a string (or a list). *)
Definition sliceable (d : json) : Prop :=
  match d with
  | JStr _ | JArr _ => True
  | _ => False
  end.

(** The records [format_permit] renders: [properties] and [geometry] are
    objects when present, and the two dates, the coordinates, the cost and
    the description are as above. *)
Definition renderable (pf : platform) (permit : json) : Prop :=
  exists ps gs issued expires c cost d,
    dict_get permit "properties" (JObj []) = Ok (JObj ps) /\
    dict_get permit "geometry" (JObj []) = Ok (JObj gs) /\
    dict_get (JObj ps) "IssuedDate" JNull = Ok issued /\ date_ok pf issued /\
    dict_get (JObj ps) "ExpirationDate" JNull = Ok expires /\ date_ok pf expires /\
    dict_get (JObj gs) "coordinates" JNull = Ok c /\ coords_ok pf c /\
    dict_get (JObj ps) "Cost" JNull = Ok cost /\ cost_ok pf cost /\
    dict_get (JObj ps) "Description" (JStr "N/A") = Ok d /\ sliceable d.

(** * Properties of the pagination loop *)

Section FetcherFacts.

Variable service : remote.
Variables (w f : string) (max_records : option Z) (page_size : Z).

Lemma paginate_exit fuel all off t :
  below_total all max_records = false ->
  paginate service fuel w f max_records page_size all off t = Some (Ok all, t).
Proof.
  intros H. destruct fuel; simpl; rewrite H; reflexivity.
Qed.

Lemma paginate_round fuel all off t :
  below_total all max_records = true ->
  paginate service (S fuel) w f max_records page_size all off t =
  match page_round service w f max_records page_size all off t with
  | (Raise e, t') => Some (Raise e, t')
  | (Ok (Break all'), t') => Some (Ok all', t')
  | (Ok (Continue all' off'), t') =>
      paginate service fuel w f max_records page_size all' off' t'
  end.
Proof.
  intros H. simpl. rewrite H. reflexivity.
Qed.

(** A round issues exactly one request, with the offset and batch size of the
    moment, and its outcome is decided by the reply. *)
Lemma page_round_eq all off t :
  let b := batch_size_of all max_records page_size in
  let p := build_params w f (Some off) (Some b) false in
  page_round service w f max_records page_size all off t =
  (match service (List.length t) p with
   | Body data => after_page data b all off
   | HTTPError msg => Raise (Exception ("Failed to fetch permit data: " ^^ msg))
   | BadJson msg => Raise (ValueError msg)
   end, t ++ [p]).
Proof.
  unfold page_round, io_bind, query_permit_api, io_ret. cbv zeta.
  destruct (service _ _); reflexivity.
Qed.

(** A text that is not empty has a character. *)
Lemma code_points_nonempty c s : code_points (String c s) <> [].
Proof.
  unfold code_points. cbn [split_chars].
  destruct (split_chars s) as [k l]. destruct (continuation c); discriminate.
Qed.

(** A truthy value that can be iterated has an element. *)
Lemma truthy_iter_nonempty v items :
  truthy v = true -> py_iter v = Ok items -> items <> [].
Proof.
  destruct v; simpl; try discriminate.
  - destruct s; simpl; [discriminate|]. intros _ [= <-]. unfold chars.
    pose proof (code_points_nonempty a s) as H.
    destruct (code_points (String a s)); [congruence|discriminate].
  - destruct items0; [discriminate|]. intros _ [= <-]. discriminate.
  - destruct fields; [discriminate|]. intros _ [= <-]. discriminate.
Qed.

Lemma iter_len v items n :
  py_iter v = Ok items -> py_len v = Ok n -> n = Z.of_nat (List.length items).
Proof.
  destruct v; simpl; try discriminate; intros [= <-] [= <-].
  - unfold chars. now rewrite length_map.
  - reflexivity.
  - now rewrite length_map.
Qed.

(** The loop goes on only after a page that added at least one record, at
    least as many as were asked for, and that the service flagged. *)
Lemma after_page_continue data b all off all' off' :
  after_page data b all off = Ok (Continue all' off') ->
  exists features items more,
    dict_get data "features" (JArr []) = Ok features /\
    py_iter features = Ok items /\ items <> [] /\
    all' = all ++ items /\
    off' = off + Z.of_nat (List.length items) /\
    b <= Z.of_nat (List.length items) /\
    dict_get data "exceededTransferLimit" (JBool false) = Ok more /\
    truthy more = true.
Proof.
  unfold after_page.
  destruct (dict_get data "features" (JArr [])) as [features|] eqn:Hf; simpl; [|discriminate].
  destruct (truthy features) eqn:Ht; simpl; [|discriminate].
  destruct (py_iter features) as [items|] eqn:Hi; simpl; [|discriminate].
  destruct (py_len features) as [n|] eqn:Hn; simpl; [|discriminate].
  pose proof (iter_len _ _ _ Hi Hn) as ->.
  destruct (Z.ltb_spec (Z.of_nat (List.length items)) b); [discriminate|].
  destruct (dict_get data "exceededTransferLimit" (JBool false)) as [more|] eqn:Hm;
    simpl; [|discriminate].
  destruct (truthy more) eqn:Htm; simpl; [|discriminate].
  intros [= <- <-].
  exists features, items, more.
  repeat split; auto.
  exact (truthy_iter_nonempty _ _ Ht Hi).
Qed.

(** More fuel does not change a run that has ended. *)
Lemma paginate_more_fuel fuel k all off t r :
  paginate service fuel w f max_records page_size all off t = Some r ->
  paginate service (fuel + k) w f max_records page_size all off t = Some r.
Proof.
  revert all off t. induction fuel as [|fuel IH]; intros all off t.
  - simpl. destruct (below_total all max_records) eqn:Hb; [discriminate|].
    intros [= <-]. now apply paginate_exit.
  - destruct (below_total all max_records) eqn:Hb.
    + change (S fuel + k)%nat with (S (fuel + k)). rewrite !paginate_round by assumption.
      destruct (page_round _ _ _ _ _ _ _ _) as [[[all' off'|all']|e] t']; auto.
    + rewrite !paginate_exit by assumption. auto.
Qed.

(** The proof rule of the loop: an invariant of its head that every round
    keeps, and a property of the ways it ends. *)
Lemma paginate_rule (I : list json -> Z -> trace -> Prop)
    (Q : outcome (list json) -> trace -> Prop) :
  (forall all off t, I all off t -> below_total all max_records = false -> Q (Ok all) t) ->
  (forall all off t, I all off t -> below_total all max_records = true ->
     match page_round service w f max_records page_size all off t with
     | (Raise e, t') => Q (Raise e) t'
     | (Ok (Break all'), t') => Q (Ok all') t'
     | (Ok (Continue all' off'), t') => I all' off' t'
     end) ->
  forall fuel all off t out t',
    I all off t ->
    paginate service fuel w f max_records page_size all off t = Some (out, t') ->
    Q out t'.
Proof.
  intros Hexit Hround. induction fuel as [|fuel IH]; intros all off t out t' HI.
  - simpl. destruct (below_total all max_records) eqn:Hb; [discriminate|].
    intros [= <- <-]. eauto.
  - destruct (below_total all max_records) eqn:Hb.
    + rewrite paginate_round by assumption.
      specialize (Hround _ _ _ HI Hb).
      destruct (page_round _ _ _ _ _ _ _ _) as [[[all' off'|all']|e] t1].
      * intros H. exact (IH _ _ _ _ _ Hround H).
      * intros [= <- <-]. exact Hround.
      * intros [= <- <-]. exact Hround.
    + rewrite paginate_exit by assumption. intros [= <- <-]. eauto.
Qed.

End FetcherFacts.

(** The four ways a round can go on a page that is a list. *)

Lemma after_page_empty data b all off :
  dict_get data "features" (JArr []) = Ok (JArr []) ->
  after_page data b all off = Ok (Break all).
Proof.
  intros H. unfold after_page. rewrite H. reflexivity.
Qed.

Lemma after_page_short data b all off page :
  dict_get data "features" (JArr []) = Ok (JArr page) ->
  page <> [] ->
  Z.of_nat (List.length page) < b ->
  after_page data b all off = Ok (Break (all ++ page)).
Proof.
  intros H Hne Hlt. unfold after_page. rewrite H.
  destruct page as [|x page]; [congruence|].
  cbn [bind truthy negb py_iter py_len].
  destruct (Z.ltb_spec (Z.of_nat (List.length (x :: page))) b); [reflexivity|lia].
Qed.

Lemma after_page_unflagged data b all off page more :
  dict_get data "features" (JArr []) = Ok (JArr page) ->
  page <> [] ->
  b <= Z.of_nat (List.length page) ->
  dict_get data "exceededTransferLimit" (JBool false) = Ok more ->
  truthy more = false ->
  after_page data b all off = Ok (Break (all ++ page)).
Proof.
  intros H Hne Hge Hm Hf. unfold after_page. rewrite H.
  destruct page as [|x page]; [congruence|].
  cbn [bind truthy negb py_iter py_len].
  destruct (Z.ltb_spec (Z.of_nat (List.length (x :: page))) b); [lia|].
  rewrite Hm. cbn [bind]. rewrite Hf. reflexivity.
Qed.

Lemma after_page_flagged data b all off page more :
  dict_get data "features" (JArr []) = Ok (JArr page) ->
  page <> [] ->
  b <= Z.of_nat (List.length page) ->
  dict_get data "exceededTransferLimit" (JBool false) = Ok more ->
  truthy more = true ->
  after_page data b all off =
  Ok (Continue (all ++ page) (off + Z.of_nat (List.length page))).
Proof.
  intros H Hne Hge Hm Hf. unfold after_page. rewrite H.
  destruct page as [|x page]; [congruence|].
  cbn [bind truthy negb py_iter py_len].
  destruct (Z.ltb_spec (Z.of_nat (List.length (x :: page))) b); [lia|].
  rewrite Hm. cbn [bind]. rewrite Hf. reflexivity.
Qed.

(** ** Termination (C3) *)

(** Closes the case of a round that ended the loop: the run is over and the
    trace grew by the one request of the round. *)
Ltac round_over :=
  eexists _, _; split; [reflexivity|]; rewrite length_app; simpl; lia.

Section Termination.

Variable service : remote.
Variables (w f : string) (page_size : Z).

(** With [max_records] set, every round that does not end the loop adds a
    record, so the loop ends within [max_records - len(all_features)] rounds. *)
Lemma paginate_bounded M n all off t :
  M - Z.of_nat (List.length all) <= Z.of_nat n ->
  exists out t',
    paginate service n w f (Some M) page_size all off t = Some (out, t') /\
    (List.length t' <= List.length t + n)%nat.
Proof.
  revert all off t. induction n as [|n IH]; intros all off t Hn.
  - exists (Ok all), t. split; [|lia].
    apply paginate_exit. simpl. apply Z.ltb_ge. lia.
  - destruct (below_total all (Some M)) eqn:Hb.
    2:{ exists (Ok all), t. split; [now apply paginate_exit|lia]. }
    rewrite paginate_round by assumption. rewrite page_round_eq. cbv zeta.
    destruct (service _ _) as [data|msg|msg].
    + destruct (after_page data _ all off) as [[all' off'|all']|e] eqn:Ha.
      * apply after_page_continue in Ha.
        destruct Ha as (features & items & more & _ & _ & Hne & -> & _ & _).
        destruct (IH (all ++ items) off' (t ++ [build_params w f (Some off)
                     (Some (batch_size_of all (Some M) page_size)) false]))
          as (out & t' & Hrun & Hlen).
        { rewrite length_app. destruct items; [congruence|]. cbn [List.length]. lia. }
        exists out, t'. split; [exact Hrun|]. rewrite length_app in Hlen. simpl in Hlen. lia.
      * round_over.
      * round_over.
    + round_over.
    + round_over.
Qed.


End Termination.

Lemma paginated_of_paginate service fuel w f max_records page_size t out t' :
  paginate service fuel w f max_records page_size [] 0 t = Some (out, t') ->
  query_permit_api_paginated service fuel w f max_records page_size t =
  Some (match out with
        | Ok all => Ok (feature_collection all)
        | Raise e => Raise e
        end, t').
Proof.
  unfold query_permit_api_paginated. intros ->. destruct out; reflexivity.
Qed.

(** With [max_records] set, a fetch ends for every service. *)
Lemma bounded_fetch_ends (service : remote) (w f : string) (page_size M : Z) :
  exists fuel out t,
    query_permit_api_paginated service fuel w f (Some M) page_size [] = Some (out, t).
Proof.
  destruct (paginate_bounded service w f page_size M (Z.to_nat M) [] 0 [])
    as (out & t & Hrun & _).
  { simpl. lia. }
  exists (Z.to_nat M). eexists _, t. apply paginated_of_paginate; exact Hrun.
Qed.




(** ** The exact boundary (C2) *)

(** With [max_records] equal to the page size the loop never starts a second
    round: a page that lets it go on has filled the budget. *)
Lemma boundary_at_most_one_round service w f P fuel out t :
  paginate service fuel w f (Some P) P [] 0 [] = Some (out, t) ->
  (List.length t <= 1)%nat.
Proof.
  intros Hrun.
  refine (paginate_rule service w f (Some P) P
            (fun all _ t => (all = [] /\ t = []) \/
                            (P <= Z.of_nat (List.length all) /\ List.length t = 1%nat))
            (fun _ t => (List.length t <= 1)%nat) _ _ fuel [] 0 [] out t _ Hrun).
  - intros all off t0 [[-> ->]|[_ ->]] _; simpl; lia.
  - intros all off t0 [[-> ->]|[Hfull _]] Hb.
    2:{ simpl in Hb. apply Z.ltb_lt in Hb. lia. }
    rewrite page_round_eq. cbv zeta.
    destruct (service _ _) as [data|msg|msg]; try (simpl; lia).
    destruct (after_page data _ [] off) as [[all' off'|all']|e] eqn:Ha; try (simpl; lia).
    apply after_page_continue in Ha.
    destruct Ha as (features & items & more & _ & _ & _ & -> & _ & Hge & _).
    right. split; [|reflexivity].
    unfold batch_size_of in Hge. simpl in Hge. simpl. lia.
  - left. split; reflexivity.
Qed.

(** C2.  Fetching with [max_records] equal to the page size [P]: when the
    service answers the first request with a full page of [P] records and
    does not flag [exceededTransferLimit], the fetcher returns that page after
    exactly one request.  Whatever the service answers, a second request is
    issued only if the first reply flagged more data; in fact the fetcher
    never issues one, the budget being spent by then. *)
Theorem exact_boundary_one_round (service : remote) (w f : string) (P : Z)
    (data more : json) (page : list json) (fuel : nat) :
  1 <= P ->
  service 0%nat (build_params w f (Some 0) (Some P) false) = Body data ->
  dict_get data "features" (JArr []) = Ok (JArr page) ->
  Z.of_nat (List.length page) = P ->
  dict_get data "exceededTransferLimit" (JBool false) = Ok more ->
  truthy more = false ->
  query_permit_api_paginated service (S fuel) w f (Some P) P [] =
    Some (Ok (feature_collection page), [build_params w f (Some 0) (Some P) false]) /\
  (forall (other : remote) (n : nat) out t,
     query_permit_api_paginated other n w f (Some P) P [] = Some (out, t) ->
     ((2 <= List.length t)%nat ->
      exists d m,
        other 0%nat (build_params w f (Some 0) (Some P) false) = Body d /\
        dict_get d "exceededTransferLimit" (JBool false) = Ok m /\
        truthy m = true) /\
     (List.length t <= 1)%nat).
Proof.
  intros HP Hreply Hfeat Hlen Hmore Hflag. split.
  - unfold query_permit_api_paginated.
    rewrite paginate_round by (simpl; apply Z.ltb_lt; lia).
    rewrite page_round_eq. cbv zeta.
    assert (batch_size_of [] (Some P) P = P) as ->.
    { unfold batch_size_of. simpl. lia. }
    simpl List.length. rewrite Hreply.
    assert (page <> []) as Hne by (destruct page; [simpl in Hlen; lia|discriminate]).
    assert (P <= Z.of_nat (List.length page)) as Hge by lia.
    rewrite (after_page_unflagged data P [] 0 page more Hfeat Hne Hge Hmore Hflag).
    reflexivity.
  - intros other n out t Hrun.
    assert ((List.length t <= 1)%nat) as Hone.
    { unfold query_permit_api_paginated in Hrun.
      destruct (paginate other n w f (Some P) P [] 0 []) as [[o t0]|] eqn:Hp;
        [|discriminate].
      apply boundary_at_most_one_round in Hp.
      destruct o; injection Hrun as _ <-; exact Hp. }
    split; [intros Htwo; lia|exact Hone].
Qed.

(** A run of C2: a service holding exactly three records, fetched with
    [max_records = page_size = 3]. *)
Lemma exact_boundary_one_round_example :
  query_permit_api_paginated
    (Reference.dataset [Reference.permit "A" 1; Reference.permit "B" 2;
                        Reference.permit "C" 3] 1000)
    1 "1=1" "*" (Some 3) 3 [] =
  Some (Ok (feature_collection [Reference.permit "A" 1; Reference.permit "B" 2;
                                Reference.permit "C" 3]),
        [build_params "1=1" "*" (Some 0) (Some 3) false]).
Proof.
  refine (proj1 (exact_boundary_one_round
            (Reference.dataset [Reference.permit "A" 1; Reference.permit "B" 2;
                                Reference.permit "C" 3] 1000)
            "1=1" "*" 3 _ (JBool false) _ 0 _ eq_refl eq_refl eq_refl eq_refl eq_refl)).
  lia.
Defined.

(** ** Transport errors (C6) *)

(** The request that meets an [httpx.HTTPError] is the last of the fetch, and
    the fetch ends in the exception that wraps the error. *)
Lemma transport_error_is_last (service : remote) (w f : string)
    (max_records : option Z) (page_size : Z) (fuel : nat)
    (out : outcome json) (t : trace) (k : nat) (msg : string) :
  query_permit_api_paginated service fuel w f max_records page_size [] = Some (out, t) ->
  (k < List.length t)%nat ->
  service k (nth k t []) = HTTPError msg ->
  out = Raise (Exception ("Failed to fetch permit data: " ^^ msg)) /\
  List.length t = S k.
Proof.
  intros Hrun Hk Hfail.
  unfold query_permit_api_paginated in Hrun.
  destruct (paginate service fuel w f max_records page_size [] 0 []) as [[o t0]|] eqn:Hp;
    [|discriminate].
  assert (t0 = t) as -> by (destruct o; congruence).
  assert (o = Raise (Exception ("Failed to fetch permit data: " ^^ msg)) /\
          List.length t = S k) as [-> Hlen].
  2:{ split; [congruence|exact Hlen]. }
  clear Hrun.
  refine (paginate_rule service w f max_records page_size
            (fun _ _ t => forall j m, (j < List.length t)%nat ->
                                      service j (nth j t []) <> HTTPError m)
            (fun o t => forall j m, (j < List.length t)%nat ->
                                    service j (nth j t []) = HTTPError m ->
                                    o = Raise (Exception ("Failed to fetch permit data: " ^^ m)) /\
                                    List.length t = S j)
            _ _ fuel [] 0 [] o t _ Hp k msg Hk Hfail).
  - intros all off t0 HI _ j m Hj Hm. exfalso. exact (HI j m Hj Hm).
  - intros all off t0 HI _. rewrite page_round_eq. cbv zeta.
    set (p := build_params w f (Some off) (Some (batch_size_of all max_records page_size)) false).
    assert (forall j m, (j < List.length (t0 ++ [p]))%nat ->
                        service j (nth j (t0 ++ [p]) []) = HTTPError m ->
                        j = List.length t0 /\ service (List.length t0) p = HTTPError m)
      as Hlast.
    { intros j m Hj Hm. rewrite length_app in Hj. simpl in Hj.
      destruct (Nat.eq_dec j (List.length t0)) as [->|Hne].
      - rewrite nth_middle in Hm. auto.
      - exfalso. apply (HI j m); [lia|]. rewrite app_nth1 in Hm by lia. exact Hm. }
    destruct (service (List.length t0) p) as [data|m0|m0] eqn:Hs.
    + destruct (after_page data _ all off) as [[all' off'|all']|e].
      * intros j m Hj Hm. destruct (Hlast j m Hj Hm) as [_ ?]. discriminate.
      * intros j m Hj Hm. destruct (Hlast j m Hj Hm) as [_ ?]. discriminate.
      * intros j m Hj Hm. destruct (Hlast j m Hj Hm) as [_ ?]. discriminate.
    + intros j m Hj Hm. destruct (Hlast j m Hj Hm) as [-> [= ->]].
      split; [reflexivity|]. rewrite length_app. simpl. lia.
    + intros j m Hj Hm. destruct (Hlast j m Hj Hm) as [_ ?]. discriminate.
  - intros j m Hj. simpl in Hj. lia.
Qed.

(** C6.  When a request of a paginated fetch fails with an
    [httpx.HTTPError] ([msg] its text), the fetch ends in the exception
    [Exception("Failed to fetch permit data: " + msg)]: the outcome carries no
    records, those of the earlier pages included, and the failed request is
    the last one issued, so nothing is retried and no further page is asked
    for.  A search handler that called the fetch ends in the same exception,
    whatever it would have done with the records. *)
Theorem fetch_error_aborts (service : remote) (w f : string)
    (max_records : option Z) (page_size : Z) (fuel : nat)
    (out : outcome json) (t : trace) (k : nat) (msg : string) :
  query_permit_api_paginated service fuel w f max_records page_size [] = Some (out, t) ->
  (k < List.length t)%nat ->
  service k (nth k t []) = HTTPError msg ->
  out = Raise (Exception ("Failed to fetch permit data: " ^^ msg)) /\
  List.length t = S k /\
  (forall M rest,
     f = "*" -> max_records = Some M -> page_size = 1000 ->
     with_pages service fuel w M rest [] =
     Some (Raise (Exception ("Failed to fetch permit data: " ^^ msg)), t)).
Proof.
  intros Hrun Hk Hfail.
  destruct (transport_error_is_last _ _ _ _ _ _ _ _ _ _ Hrun Hk Hfail) as [-> Hlen].
  split; [reflexivity|]. split; [exact Hlen|].
  intros M rest -> -> ->. unfold with_pages. rewrite Hrun. reflexivity.
Qed.

(** A run of C6: the second page of a search for 2000 permits times out. *)
Lemma fetch_error_aborts_example :
  let service := Reference.failing_at 1 "timed out"
                   (repeat (Reference.permit "A" 1) 1500) 1000 in
  let t := [build_params "1=1" "*" (Some 0) (Some 1000) false;
            build_params "1=1" "*" (Some 1000) (Some 1000) false] in
  let out := Raise (Exception "Failed to fetch permit data: timed out") in
  query_permit_api_paginated service 5 "1=1" "*" (Some 2000) 1000 [] = Some (out, t) /\
  service 1%nat (nth 1 t []) = HTTPError "timed out" /\
  out = Raise (Exception ("Failed to fetch permit data: " ^^ "timed out")) /\
  List.length t = 2%nat /\
  (forall M rest,
     "*" = "*" -> Some 2000 = Some M -> 1000 = 1000 ->
     with_pages service 5 "1=1" M rest [] =
     Some (Raise (Exception ("Failed to fetch permit data: " ^^ "timed out")), t)).
Proof.
  cbv zeta.
  assert (query_permit_api_paginated
            (Reference.failing_at 1 "timed out" (repeat (Reference.permit "A" 1) 1500) 1000)
            5 "1=1" "*" (Some 2000) 1000 [] =
          Some (Raise (Exception "Failed to fetch permit data: timed out"),
                [build_params "1=1" "*" (Some 0) (Some 1000) false;
                 build_params "1=1" "*" (Some 1000) (Some 1000) false])) as Hrun.
  { vm_compute. reflexivity. }
  split; [exact Hrun|]. split; [reflexivity|].
  exact (fetch_error_aborts _ "1=1" "*" (Some 2000) 1000 5 _ _ 1 "timed out"
           Hrun (le_n 2) eq_refl).
Defined.

(** ** What a fetch returns (C1) *)

Lemma count_param w f off b :
  param "resultRecordCount" (build_params w f (Some off) (Some b) false) = Some (PInt b).
Proof. reflexivity. Qed.

Lemma offset_param w f off b :
  param "resultOffset" (build_params w f (Some off) (Some b) false) = Some (PInt off).
Proof. reflexivity. Qed.

(** With a page size of at least one, every request of the loop asks for at
    least one record, whatever the service replies. *)
Lemma requests_ask_for_some service w f max_records page_size fuel all off t out t' :
  1 <= page_size ->
  Forall asks_for_some t ->
  paginate service fuel w f max_records page_size all off t = Some (out, t') ->
  Forall asks_for_some t'.
Proof.
  intros HP Ht Hrun.
  refine (paginate_rule service w f max_records page_size
            (fun _ _ t => Forall asks_for_some t)
            (fun _ t => Forall asks_for_some t) _ _ fuel all off t out t' Ht Hrun).
  - auto.
  - intros all0 off0 t0 HI Hb. rewrite page_round_eq. cbv zeta.
    assert (Forall asks_for_some
              (t0 ++ [build_params w f (Some off0)
                        (Some (batch_size_of all0 max_records page_size)) false])) as Hall.
    { apply Forall_app. split; [exact HI|]. constructor; [|constructor].
      exists (batch_size_of all0 max_records page_size). split; [apply count_param|].
      unfold batch_size_of, below_total in *. destruct max_records as [m|]; [|exact HP].
      apply Z.ltb_lt in Hb. lia. }
    destruct (service _ _) as [data|m|m]; try exact Hall.
    destruct (after_page data _ all0 off0) as [[all' off'|all']|e]; exact Hall.
Qed.

Lemma firstn_window {A : Type} (a b : nat) (l : list A) :
  firstn a l ++ firstn b (skipn a l) = firstn (a + b) l.
Proof.
  revert l. induction a as [|a IH]; intros l; [reflexivity|].
  destruct l as [|x l]; simpl.
  - now rewrite firstn_nil.
  - now rewrite IH.
Qed.

Section Serving.

Variables (db : list json) (cap : Z) (service : remote).
Variables (w f : string) (M P : Z).
Hypothesis Hserves : serves db cap service.
Hypothesis HP : 1 <= P.

Let N := Z.of_nat (List.length db).

Hypothesis Hcap : Z.min P M <= cap \/ N <= cap.

(** The loop against a service that honours offsets and counts: from a state
    that holds the first [off] records it ends with the first [M]. *)
Lemma paginate_serves n all off t :
  0 <= off <= N ->
  off <= Z.max M 0 ->
  all = firstn (Z.to_nat off) db ->
  N - off < Z.of_nat n ->
  exists t', paginate service n w f (Some M) P all off t =
             Some (Ok (firstn (Z.to_nat M) db), t').
Proof.
  revert all off t. induction n as [|n IH]; intros all off t Hoff HM Hall Hn; [lia|].
  assert (Z.of_nat (List.length all) = off) as Hlen.
  { subst all. rewrite length_firstn. unfold N in Hoff. lia. }
  destruct (below_total all (Some M)) eqn:Hb.
  2:{ exists t. rewrite paginate_exit by assumption.
      simpl in Hb. apply Z.ltb_ge in Hb.
      assert (Z.to_nat off = Z.to_nat M) as <- by lia. now subst all. }
  simpl in Hb. apply Z.ltb_lt in Hb.
  rewrite paginate_round by (simpl; apply Z.ltb_lt; lia).
  rewrite page_round_eq. cbv zeta.
  set (b := batch_size_of all (Some M) P).
  assert (1 <= b <= M - off /\ b <= Z.min P M) as [Hb1 Hb2].
  { unfold b, batch_size_of. lia. }
  destruct (Hserves (List.length t) w f off b) as (data & more & Hreply & Hfeat & Hmore & Hflag);
    [lia|lia|].
  rewrite Hreply.
  set (c := Z.min b cap) in *.
  assert (0 <= c <= b) as Hc by (unfold c; lia).
  set (page := Reference.window db off c) in *.
  assert (all ++ page = firstn (Z.to_nat (off + c)) db) as Happ.
  { subst all. unfold page, Reference.window. rewrite firstn_window. f_equal. lia. }
  assert (Z.of_nat (List.length page) = Z.min c (N - off)) as Hpl.
  { unfold page, Reference.window. rewrite length_firstn, length_skipn. unfold N. lia. }
  assert (forall k, N <= k -> firstn (Z.to_nat k) db = db) as Hfull.
  { intros k Hk. apply firstn_all2. unfold N in Hk. lia. }
  destruct page as [|x page'] eqn:Hpage.
  - rewrite (after_page_empty data b all off Hfeat).
    eexists. f_equal. f_equal. f_equal.
    simpl in Hpl. assert (off = N) as Hend by (unfold c in *; lia).
    rewrite (Hfull M) by lia. subst all. apply Hfull. lia.
  - rewrite <- Hpage in *.
    assert (page <> []) as Hne by (rewrite Hpage; discriminate).
    destruct (Z.lt_ge_cases (Z.of_nat (List.length page)) b) as [Hshort|Hlong].
    + rewrite (after_page_short data b all off page Hfeat Hne Hshort).
      eexists. f_equal. f_equal. f_equal.
      assert (N <= off + c /\ N <= M) as [H1 H2] by (unfold c in *; lia).
      rewrite Happ, (Hfull M), (Hfull (off + c)) by lia. reflexivity.
    + assert (c = b) as Hcb by lia. rewrite Hcb in *.
      destruct (truthy more) eqn:Htm.
      * rewrite (after_page_flagged data b all off page more Hfeat Hne Hlong Hmore Htm).
        symmetry in Hflag. apply Z.ltb_lt in Hflag. fold N in Hflag.
        replace (Z.of_nat (List.length page)) with b by lia.
        apply IH; try lia. exact Happ.
      * rewrite (after_page_unflagged data b all off page more Hfeat Hne Hlong Hmore Htm).
        symmetry in Hflag. apply Z.ltb_ge in Hflag. fold N in Hflag.
        eexists. f_equal. f_equal. f_equal.
        rewrite Happ, (Hfull M), (Hfull (off + b)) by lia. reflexivity.
Qed.

End Serving.

Lemma dataset_serves db cap : serves db cap (Reference.dataset db cap).
Proof.
  intros n w f off cnt Hoff Hcnt.
  eexists _, _. unfold Reference.dataset.
  rewrite count_param, offset_param.
  split; [reflexivity|]. split; [reflexivity|]. split; reflexivity.
Qed.

(** C1, amended.  With a page size of at least one, every request of a
    fetch asks for at least one record, whatever the maximum (set or not)
    and whatever the service replies.  Against a service that holds [N]
    records, serves them from the offset asked, at most [cap] per request,
    and flags [exceededTransferLimit] exactly when records remain, and whose
    [cap] is at least the first batch [min(P, M)] or at least [N], the fetch
    returns the first [min(max(M, 0), N)] records of the service. *)
Theorem fetch_returns_min (service : remote) (w f : string) (P : Z) :
  1 <= P ->
  (forall max_records fuel out t,
     query_permit_api_paginated service fuel w f max_records P [] = Some (out, t) ->
     Forall asks_for_some t) /\
  (forall db cap M,
     serves db cap service ->
     Z.min P M <= cap \/ Z.of_nat (List.length db) <= cap ->
     exists fuel t,
       query_permit_api_paginated service fuel w f (Some M) P [] =
         Some (Ok (feature_collection (firstn (Z.to_nat M) db)), t) /\
       Z.of_nat (List.length (firstn (Z.to_nat M) db)) =
         Z.min (Z.max M 0) (Z.of_nat (List.length db))).
Proof.
  intros HP. split.
  - intros max_records fuel out t Hrun.
    unfold query_permit_api_paginated in Hrun.
    destruct (paginate service fuel w f max_records P [] 0 []) as [[o t0]|] eqn:Hp;
      [|discriminate].
    assert (t0 = t) as -> by (destruct o; congruence).
    eapply requests_ask_for_some; [exact HP|constructor|exact Hp].
  - intros db cap M Hs Hcap.
    destruct (paginate_serves db cap service w f M P Hs HP Hcap
                (S (List.length db)) [] 0 []) as [t Hrun]; try lia; try reflexivity.
    exists (S (List.length db)), t. split.
    + now rewrite (paginated_of_paginate _ _ _ _ _ _ _ _ _ Hrun).
    + rewrite length_firstn. lia.
Qed.

(** A run of C1: seven records behind a cap of three, five asked for. *)
Lemma fetch_returns_min_example :
  let db := map (fun n => Reference.permit "P" (Z.of_nat n)) (seq 0 7) in
  1 <= 3 /\
  serves db 3 (Reference.dataset db 3) /\
  (exists fuel t,
     query_permit_api_paginated (Reference.dataset db 3) fuel "1=1" "*" (Some 5) 3 [] =
       Some (Ok (feature_collection (firstn (Z.to_nat 5) db)), t) /\
     Z.of_nat (List.length (firstn (Z.to_nat 5) db)) =
       Z.min (Z.max 5 0) (Z.of_nat (List.length db))) /\
  (forall max_records fuel out t,
     query_permit_api_paginated (Reference.dataset db 3) fuel "1=1" "*" max_records 3 [] =
       Some (out, t) ->
     Forall asks_for_some t).
Proof.
  cbv zeta.
  assert (1 <= 3) as HP by lia.
  split; [exact HP|]. split; [apply dataset_serves|].
  split.
  - refine (proj2 (fetch_returns_min _ "1=1" "*" 3 HP) _ 3 5 (dataset_serves _ 3) _).
    left. lia.
  - exact (proj1 (fetch_returns_min (Reference.dataset _ 3) "1=1" "*" 3 HP)).
Defined.

(** C1 as stated fails.  With a page size of zero the one request asks for
    zero records and nothing is returned; a service that sends three records
    when two are asked for makes the fetch return three, more than
    [max_records = 2]; and a service that serves at most two records per
    request makes a fetch with page size three stop after the first page,
    with two records where five of its six were asked for. *)
Lemma fetch_can_miss_min :
  (exists t,
     query_permit_api_paginated (Reference.dataset [JInt 1; JInt 2] 1000) 5 "1=1" "*"
       (Some 2) 0 [] = Some (Ok (feature_collection []), t) /\
     Exists (fun p => param "resultRecordCount" p = Some (PInt 0)) t) /\
  (exists service t,
     query_permit_api_paginated service 5 "1=1" "*" (Some 2) 1000 [] =
       Some (Ok (feature_collection [JInt 1; JInt 2; JInt 3]), t) /\
     Z.of_nat (List.length [JInt 1; JInt 2; JInt 3]) > 2) /\
  (exists db t,
     serves db 2 (Reference.dataset db 2) /\
     List.length db = 6%nat /\
     query_permit_api_paginated (Reference.dataset db 2) 5 "1=1" "*" (Some 5) 3 [] =
       Some (Ok (feature_collection (firstn 2 db)), t) /\
     Z.of_nat (List.length (firstn 2 db)) <> Z.min 5 (Z.of_nat (List.length db))).
Proof.
  split; [|split].
  - eexists. split; [reflexivity|]. constructor. reflexivity.
  - exists (Reference.constant (JObj [("features", JArr [JInt 1; JInt 2; JInt 3])])).
    eexists. split; [reflexivity|]. simpl. lia.
  - exists (map (fun n => JInt (Z.of_nat n)) (seq 0 6)). eexists.
    split; [apply dataset_serves|]. split; [reflexivity|].
    split; [reflexivity|]. simpl. lia.
Qed.

(** ** Requests of the search operations *)

Lemma where_param w f off cnt count_only :
  param "where" (build_params w f off cnt count_only) = Some (PStr w).
Proof. reflexivity. Qed.

(** Every request of a paginated fetch carries the filter it was given. *)
Lemma requests_carry_filter service w f max_records page_size fuel all off t out t' :
  Forall (fun p => param "where" p = Some (PStr w)) t ->
  paginate service fuel w f max_records page_size all off t = Some (out, t') ->
  Forall (fun p => param "where" p = Some (PStr w)) t'.
Proof.
  intros Ht Hrun.
  refine (paginate_rule service w f max_records page_size
            (fun _ _ t => Forall (fun p => param "where" p = Some (PStr w)) t)
            (fun _ t => Forall (fun p => param "where" p = Some (PStr w)) t)
            _ _ fuel all off t out t' Ht Hrun).
  - auto.
  - intros all0 off0 t0 HI _. rewrite page_round_eq. cbv zeta.
    assert (Forall (fun p => param "where" p = Some (PStr w))
              (t0 ++ [build_params w f (Some off0)
                        (Some (batch_size_of all0 max_records page_size)) false])) as Hall.
    { apply Forall_app. split; [exact HI|]. constructor; [apply where_param|constructor]. }
    destruct (service _ _) as [data|m|m]; try exact Hall.
    destruct (after_page data _ all0 off0) as [[all' off'|all']|e]; exact Hall.
Qed.

(** A fetch with a positive budget starts with the request for the first
    page. *)
Lemma paginated_first_request service w f M P fuel out t :
  1 <= M ->
  query_permit_api_paginated service fuel w f (Some M) P [] = Some (out, t) ->
  exists rest, t = build_params w f (Some 0) (Some (Z.min P M)) false :: rest.
Proof.
  intros HM Hrun. unfold query_permit_api_paginated in Hrun.
  destruct (paginate service fuel w f (Some M) P [] 0 []) as [[o t0]|] eqn:Hp;
    [|discriminate].
  assert (t0 = t) as -> by (destruct o; congruence). clear Hrun.
  set (p0 := build_params w f (Some 0) (Some (Z.min P M)) false).
  refine (paginate_rule service w f (Some M) P
            (fun all off t => (all = [] /\ off = 0 /\ t = []) \/ exists rest, t = p0 :: rest)
            (fun _ t => exists rest, t = p0 :: rest)
            _ _ fuel [] 0 [] o t _ Hp).
  - intros all off t0 [(-> & _ & _)|H] Hb; [|exact H].
    simpl in Hb. apply Z.ltb_ge in Hb. lia.
  - intros all off t0 HI _. rewrite page_round_eq. cbv zeta.
    assert (exists rest,
              t0 ++ [build_params w f (Some off) (Some (batch_size_of all (Some M) P)) false]
              = p0 :: rest) as Hall.
    { destruct HI as [(-> & -> & ->)|[rest ->]].
      - exists []. unfold batch_size_of. simpl. now rewrite Z.sub_0_r.
      - eexists. reflexivity. }
    destruct (service _ _) as [data|m|m]; try exact Hall.
    destruct (after_page data _ all off) as [[all' off'|all']|e]; try exact Hall.
    right. exact Hall.
  - left. auto.
Qed.

(** A search handler with a positive limit runs to an end, and its first
    request is the first page under the handler's filter. *)
Lemma with_pages_starts service w M rest :
  1 <= M ->
  exists fuel out more,
    with_pages service fuel w M rest [] =
    Some (out, build_params w "*" (Some 0) (Some (Z.min 1000 M)) false :: more).
Proof.
  intros HM.
  destruct (bounded_fetch_ends service w "*" 1000 M) as (fuel & o & t & Hrun).
  destruct (paginated_first_request _ _ _ _ _ _ _ _ HM Hrun) as [more ->].
  exists fuel. unfold with_pages. rewrite Hrun.
  destruct o; eexists _, more; reflexivity.
Qed.

(** ** The empty filter value (C5) *)

(** C5 at the failing input.  An empty (or absent) address yields the filter
    [1=1]; an empty (or absent) neighborhood yields
    [Neighborhood LIKE '%%'], not [1=1], and that is the filter the first
    request of the operation carries. *)
Theorem empty_neighborhood_filter (pf : platform) (service : remote) :
  address_where (AStr "") = Ok "1=1" /\
  neighborhood_where (AStr "") = Ok "Neighborhood LIKE '%%'" /\
  (exists fuel out more,
     call_tool pf service fuel "search_permits_by_address" [("address", AStr "")] [] =
     Some (out, build_params "1=1" "*" (Some 0) (Some 50) false :: more)) /\
  (exists fuel out more,
     call_tool pf service fuel "search_permits_by_neighborhood"
       [("neighborhood", AStr "")] [] =
     Some (out, build_params "Neighborhood LIKE '%%'" "*" (Some 0) (Some 50) false
                :: more)) /\
  (exists fuel out more,
     call_tool pf service fuel "search_permits_by_neighborhood" [] [] =
     Some (out, build_params "Neighborhood LIKE '%%'" "*" (Some 0) (Some 50) false
                :: more)).
Proof.
  split; [reflexivity|]. split; [reflexivity|].
  split; [|split].
  - apply (with_pages_starts service "1=1" 50). lia.
  - apply (with_pages_starts service "Neighborhood LIKE '%%'" 50). lia.
  - apply (with_pages_starts service "Neighborhood LIKE '%%'" 50). lia.
Qed.

(** ** Records the formatter cannot render (C4) *)

(** A record whose [geometry] is [null] is never rendered: when the dates go
    through, [geom.get("coordinates")] is asked of [None]. *)
Lemma null_geometry_raises pf props s :
  format_permit pf (JObj [("properties", props); ("geometry", JNull)]) <> Ok s.
Proof.
  unfold format_permit. simpl dict_get. cbn [bind].
  destruct (format_date pf props "IssuedDate"); cbn [bind]; [|discriminate].
  destruct (format_date pf props "ExpirationDate"); cbn [bind]; discriminate.
Qed.

(** C4 at failing inputs.  On every platform [format_permit] raises
    [AttributeError] for a record whose geometry is [null], [TypeError] for
    one whose description is [null] or a number, [ValueError] for one whose
    cost is text, and [AttributeError] for one whose properties are [null];
    no record with a [null] geometry is rendered. *)
Theorem format_permit_raises (pf : platform) :
  format_permit pf (JObj [("properties", JObj []); ("geometry", JNull)])
    = Raise AttributeError /\
  format_permit pf (JObj [("properties", JObj [("Description", JNull)])])
    = Raise TypeError /\
  format_permit pf (JObj [("properties", JObj [("Description", JInt 7)])])
    = Raise TypeError /\
  format_permit pf (JObj [("properties", JObj [("Cost", JStr "unknown")])])
    = Raise (ValueError "Unknown format code 'f' for object of type 'str'") /\
  format_permit pf (JObj [("properties", JNull)]) = Raise AttributeError /\
  (forall props s,
     format_permit pf (JObj [("properties", props); ("geometry", JNull)]) <> Ok s).
Proof.
  repeat split; try reflexivity. intros props s. apply null_geometry_raises.
Qed.

(** ** Escaping of free text (C7) *)

Lemma append_assoc (a b c : string) : (a ^^ b) ^^ c = a ^^ (b ^^ c).
Proof.
  induction a as [|x a IH]; simpl; [reflexivity|]. now rewrite IH.
Qed.

Lemma escape_quotes_app a b :
  escape_quotes (a ^^ b) = escape_quotes a ^^ escape_quotes b.
Proof.
  induction a as [|c a IH]; simpl; [reflexivity|].
  destruct (Ascii.eqb c quote); simpl; now rewrite IH.
Qed.

Lemma count_quotes_escape s :
  count_quotes (escape_quotes s) = (2 * count_quotes s)%nat.
Proof.
  induction s as [|c s IH]; simpl; [reflexivity|].
  destruct (Ascii.eqb c quote) eqn:Hc; simpl.
  - change (Ascii.eqb quote quote) with true. simpl. rewrite IH. lia.
  - rewrite Hc. simpl. exact IH.
Qed.

(** Reading back an escaped text, closed by a quote that no quote follows,
    gives the text. *)
Lemma read_quoted_escape s after :
  (forall rest, after <> String quote rest) ->
  read_quoted (escape_quotes s ^^ String quote after) = Some (s, after).
Proof.
  intros Hafter. induction s as [|c s IH].
  - simpl. change (Ascii.eqb quote quote) with true.
    destruct after as [|c' rest]; [reflexivity|].
    destruct (Ascii.eqb_spec c' quote) as [->|_]; [|reflexivity].
    exfalso. eapply Hafter. reflexivity.
  - cbn [escape_quotes]. destruct (Ascii.eqb_spec c quote) as [->|Hne].
    + cbn [String.append read_quoted]. change (Ascii.eqb quote quote) with true.
      cbv iota. rewrite IH. reflexivity.
    + cbn [String.append read_quoted].
      destruct (Ascii.eqb_spec c quote) as [?|_]; [contradiction|].
      rewrite IH. reflexivity.
Qed.

Lemma read_literal_escape s :
  read_literal ("'" ^^ escape_quotes s ^^ "'") = Some (s, "").
Proof.
  change (read_quoted (escape_quotes s ^^ String quote "") = Some (s, "")).
  apply read_quoted_escape. discriminate.
Qed.

Lemma with_pages_requests service fuel w M rest out t :
  with_pages service fuel w M rest [] = Some (out, t) ->
  Forall (fun p => param "where" p = Some (PStr w)) t.
Proof.
  unfold with_pages, query_permit_api_paginated.
  destruct (paginate service fuel w "*" (Some M) 1000 [] 0 []) as [[o t0]|] eqn:Hp;
    [|discriminate].
  intros H. assert (t0 = t) as -> by (destruct o; congruence).
  eapply requests_carry_filter; [constructor|exact Hp].
Qed.

Lemma by_address_requests pf service fuel args s out t :
  arg_get args "address" (AStr "") = AStr s ->
  call_tool pf service fuel "search_permits_by_address" args [] = Some (out, t) ->
  Forall (fun p => param "where" p = Some (PStr (address_clause s))) t.
Proof.
  intros Ha. change (call_tool pf service fuel "search_permits_by_address" args [])
    with (search_permits_by_address pf service fuel args []).
  unfold search_permits_by_address. rewrite Ha.
  unfold address_where, address_clause. simpl arg_truthy. simpl replace_quotes.
  destruct (String.eqb s ""); cbn [negb bind];
    (destruct (limit_of _); [apply with_pages_requests|intros [= _ <-]; constructor]).
Qed.

Lemma by_neighborhood_requests pf service fuel args s out t :
  arg_get args "neighborhood" (AStr "") = AStr s ->
  call_tool pf service fuel "search_permits_by_neighborhood" args [] = Some (out, t) ->
  Forall (fun p => param "where" p = Some (PStr (neighborhood_clause s))) t.
Proof.
  intros Ha. change (call_tool pf service fuel "search_permits_by_neighborhood" args [])
    with (search_permits_by_neighborhood pf service fuel args []).
  unfold search_permits_by_neighborhood. rewrite Ha.
  unfold neighborhood_where, neighborhood_clause. cbn [replace_quotes bind].
  destruct (limit_of _); [apply with_pages_requests|intros [= _ <-]; constructor].
Qed.

Lemma by_case_number_requests pf service fuel args s out t :
  arg_get args "case_number" (AStr "") = AStr s ->
  call_tool pf service fuel "search_permits_by_case_number" args [] = Some (out, t) ->
  t = [build_params (case_number_clause s) "*" None None false].
Proof.
  intros Ha. change (call_tool pf service fuel "search_permits_by_case_number" args [])
    with (search_permits_by_case_number pf service args []).
  unfold search_permits_by_case_number. rewrite Ha.
  unfold case_number_where, case_number_clause. cbn [replace_quotes bind].
  unfold io_bind, query_permit_api, io_ret. simpl List.length. simpl app.
  destruct (service _ _); intros [= _ <-]; reflexivity.
Qed.

(** C7.  For every text [s] given as address, neighborhood or case number,
    the filter the operation sends is the column test followed by one string
    literal in which every quote of [s] is doubled: the escaped text has twice
    the quotes of [s], and read as SQL the literal ends with the filter and
    denotes [%s%] (address, neighborhood) or [s] (case number) again.  Every
    request of the operation carries that filter.  An empty address sends
    [1=1] instead. *)
Theorem free_text_is_escaped (s : string) :
  count_quotes (escape_quotes s) = (2 * count_quotes s)%nat /\
  address_where (AStr s) = Ok (address_clause s) /\
  neighborhood_where (AStr s) = Ok (neighborhood_clause s) /\
  case_number_where (AStr s) = Ok (case_number_clause s) /\
  (address_clause s =
     if String.eqb s "" then "1=1"
     else "Address LIKE " ^^ "'" ^^ escape_quotes ("%" ^^ s ^^ "%") ^^ "'") /\
  neighborhood_clause s =
    "Neighborhood LIKE " ^^ "'" ^^ escape_quotes ("%" ^^ s ^^ "%") ^^ "'" /\
  case_number_clause s = "CaseNumber = " ^^ "'" ^^ escape_quotes s ^^ "'" /\
  read_literal ("'" ^^ escape_quotes ("%" ^^ s ^^ "%") ^^ "'") = Some ("%" ^^ s ^^ "%", "") /\
  read_literal ("'" ^^ escape_quotes s ^^ "'") = Some (s, "") /\
  (forall pf service fuel args out t,
     (arg_get args "address" (AStr "") = AStr s ->
      call_tool pf service fuel "search_permits_by_address" args [] = Some (out, t) ->
      Forall (fun p => param "where" p = Some (PStr (address_clause s))) t) /\
     (arg_get args "neighborhood" (AStr "") = AStr s ->
      call_tool pf service fuel "search_permits_by_neighborhood" args [] = Some (out, t) ->
      Forall (fun p => param "where" p = Some (PStr (neighborhood_clause s))) t) /\
     (arg_get args "case_number" (AStr "") = AStr s ->
      call_tool pf service fuel "search_permits_by_case_number" args [] = Some (out, t) ->
      t = [build_params (case_number_clause s) "*" None None false])).
Proof.
  assert (escape_quotes ("%" ^^ s ^^ "%") = "%" ^^ escape_quotes s ^^ "%") as Hw.
  { rewrite !escape_quotes_app. reflexivity. }
  split; [apply count_quotes_escape|].
  split.
  { unfold address_where, address_clause. simpl. now destruct (String.eqb s ""). }
  split; [reflexivity|]. split; [reflexivity|].
  split.
  { unfold address_clause. destruct (String.eqb s ""); [reflexivity|].
    rewrite Hw. simpl. now rewrite append_assoc. }
  split.
  { unfold neighborhood_clause. rewrite Hw. simpl. now rewrite append_assoc. }
  split; [reflexivity|].
  split; [apply read_literal_escape|].
  split; [apply read_literal_escape|].
  intros pf service fuel args out t. split; [|split].
  - apply by_address_requests.
  - apply by_neighborhood_requests.
  - apply by_case_number_requests.
Qed.

(** The address [O'Brien]: the filter sent, and the literal read back. *)
Example obrien_is_escaped :
  call_tool Reference.utc (Reference.dataset [] 1000) 1 "search_permits_by_address"
    [("address", AStr "O'Brien"); ("limit", AInt 10)] [] =
    Some (Ok [TextContent "No permits found matching address: O'Brien"],
          [build_params "Address LIKE '%O''Brien%'" "*" (Some 0) (Some 10) false]) /\
  read_literal "'%O''Brien%'" = Some ("%O'Brien%", "") /\
  read_literal "'%O'Brien%'" = Some ("%O", "Brien%'").
Proof.
  repeat split; reflexivity.
Qed.

(** ** Malformed dates (C8) *)




(** The first day of the year 1, on a host in UTC: [strptime] accepts it and
    [timestamp] raises.  The text returned speaks of the year 0 whatever the
    end date is, and no request is issued. *)
Example first_day_is_not_converted :
  strptime Reference.utc "0001-01-01" = Ok (1, 1, 1) /\
  call_tool Reference.utc (Reference.dataset [] 1000) 1 "search_permits_by_date_range"
    [("start_date", AStr "0001-01-01"); ("end_date", AStr "tomorrow")] [] =
    Some (Ok [TextContent
                "Invalid date format. Please use YYYY-MM-DD format. Error: year 0 is out of range"],
          []).
Proof. split; reflexivity. Qed.


(** ** The count operation (C10) *)

(** C10, amended.  [count_permits] issues exactly one request, the one that
    carries [returnCountOnly] and neither an offset nor a record count,
    whatever the service replies and without entering the pagination loop (no
    fuel is used).  When the reply is an object, the text returned reports
    [str] of what the reply holds as [count], under [properties] or, if it
    has no [properties], at the top level, as it is: the integer [n] when
    that is an integer [n], of either sign; when the place holds no [count],
    it reports 0. *)
Theorem count_is_one_request (pf : platform) (service : remote) (fuel : nat)
    (args : arguments) :
  let where_clause := arg_str (arg_get args "where_clause" (AStr "1=1")) in
  let request := build_params where_clause "*" None None true in
  let reports (n : Z) :=
    call_tool pf service fuel "count_permits" args [] =
    Some (Ok [TextContent ("Found " ^^ str_of_int n ^^
                           " permit(s) matching the query: " ^^ where_clause)],
          [request]) in
  (exists out, call_tool pf service fuel "count_permits" args [] = Some (out, [request])) /\
  param "returnCountOnly" request = Some (PStr "true") /\
  param "resultOffset" request = None /\
  param "resultRecordCount" request = None /\
  (forall fields inner found,
     service 0%nat request = Body (JObj fields) ->
     (lookup "properties" fields = Some (JObj inner) /\ lookup "count" inner = found) \/
     (lookup "properties" fields = None /\ lookup "count" fields = found) ->
     call_tool pf service fuel "count_permits" args [] =
       Some (Ok [TextContent
                   ("Found " ^^
                    py_str pf (match found with Some v => v | None => JInt 0 end) ^^
                    " permit(s) matching the query: " ^^ where_clause)],
             [request]) /\
     (forall n, found = Some (JInt n) -> reports n) /\
     (found = None -> reports 0)).
Proof.
  cbv zeta.
  change (call_tool pf service fuel "count_permits" args [])
    with (count_permits pf service args []).
  unfold count_permits, io_bind, query_permit_api, io_ret. simpl List.length. simpl app.
  set (w := arg_str (arg_get args "where_clause" (AStr "1=1"))).
  split.
  { destruct (service _ _); eexists; reflexivity. }
  split; [reflexivity|]. split; [reflexivity|]. split; [reflexivity|].
  intros fields inner found Hreply Hshape. rewrite Hreply.
  unfold count_of. simpl py_in.
  destruct Hshape as [[Hp Hc]|[Hp Hc]]; rewrite Hp; cbn [bind dict_get]; rewrite ?Hp;
    cbn [bind dict_get]; rewrite Hc;
    (split; [reflexivity|split; [intros n ->; reflexivity|intros ->; reflexivity]]).
Qed.

(** C10 as stated fails: the count is not checked.  A reply that carries a
    negative count, or a text, is reported as it is. *)
Lemma count_is_passed_through :
  call_tool Reference.utc (Reference.constant (JObj [("count", JInt (-5))]))
    0 "count_permits" [("where_clause", AStr "1=1")] [] =
    Some (Ok [TextContent "Found -5 permit(s) matching the query: 1=1"],
          [build_params "1=1" "*" None None true]) /\
  call_tool Reference.utc
    (Reference.constant (JObj [("properties", JObj [("count", JStr "many")])]))
    0 "count_permits" [("where_clause", AStr "1=1")] [] =
    Some (Ok [TextContent "Found many permit(s) matching the query: 1=1"],
          [build_params "1=1" "*" None None true]).
Proof.
  split; reflexivity.
Qed.

(** The three shapes of a count reply: nested, at the top level, absent. *)
Example count_shapes :
  call_tool Reference.utc
    (Reference.constant (JObj [("type", JStr "FeatureCollection");
                               ("properties", JObj [("count", JInt 42)]);
                               ("features", JArr [])]))
    0 "count_permits" [("where_clause", AStr "1=1")] [] =
    Some (Ok [TextContent "Found 42 permit(s) matching the query: 1=1"],
          [build_params "1=1" "*" None None true]) /\
  call_tool Reference.utc (Reference.constant (JObj [("count", JInt 42)]))
    0 "count_permits" [("where_clause", AStr "1=1")] [] =
    Some (Ok [TextContent "Found 42 permit(s) matching the query: 1=1"],
          [build_params "1=1" "*" None None true]) /\
  call_tool Reference.utc (Reference.constant (JObj []))
    0 "count_permits" [] [] =
    Some (Ok [TextContent "Found 0 permit(s) matching the query: 1=1"],
          [build_params "1=1" "*" None None true]).
Proof.
  repeat split; reflexivity.
Qed.

(** ** Recent permits (C9) *)

(** The key the handler sorts by is the issue date of the record. *)
Lemma issued_key_ms x k : issued_key x = Ok (JInt k) -> issued_ms x = k.
Proof.
  unfold issued_key, issued_ms. destruct x as [| | | | | |fields]; try discriminate.
  cbn [dict_get bind].
  destruct (lookup "properties" fields) as [props|]; cbn [lookup].
  - destruct props as [| | | | | |ps]; try discriminate. cbn [dict_get].
    destruct (lookup "IssuedDate" ps) as [v|]; intros [= H]; [now subst v|exact H].
  - cbn [dict_get lookup]. intros [= H]. exact H.
Qed.

Lemma dated_record_key x : dated_record x -> issued_key x = Ok (JInt (issued_ms x)).
Proof.
  unfold dated_record, issued_key, issued_ms.
  destruct x as [| | | | | |fields]; try contradiction.
  cbn [dict_get bind].
  destruct (lookup "properties" fields) as [props|]; [|reflexivity].
  destruct props as [| | | | | |ps]; try contradiction. cbn [dict_get].
  destruct (lookup "IssuedDate" ps) as [v|]; [|reflexivity].
  destruct v; try contradiction. reflexivity.
Qed.

Lemma py_lt_int a b : py_lt (JInt a) (JInt b) = Ok (a <? b).
Proof.
  cbn [py_lt as_num]. unfold num_ltb, scaled, exponent. simpl. now rewrite !Z.mul_1_r.
Qed.

(** Inserting a dated pair into dated pairs, newest first. *)
Lemma insert_desc_dated x l :
  Forall dated l ->
  exists r,
    insert_desc (JInt (issued_ms x)) x l = Ok r /\
    Permutation ((JInt (issued_ms x), x) :: l) r /\
    (StronglySorted (fun p q => newer_first (snd p) (snd q)) l ->
     StronglySorted (fun p q => newer_first (snd p) (snd q)) r).
Proof.
  induction l as [|[ky y] l IH]; intros Hd.
  - eexists. split; [reflexivity|]. split; [apply Permutation_refl|].
    intros _. repeat constructor.
  - inversion Hd as [|? ? Hy Hl]; subst. unfold dated in Hy. simpl in Hy. subst ky.
    destruct (IH Hl) as (r & Hr & Hperm & Hsort).
    cbn [insert_desc]. rewrite py_lt_int. cbn [bind].
    destruct (Z.ltb_spec (issued_ms x) (issued_ms y)) as [Hlt|Hge].
    + rewrite Hr. cbn [bind]. eexists. split; [reflexivity|]. split.
      * eapply perm_trans; [apply perm_swap|]. now apply perm_skip.
      * intros Hs. inversion Hs as [|? ? Hrest Hall]; subst.
        constructor; [auto|].
        eapply Permutation_Forall; [exact Hperm|].
        constructor; [unfold newer_first; simpl; lia|exact Hall].
    + eexists. split; [reflexivity|]. split; [apply Permutation_refl|].
      intros Hs. constructor; [exact Hs|].
      inversion Hs as [|? ? Hrest Hall]; subst.
      constructor; [unfold newer_first; simpl; lia|].
      eapply Forall_impl; [|exact Hall].
      intros q Hq. unfold newer_first in *. simpl in *. lia.
Qed.

Lemma sort_desc_dated l :
  Forall dated l ->
  exists r,
    sort_desc l = Ok r /\
    Permutation l r /\
    StronglySorted (fun p q => newer_first (snd p) (snd q)) r.
Proof.
  induction l as [|[k x] l IH]; intros Hd.
  - exists []. repeat split; constructor.
  - inversion Hd as [|? ? Hx Hl]; subst. unfold dated in Hx. simpl in Hx. subst k.
    destruct (IH Hl) as (s & Hs & Hperm & Hsorted).
    assert (Forall dated s) as Hds by (eapply Permutation_Forall; eauto).
    destruct (insert_desc_dated x s Hds) as (r & Hr & Hperm' & Hsorted').
    cbn [sort_desc]. rewrite Hs. cbn [bind]. exists r.
    split; [exact Hr|]. split; [|auto].
    eapply perm_trans; [apply perm_skip; exact Hperm|exact Hperm'].
Qed.

Lemma issued_keys items :
  Forall (fun x => exists z, issued_key x = Ok (JInt z)) items ->
  map_outcome issued_key items = Ok (map (fun x => JInt (issued_ms x)) items).
Proof.
  induction 1 as [|x l [z Hz] _ IH]; [reflexivity|].
  cbn [map_outcome map]. rewrite Hz, (issued_key_ms _ _ Hz), IH. reflexivity.
Qed.

Lemma sorted_map_snd (s : list (json * json)) :
  StronglySorted (fun p q => newer_first (snd p) (snd q)) s ->
  StronglySorted newer_first (map snd s).
Proof.
  induction 1 as [|p s _ IH Hall]; simpl; constructor; auto.
  apply Forall_map. exact Hall.
Qed.

(** [sorted(..., reverse=True)] on records with integer issue dates: a
    rearrangement of the input, newest first. *)
Lemma sorted_by_issued_desc_spec items :
  Forall (fun x => exists z, issued_key x = Ok (JInt z)) items ->
  exists sorted,
    sorted_by_issued_desc items = Ok sorted /\
    Permutation items sorted /\
    StronglySorted newer_first sorted.
Proof.
  intros Hk. unfold sorted_by_issued_desc. rewrite (issued_keys items Hk). cbn [bind].
  set (pairs := combine (map (fun x => JInt (issued_ms x)) items) items).
  assert (Forall dated pairs) as Hd.
  { unfold pairs. clear Hk. induction items; simpl; constructor; auto. reflexivity. }
  assert (map snd pairs = items) as Hsnd.
  { unfold pairs. clear Hk Hd. induction items; simpl; [reflexivity|]. now f_equal. }
  destruct (sort_desc_dated pairs Hd) as (s & Hs & Hperm & Hsorted).
  rewrite Hs. cbn [bind]. exists (map snd s).
  split; [reflexivity|]. split; [|now apply sorted_map_snd].
  rewrite <- Hsnd at 1. now apply Permutation_map.
Qed.

Lemma Forall_firstn {A : Type} (Q : A -> Prop) (n : nat) (l : list A) :
  Forall Q l -> Forall Q (firstn n l).
Proof.
  intros H. revert n. induction H; intros [|n]; simpl; constructor; auto.
Qed.

Lemma Forall_skipn {A : Type} (Q : A -> Prop) (n : nat) (l : list A) :
  Forall Q l -> Forall Q (skipn n l).
Proof.
  intros H. revert n. induction H; intros [|n]; simpl; try constructor; auto.
Qed.

Lemma sorted_firstn {A : Type} (R : A -> A -> Prop) (n : nat) (l : list A) :
  StronglySorted R l -> StronglySorted R (firstn n l).
Proof.
  intros Hs. revert n. induction Hs as [|x l _ IH Hall]; intros [|n]; simpl;
    try constructor; auto.
  now apply Forall_firstn.
Qed.

Lemma map_outcome_length {A B : Type} (g : A -> outcome B) (l : list A) (r : list B) :
  map_outcome g l = Ok r -> List.length r = List.length l.
Proof.
  revert r. induction l as [|x l IH]; intros r; cbn [map_outcome].
  - intros [= <-]. reflexivity.
  - destruct (g x) as [y|]; cbn [bind]; [|discriminate].
    destruct (map_outcome g l) as [ys|]; cbn [bind]; [|discriminate].
    intros [= <-]. simpl. now rewrite (IH ys eq_refl).
Qed.

(** A fetch from a tidy service ends with dated records, no more of them
    than the budget. *)
Lemma tidy_fetch service w M :
  tidy service ->
  exists fuel fetched t,
    query_permit_api_paginated service fuel w "*" (Some M) 1000 [] =
      Some (Ok (feature_collection fetched), t) /\
    Forall dated_record fetched /\
    Z.of_nat (List.length fetched) <= Z.max M 0.
Proof.
  intros Htidy.
  destruct (paginate_bounded service w "*" 1000 M (Z.to_nat M) [] 0 [])
    as (out & t & Hrun & _).
  { simpl. lia. }
  assert (exists all, out = Ok all /\ Forall dated_record all /\
                      Z.of_nat (List.length all) <= Z.max M 0) as (all & -> & Hall & Hlen).
  { refine (paginate_rule service w "*" (Some M) 1000
              (fun all _ _ => Forall dated_record all /\
                              Z.of_nat (List.length all) <= Z.max M 0)
              (fun out _ => exists all, out = Ok all /\ Forall dated_record all /\
                                        Z.of_nat (List.length all) <= Z.max M 0)
              _ _ (Z.to_nat M) [] 0 [] out t _ Hrun).
    - intros all off t0 [HI Hl] _. exists all. auto.
    - intros all off t0 [HI Hl] Hb. rewrite page_round_eq. cbv zeta.
      set (b := batch_size_of all (Some M) 1000).
      destruct (Htidy (List.length t0) (build_params w "*" (Some off) (Some b) false))
        as (data & page & -> & Hfeat & Hpage & Hcount).
      specialize (Hcount b (count_param _ _ _ _)).
      simpl in Hb. apply Z.ltb_lt in Hb.
      assert (Forall dated_record (all ++ page) /\
              Z.of_nat (List.length (all ++ page)) <= Z.max M 0) as Hboth.
      { split; [apply Forall_app; auto|]. rewrite length_app.
        unfold b, batch_size_of in Hcount. lia. }
      destruct page as [|x page'] eqn:Hp.
      { rewrite (after_page_empty data b all off Hfeat). exists all. auto. }
      rewrite <- Hp in *.
      assert (page <> []) as Hne by (rewrite Hp; discriminate).
      destruct (Z.lt_ge_cases (Z.of_nat (List.length page)) b) as [Hshort|Hlong].
      { rewrite (after_page_short data b all off page Hfeat Hne Hshort).
        exists (all ++ page). tauto. }
      assert (exists more, dict_get data "exceededTransferLimit" (JBool false) = Ok more)
        as [more Hmore].
      { destruct data; try discriminate. eexists. reflexivity. }
      destruct (truthy more) eqn:Htm.
      + rewrite (after_page_flagged data b all off page more Hfeat Hne Hlong Hmore Htm).
        exact Hboth.
      + rewrite (after_page_unflagged data b all off page more Hfeat Hne Hlong Hmore Htm).
        exists (all ++ page). tauto.
    - split; [constructor|simpl; lia]. }
  exists (Z.to_nat M), all, t. split; [|auto].
  now rewrite (paginated_of_paginate _ _ _ _ _ _ _ _ _ Hrun).
Qed.

Lemma dataset_tidy db cap :
  Forall dated_record db -> tidy (Reference.dataset db cap).
Proof.
  intros Hdb n p. unfold Reference.dataset. eexists _, _.
  split; [reflexivity|]. split; [reflexivity|]. split.
  - unfold Reference.window. now apply Forall_firstn, Forall_skipn.
  - intros b Hb. rewrite Hb. unfold Reference.window. rewrite length_firstn. lia.
Qed.

(** C9.  Against a service that sends well-formed pages, never more records
    than a request asked for, for every limit and every number of days for
    which the cutoff can be computed, [get_recent_permits] fetches at most
    [2 * limit] records under the filter [IssuedDate >= cutoff]; whatever
    their order, the records it selects are the first [limit] of the fetched
    batch rearranged by the issue date they carry, newest first, hence at
    most [limit] records in descending order of issue date, and its answer
    renders exactly these, in that order (or says that there are none). *)
Theorem recent_permits_sorted (pf : platform) (service : remote)
    (limit days cutoff : Z) :
  tidy service ->
  cutoff_ts pf days = Ok cutoff ->
  exists fuel fetched sorted t,
    query_permit_api_paginated service fuel (recent_clause cutoff) "*"
      (Some (limit * 2)) 1000 [] = Some (Ok (feature_collection fetched), t) /\
    Z.of_nat (List.length fetched) <= Z.max (limit * 2) 0 /\
    Permutation fetched sorted /\
    StronglySorted newer_first sorted /\
    recent_selection limit fetched = Ok (firstn (Z.to_nat limit) sorted) /\
    StronglySorted newer_first (firstn (Z.to_nat limit) sorted) /\
    Z.of_nat (List.length (firstn (Z.to_nat limit) sorted)) <= Z.max limit 0 /\
    call_tool pf service fuel "get_recent_permits"
      [("limit", AInt limit); ("days", AInt days)] [] =
      Some (match fetched with
            | [] => Ok [TextContent ("No permits found in the last " ^^
                                     str_of_int days ^^ " days")]
            | _ :: _ => recent_answer pf days (firstn (Z.to_nat limit) sorted)
            end, t) /\
    (forall results,
       map_outcome (format_permit pf) (firstn (Z.to_nat limit) sorted) = Ok results ->
       Z.of_nat (List.length results) <= Z.max limit 0).
Proof.
  intros Htidy Hcut.
  destruct (tidy_fetch service (recent_clause cutoff) (limit * 2) Htidy)
    as (fuel & fetched & t & Hrun & Hd & Hlen).
  assert (Forall (fun x => exists z, issued_key x = Ok (JInt z)) fetched) as Hk.
  { eapply Forall_impl; [|exact Hd]. intros x Hx. eexists. now apply dated_record_key. }
  destruct (sorted_by_issued_desc_spec fetched Hk) as (sorted & Hsort & Hperm & Hss).
  assert (take limit sorted = firstn (Z.to_nat limit) sorted) as Htake.
  { unfold take. destruct (Z.leb_spec 0 limit) as [_|Hneg]; [reflexivity|].
    assert (fetched = []) as -> by (destruct fetched; [reflexivity|simpl in Hlen; lia]).
    apply Permutation_nil in Hperm. subst sorted. now rewrite !firstn_nil. }
  assert (Z.of_nat (List.length (firstn (Z.to_nat limit) sorted)) <= Z.max limit 0)
    as Hcut' by (rewrite length_firstn; lia).
  exists fuel, fetched, sorted, t.
  split; [exact Hrun|]. split; [exact Hlen|]. split; [exact Hperm|].
  split; [exact Hss|].
  split; [unfold recent_selection; rewrite Hsort; cbn [bind]; now rewrite Htake|].
  split; [now apply sorted_firstn|]. split; [exact Hcut'|].
  split.
  2:{ intros results Hres. now rewrite (map_outcome_length _ _ _ Hres). }
  change (call_tool pf service fuel "get_recent_permits"
            [("limit", AInt limit); ("days", AInt days)] [])
    with (get_recent_permits pf service fuel
            [("limit", AInt limit); ("days", AInt days)] []).
  unfold get_recent_permits.
  change (arg_get [("limit", AInt limit); ("days", AInt days)] "days" (AInt 30))
    with (AInt days).
  change (arg_get [("limit", AInt limit); ("days", AInt days)] "limit" (AInt 50))
    with (AInt limit).
  cbv beta iota zeta. rewrite Hcut. cbn [limit_of arg_str].
  unfold recent_clause in Hrun. unfold with_pages. rewrite Hrun.
  unfold feature_collection. cbn [dict_get lookup String.eqb Ascii.eqb Bool.eqb bind].
  destruct fetched as [|x fetched']; [reflexivity|].
  cbn [truthy negb py_iter bind].
  unfold recent_selection. rewrite Hsort. cbn [bind]. rewrite Htake. reflexivity.
Qed.

(** A run of C9: three permits served oldest, newest, middle; two asked for.
    The two selected are the newest and the middle one, in that order. *)
Lemma recent_permits_sorted_example :
  let db := [Reference.permit "A" 1000; Reference.permit "B" 3000;
             Reference.permit "C" 2000] in
  let service := Reference.dataset db 1000 in
  tidy service /\
  cutoff_ts Reference.utc 30 = Ok 1759622400000 /\
  recent_selection 2 db = Ok [Reference.permit "B" 3000; Reference.permit "C" 2000] /\
  exists fuel fetched sorted t,
    query_permit_api_paginated service fuel (recent_clause 1759622400000) "*"
      (Some (2 * 2)) 1000 [] = Some (Ok (feature_collection fetched), t) /\
    Z.of_nat (List.length fetched) <= Z.max (2 * 2) 0 /\
    Permutation fetched sorted /\
    StronglySorted newer_first sorted /\
    recent_selection 2 fetched = Ok (firstn (Z.to_nat 2) sorted) /\
    StronglySorted newer_first (firstn (Z.to_nat 2) sorted) /\
    Z.of_nat (List.length (firstn (Z.to_nat 2) sorted)) <= Z.max 2 0 /\
    call_tool Reference.utc service fuel "get_recent_permits"
      [("limit", AInt 2); ("days", AInt 30)] [] =
      Some (match fetched with
            | [] => Ok [TextContent ("No permits found in the last " ^^
                                     str_of_int 30 ^^ " days")]
            | _ :: _ => recent_answer Reference.utc 30 (firstn (Z.to_nat 2) sorted)
            end, t) /\
    (forall results,
       map_outcome (format_permit Reference.utc) (firstn (Z.to_nat 2) sorted) = Ok results ->
       Z.of_nat (List.length results) <= Z.max 2 0).
Proof.
  cbv zeta.
  assert (tidy (Reference.dataset [Reference.permit "A" 1000; Reference.permit "B" 3000;
                                   Reference.permit "C" 2000] 1000)) as Htidy.
  { apply dataset_tidy. repeat constructor. }
  split; [exact Htidy|]. split; [reflexivity|]. split; [reflexivity|].
  exact (recent_permits_sorted Reference.utc _ 2 30 1759622400000 Htidy eq_refl).
Defined.

(** The cutoff is computed in floats: for a number of days whose seconds do
    not fit the 53 bits of a float it is not the exact difference, and for
    one whose seconds exceed the range of a float the call raises
    [OverflowError] before any request. *)
Example cutoff_is_a_float :
  cutoff_ts Reference.utc 1000000000000 = Ok (-86399998237785604096) /\
  (today_midnight Reference.utc - 1000000000000 * 24 * 60 * 60) * 1000 =
    -86399998237785600000 /\
  call_tool Reference.utc (Reference.dataset [] 1000) 1 "get_recent_permits"
    [("days", AInt (10 ^ 306))] [] = Some (Raise OverflowError, []).
Proof. repeat split; reflexivity. Qed.

(** The run in full: the newest two of the three, newest first. *)
Example recent_permits_run :
  recent_selection 2 [Reference.permit "A" 1000; Reference.permit "B" 3000;
                      Reference.permit "C" 2000] =
  Ok [Reference.permit "B" 3000; Reference.permit "C" 2000].
Proof. reflexivity. Qed.

(** * Further properties *)

(** ** The requests and the result of a fetch *)

(** What a round does with a body it can read, in terms of the records it
    takes from it. *)
Lemma after_page_items data b all off e :
  after_page data b all off = Ok e ->
  match e with
  | Continue all' off' =>
      all' = all ++ page_items (Body data) /\
      off' = off + Z.of_nat (List.length (page_items (Body data)))
  | Break all' => all' = all ++ page_items (Body data)
  end.
Proof.
  unfold after_page, page_items.
  destruct (dict_get data "features" (JArr [])) as [features|]; cbn [bind]; [|discriminate].
  destruct (truthy features); cbn [negb].
  2:{ intros [= <-]. now rewrite app_nil_r. }
  destruct (py_iter features) as [items|] eqn:Hi; cbn [bind]; [|discriminate].
  destruct (py_len features) as [n|] eqn:Hn; cbn [bind]; [|discriminate].
  rewrite (iter_len _ _ _ Hi Hn).
  destruct (Z.of_nat (List.length items) <? b); [intros [= <-]; reflexivity|].
  destruct (dict_get data "exceededTransferLimit" (JBool false)) as [more|];
    cbn [bind]; [|discriminate].
  destruct (truthy more); cbn [negb]; intros [= <-]; auto.
Qed.

Lemma received_S service t n :
  received service t (S n) = received service t n ++ page_items (service n (request t n)).
Proof.
  unfold received. rewrite seq_S, flat_map_app. simpl. now rewrite app_nil_r.
Qed.

Lemma received_app service t p n :
  (n <= List.length t)%nat ->
  received service (t ++ [p]) n = received service t n.
Proof.
  intros Hn. unfold received. rewrite !flat_map_concat_map. f_equal.
  apply map_ext_in. intros i Hi. apply in_seq in Hi.
  unfold request. rewrite app_nth1 by lia. reflexivity.
Qed.

(** The state of the loop in terms of its trace: the records held are those
    received, the offset is their number, and every request issued started
    where the records received before it ended and asked for the batch size
    of that moment. *)
Lemma paginate_trace service w f max_records page_size fuel out t :
  paginate service fuel w f max_records page_size [] 0 [] = Some (out, t) ->
  (forall k, (k < List.length t)%nat ->
     nth k t [] =
     build_params w f (Some (Z.of_nat (List.length (received service t k))))
       (Some (batch_size_of (received service t k) max_records page_size)) false) /\
  (forall all, out = Ok all -> all = received service t (List.length t)).
Proof.
  intros Hrun.
  set (asked := fun (t : trace) =>
         forall k, (k < List.length t)%nat ->
           nth k t [] =
           build_params w f (Some (Z.of_nat (List.length (received service t k))))
             (Some (batch_size_of (received service t k) max_records page_size)) false).
  refine (paginate_rule service w f max_records page_size
            (fun all off t => all = received service t (List.length t) /\
                              off = Z.of_nat (List.length all) /\ asked t)
            (fun out t => asked t /\
                          forall all, out = Ok all -> all = received service t (List.length t))
            _ _ fuel [] 0 [] out t _ Hrun).
  - intros all off t0 (Hall & _ & Hasked) _. split; [exact Hasked|].
    intros all' [= <-]. exact Hall.
  - intros all off t0 (Hall & Hoff & Hasked) _. rewrite page_round_eq. cbv zeta.
    set (p := build_params w f (Some off)
                (Some (batch_size_of all max_records page_size)) false).
    assert (asked (t0 ++ [p])) as Hasked'.
    { intros k Hk. rewrite length_app in Hk. simpl in Hk.
      destruct (Nat.eq_dec k (List.length t0)) as [->|Hne].
      - rewrite nth_middle, received_app by lia. rewrite <- Hall, <- Hoff. reflexivity.
      - rewrite app_nth1, received_app by lia. apply Hasked. lia. }
    assert (received service (t0 ++ [p]) (List.length (t0 ++ [p])) =
            all ++ page_items (service (List.length t0) p)) as Hrec.
    { rewrite length_app. simpl List.length. rewrite Nat.add_1_r, received_S.
      rewrite received_app by lia. unfold request. rewrite nth_middle.
      now rewrite <- Hall. }
    destruct (service (List.length t0) p) as [data|m|m] eqn:Hs.
    + destruct (after_page data _ all off) as [[all' off'|all']|e] eqn:Ha.
      * apply after_page_items in Ha. destruct Ha as [-> ->].
        split; [symmetry; exact Hrec|]. split; [|exact Hasked'].
        rewrite length_app. lia.
      * apply after_page_items in Ha. subst all'.
        split; [exact Hasked'|]. intros all' [= <-]. symmetry. exact Hrec.
      * split; [exact Hasked'|]. discriminate.
    + split; [exact Hasked'|]. discriminate.
    + split; [exact Hasked'|]. discriminate.
  - split; [reflexivity|]. split; [reflexivity|]. intros k Hk. simpl in Hk. lia.
Qed.

Lemma paginated_run service fuel w f max_records page_size out t :
  query_permit_api_paginated service fuel w f max_records page_size [] = Some (out, t) ->
  exists o,
    paginate service fuel w f max_records page_size [] 0 [] = Some (o, t) /\
    out = match o with
          | Ok all => Ok (feature_collection all)
          | Raise e => Raise e
          end.
Proof.
  unfold query_permit_api_paginated.
  destruct (paginate service fuel w f max_records page_size [] 0 []) as [[o t0]|];
    [|discriminate].
  destruct o; intros [= <- <-]; eexists; split; reflexivity.
Qed.

(** Every request but the last was answered with a page that held records. *)
Lemma paginate_progress service w f max_records page_size fuel out t :
  paginate service fuel w f max_records page_size [] 0 [] = Some (out, t) ->
  forall j, (S j < List.length t)%nat -> page_items (service j (request t j)) <> [].
Proof.
  intros Hrun.
  refine (paginate_rule service w f max_records page_size
            (fun _ _ t => forall j, (j < List.length t)%nat ->
                                    page_items (service j (request t j)) <> [])
            (fun _ t => forall j, (S j < List.length t)%nat ->
                                  page_items (service j (request t j)) <> [])
            _ _ fuel [] 0 [] out t _ Hrun).
  - intros all off t0 HI _ j Hj. apply HI. lia.
  - intros all off t0 HI _. rewrite page_round_eq. cbv zeta.
    set (p := build_params w f (Some off)
                (Some (batch_size_of all max_records page_size)) false).
    assert (forall j, (S j < List.length (t0 ++ [p]))%nat ->
                      page_items (service j (request (t0 ++ [p]) j)) <> []) as Hold.
    { intros j Hj. rewrite length_app in Hj. simpl in Hj.
      unfold request. rewrite app_nth1 by lia. apply HI. lia. }
    destruct (service (List.length t0) p) as [data|m|m] eqn:Hs; try exact Hold.
    destruct (after_page data _ all off) as [[all' off'|all']|e] eqn:Ha; try exact Hold.
    intros j Hj. rewrite length_app in Hj. simpl in Hj.
    destruct (Nat.eq_dec j (List.length t0)) as [->|Hne].
    + unfold request. rewrite nth_middle, Hs.
      pose proof (after_page_items _ _ _ _ _ Ha) as [Hitems _].
      apply after_page_continue in Ha.
      destruct Ha as (_ & items & _ & _ & _ & Hne & Hall & _).
      rewrite Hall in Hitems. apply app_inv_head in Hitems. now rewrite <- Hitems.
    + unfold request. rewrite app_nth1 by lia. apply HI. lia.
  - intros j Hj. simpl in Hj. lia.
Qed.

Lemma received_grows service t j k :
  (j <= k)%nat ->
  (forall i, (j <= i < k)%nat -> page_items (service i (request t i)) <> []) ->
  (List.length (received service t j) + (k - j) <= List.length (received service t k))%nat.
Proof.
  induction 1 as [|k Hjk IH]; intros Hne; [lia|].
  rewrite received_S, length_app.
  assert (List.length (received service t j) + (k - j) <=
          List.length (received service t k))%nat as Hle.
  { apply IH. intros i Hi. apply Hne. lia. }
  pose proof (Hne k (conj Hjk (Nat.lt_succ_diag_r k))) as Hk.
  destruct (page_items (service k (request t k))) as [|x l]; [congruence|].
  cbn [List.length]. lia.
Qed.

(** X1.  Every request of a fetch starts at the number of records received so far
    and asks for [min(page_size, max_records - received)] records, or for
    [page_size] when no maximum is set; the first starts at offset 0, and
    each later one starts strictly behind the one before, so that no two
    requests of a fetch ask for the same window. *)
Theorem requests_follow_received (service : remote) (w f : string)
    (max_records : option Z) (page_size : Z) (fuel : nat)
    (out : outcome json) (t : trace) (k : nat) :
  query_permit_api_paginated service fuel w f max_records page_size [] = Some (out, t) ->
  (k < List.length t)%nat ->
  nth k t [] =
    build_params w f (Some (Z.of_nat (List.length (received service t k))))
      (Some (match max_records with
             | Some m => Z.min page_size (m - Z.of_nat (List.length (received service t k)))
             | None => page_size
             end)) false /\
  (forall j, (j < k)%nat ->
     (List.length (received service t j) < List.length (received service t k))%nat).
Proof.
  intros Hrun Hk. destruct (paginated_run _ _ _ _ _ _ _ _ Hrun) as (o & Hp & _).
  split; [exact (proj1 (paginate_trace _ _ _ _ _ _ _ _ Hp) k Hk)|].
  intros j Hj.
  pose proof (received_grows service t j k (Nat.lt_le_incl _ _ Hj)) as Hg.
  assert (List.length (received service t j) + (k - j) <=
          List.length (received service t k))%nat as Hle.
  { apply Hg. intros i Hi. apply (paginate_progress _ _ _ _ _ _ _ _ Hp). lia. }
  lia.
Qed.

(** A run: seven records behind a cap of three; the third request starts at
    offset 6. *)
Lemma requests_follow_received_example :
  let service := Reference.dataset (map (fun n => JInt (Z.of_nat n)) (seq 0 7)) 3 in
  let t := [build_params "1=1" "*" (Some 0) (Some 3) false;
            build_params "1=1" "*" (Some 3) (Some 3) false;
            build_params "1=1" "*" (Some 6) (Some 3) false] in
  nth 2 t [] =
    build_params "1=1" "*" (Some (Z.of_nat (List.length (received service t 2))))
      (Some (Z.min 3 (10 - Z.of_nat (List.length (received service t 2))))) false /\
  (forall j, (j < 2)%nat ->
     (List.length (received service t j) < List.length (received service t 2))%nat).
Proof.
  cbv zeta.
  refine (requests_follow_received _ "1=1" "*" (Some 10) 3 5 _ _ 2 _ _);
    [reflexivity|simpl; lia].
Defined.

(** X2.  When a fetch returns, its features are the records of the pages received,
    in the order of the requests, none dropped and none repeated, and
    [totalRetrieved] is their number. *)
Theorem result_is_pages_in_order (service : remote) (w f : string)
    (max_records : option Z) (page_size : Z) (fuel : nat) (data : json) (t : trace) :
  query_permit_api_paginated service fuel w f max_records page_size [] =
    Some (Ok data, t) ->
  dict_get data "features" JNull = Ok (JArr (received service t (List.length t))) /\
  dict_get data "totalRetrieved" JNull =
    Ok (JInt (Z.of_nat (List.length (received service t (List.length t))))).
Proof.
  intros Hrun. destruct (paginated_run _ _ _ _ _ _ _ _ Hrun) as (o & Hp & Ho).
  destruct o as [all|e]; [|discriminate]. injection Ho as ->.
  rewrite <- (proj2 (paginate_trace _ _ _ _ _ _ _ _ Hp) all eq_refl).
  split; reflexivity.
Qed.

(** A run: the seven records of a service, fetched three at a time. *)
Lemma result_is_pages_in_order_example :
  let db := map (fun n => JInt (Z.of_nat n)) (seq 0 7) in
  let t := [build_params "1=1" "*" (Some 0) (Some 3) false;
            build_params "1=1" "*" (Some 3) (Some 3) false;
            build_params "1=1" "*" (Some 6) (Some 3) false] in
  dict_get (feature_collection db) "features" JNull =
    Ok (JArr (received (Reference.dataset db 3) t (List.length t))) /\
  dict_get (feature_collection db) "totalRetrieved" JNull =
    Ok (JInt (Z.of_nat (List.length (received (Reference.dataset db 3) t (List.length t))))).
Proof.
  cbv zeta.
  refine (result_is_pages_in_order (Reference.dataset _ 3) "1=1" "*" (Some 10) 3 5 _ _ _).
  reflexivity.
Defined.

(** ** The budget of a fetch *)

(** X3.  Against a service that never sends more records than a request asked
    for, a fetch with a maximum returns at most that many records (none when
    the maximum is not positive). *)
Theorem fetch_within_budget (service : remote) (w f : string) (M page_size : Z)
    (fuel : nat) (data : json) (t : trace) :
  modest service ->
  query_permit_api_paginated service fuel w f (Some M) page_size [] = Some (Ok data, t) ->
  exists features,
    dict_get data "features" JNull = Ok (JArr features) /\
    Z.of_nat (List.length features) <= Z.max M 0.
Proof.
  intros Hmodest Hrun. destruct (paginated_run _ _ _ _ _ _ _ _ Hrun) as (o & Hp & Ho).
  destruct o as [all|e]; [|discriminate]. injection Ho as ->.
  exists all. split; [reflexivity|].
  refine (paginate_rule service w f (Some M) page_size
            (fun all _ _ => Z.of_nat (List.length all) <= Z.max M 0)
            (fun out _ => forall all, out = Ok all ->
                                      Z.of_nat (List.length all) <= Z.max M 0)
            _ _ fuel [] 0 [] (Ok all) t _ Hp all eq_refl).
  - intros all0 off t0 HI _ all1 [= <-]. exact HI.
  - intros all0 off t0 HI Hb. rewrite page_round_eq. cbv zeta.
    set (b := batch_size_of all0 (Some M) page_size).
    pose proof (Hmodest (List.length t0) (build_params w f (Some off) (Some b) false) b
                  (count_param _ _ _ _)) as Hpage.
    simpl in Hb. apply Z.ltb_lt in Hb.
    assert (b <= M - Z.of_nat (List.length all0)) as Hbound
      by (unfold b, batch_size_of; lia).
    clearbody b.
    destruct (service _ _) as [data0|m|m]; try discriminate.
    destruct (after_page data0 b all0 off) as [[all' off'|all']|e] eqn:Ha;
      try discriminate; pose proof (after_page_items _ _ _ _ _ Ha) as Hitems;
      cbv iota in Hitems; clear Ha;
      remember (page_items (Body data0)) as items eqn:Hit; clear Hit.
    + destruct Hitems as [-> _]. rewrite length_app. lia.
    + subst all'. intros all1 [= <-]. rewrite length_app. lia.
  - simpl. lia.
Qed.

Lemma dataset_modest db cap : modest (Reference.dataset db cap).
Proof.
  intros n p b Hb. unfold Reference.dataset, page_items. rewrite Hb.
  cbn [dict_get lookup String.eqb Ascii.eqb Bool.eqb].
  destruct (truthy _); [|simpl; lia].
  cbn [py_iter]. unfold Reference.window. rewrite length_firstn. lia.
Qed.

(** A run: four of seven records asked for, behind a cap of three. *)
Lemma fetch_within_budget_example :
  let db := map (fun n => JInt (Z.of_nat n)) (seq 0 7) in
  modest (Reference.dataset db 3) /\
  exists features,
    dict_get (feature_collection (firstn 4 db)) "features" JNull = Ok (JArr features) /\
    Z.of_nat (List.length features) <= Z.max 4 0.
Proof.
  cbv zeta. split; [apply dataset_modest|].
  refine (fetch_within_budget
            (Reference.dataset (map (fun n => JInt (Z.of_nat n)) (seq 0 7)) 3)
            "1=1" "*" 4 3 5 _
            [build_params "1=1" "*" (Some 0) (Some 3) false;
             build_params "1=1" "*" (Some 3) (Some 1) false]
            (dataset_modest _ 3) _).
  reflexivity.
Defined.

(** ** Replies that cannot be read *)

Lemma unreadable_body data e b all off :
  unreadable (Body data) = Some e -> after_page data b all off = Raise e.
Proof.
  destruct data; simpl; intros [= <-]; reflexivity.
Qed.

(** X4.  A reply whose body is not JSON ends the fetch in the decoder's
    [ValueError], and one whose body is JSON but not an object ends it in
    [AttributeError]: neither is wrapped as a fetch failure, the records of
    earlier pages are not returned, and the request so answered is the last
    one issued. *)
Theorem unreadable_reply_aborts (service : remote) (w f : string)
    (max_records : option Z) (page_size : Z) (fuel : nat)
    (out : outcome json) (t : trace) (k : nat) (e : exn) :
  query_permit_api_paginated service fuel w f max_records page_size [] = Some (out, t) ->
  (k < List.length t)%nat ->
  unreadable (service k (request t k)) = Some e ->
  out = Raise e /\ List.length t = S k.
Proof.
  intros Hrun Hk Hbad. destruct (paginated_run _ _ _ _ _ _ _ _ Hrun) as (o & Hp & ->).
  assert (o = Raise e /\ List.length t = S k) as [-> Hlen]; [|split; auto].
  refine (paginate_rule service w f max_records page_size
            (fun _ _ t => forall j, (j < List.length t)%nat ->
                                    unreadable (service j (request t j)) = None)
            (fun o t => forall j x, (j < List.length t)%nat ->
                                    unreadable (service j (request t j)) = Some x ->
                                    o = Raise x /\ List.length t = S j)
            _ _ fuel [] 0 [] o t _ Hp k e Hk Hbad).
  - intros all off t0 HI _ j x Hj Hx. rewrite (HI j Hj) in Hx. discriminate.
  - intros all off t0 HI _. rewrite page_round_eq. cbv zeta.
    set (p := build_params w f (Some off) (Some (batch_size_of all max_records page_size)) false).
    assert (forall j, (j < List.length (t0 ++ [p]))%nat ->
                      j <> List.length t0 ->
                      unreadable (service j (request (t0 ++ [p]) j)) = None) as Hold.
    { intros j Hj Hne. rewrite length_app in Hj. simpl in Hj.
      unfold request. rewrite app_nth1 by lia. apply HI. lia. }
    assert (request (t0 ++ [p]) (List.length t0) = p) as Hreq
      by (unfold request; apply nth_middle).
    assert (forall o' : outcome (list json),
              (forall x, unreadable (service (List.length t0) p) = Some x -> o' = Raise x) ->
              forall j x, (j < List.length (t0 ++ [p]))%nat ->
                          unreadable (service j (request (t0 ++ [p]) j)) = Some x ->
                          o' = Raise x /\ List.length (t0 ++ [p]) = S j) as Hend.
    { intros o' Ho' j x Hj Hx.
      destruct (Nat.eq_dec j (List.length t0)) as [->|Hne].
      - rewrite Hreq in Hx. split; [auto|]. rewrite length_app. simpl. lia.
      - rewrite (Hold j Hj Hne) in Hx. discriminate. }
    destruct (service (List.length t0) p) as [data|m|m] eqn:Hs.
    + destruct (after_page data _ all off) as [[all' off'|all']|x0] eqn:Ha.
      * intros j Hj. destruct (Nat.eq_dec j (List.length t0)) as [->|Hne];
          [|now apply Hold].
        rewrite Hreq, Hs. destruct (unreadable (Body data)) eqn:Hu; [|reflexivity].
        rewrite (unreadable_body _ _ _ _ _ Hu) in Ha. discriminate.
      * apply Hend. intros x Hx. rewrite (unreadable_body _ _ _ _ _ Hx) in Ha.
        discriminate.
      * apply Hend. intros x Hx. rewrite (unreadable_body _ _ _ _ _ Hx) in Ha.
        congruence.
    + apply Hend. discriminate.
    + apply Hend. intros x [= <-]. reflexivity.
  - intros j Hj. simpl in Hj. lia.
Qed.

(** A run: the service answers the first request with a JSON list. *)
Lemma unreadable_reply_aborts_example :
  let service := Reference.constant (JArr [JInt 1; JInt 2]) in
  let t := [build_params "1=1" "*" (Some 0) (Some 5) false] in
  query_permit_api_paginated service 3 "1=1" "*" (Some 5) 1000 [] =
    Some (Raise AttributeError, t) /\
  Raise AttributeError = Raise AttributeError :> outcome json /\
  List.length t = 1%nat.
Proof.
  cbv zeta. split; [reflexivity|].
  exact (unreadable_reply_aborts (Reference.constant (JArr [JInt 1; JInt 2]))
           "1=1" "*" (Some 5) 1000 3 _ _ 0 AttributeError eq_refl (le_n 1) eq_refl).
Defined.

(** ** The answers of the search operations *)

Lemma with_pages_nothing service fuel w M rest t :
  M <= 0 ->
  with_pages service fuel w M rest t = Some (rest (feature_collection []), t).
Proof.
  intros HM. unfold with_pages, query_permit_api_paginated.
  rewrite paginate_exit; [reflexivity|]. simpl. apply Z.ltb_ge. lia.
Qed.

Lemma with_pages_fetched service fuel w M rest fetched t :
  query_permit_api_paginated service fuel w "*" (Some M) 1000 [] =
    Some (Ok (feature_collection fetched), t) ->
  with_pages service fuel w M rest [] = Some (rest (feature_collection fetched), t).
Proof.
  intros Hrun. unfold with_pages. now rewrite Hrun.
Qed.

(** The tail of a search handler on the dict the fetcher returns: the header
    shows [totalRetrieved], which is the number of records rendered. *)
Lemma found_or_none_collection pf none_text header fetched :
  found_or_none pf none_text header (feature_collection fetched) =
  search_answer pf none_text header fetched.
Proof.
  unfold found_or_none, search_answer, feature_collection.
  cbn [dict_get lookup String.eqb Ascii.eqb Bool.eqb bind].
  destruct fetched as [|x fetched']; [reflexivity|].
  cbn [truthy negb py_iter bind].
  destruct (map_outcome (format_permit pf) (x :: fetched')) as [results|e] eqn:Hres;
    [|reflexivity].
  cbn [bind py_str]. now rewrite (map_outcome_length _ _ _ Hres).
Qed.

Lemma map_outcome_raises {A B : Type} (g : A -> outcome B) (l : list A) (x : A) (e : exn) :
  In x l -> g x = Raise e -> exists e', map_outcome g l = Raise e'.
Proof.
  induction l as [|y l IH]; intros Hin Hx; [contradiction|].
  cbn [map_outcome]. destruct (g y) as [b|e0] eqn:Hy; cbn [bind]; [|eauto].
  destruct Hin as [->|Hin]; [congruence|].
  destruct (IH Hin Hx) as [e' ->]. cbn [bind]. eauto.
Qed.

(** X5.  When the fetch of a search returns records, the answer is one text
    headed "Found N permit(s) ..." where N, the fetcher's [totalRetrieved],
    is the number of records rendered below it, in the order fetched; when it
    returns none, the answer is the "No permits found ..." text; and one
    record that [format_permit] cannot render makes the whole call raise. *)
Theorem search_reports_what_it_renders (pf : platform) (service : remote) (fuel : nat)
    (args : arguments) (limit : Z) (fetched : list json) (t : trace) :
  arg_get args "limit" (AInt 50) = AInt limit ->
  (forall s,
     arg_get args "address" (AStr "") = AStr s ->
     query_permit_api_paginated service fuel (address_clause s) "*" (Some limit) 1000 [] =
       Some (Ok (feature_collection fetched), t) ->
     call_tool pf service fuel "search_permits_by_address" args [] =
       Some (search_answer pf ("No permits found matching address: " ^^ s)
               (fun total => "Found " ^^ total ^^ " permit(s) matching '" ^^ s ^^
                             "':" ^^ nl ^^ nl) fetched, t)) /\
  (forall s,
     arg_get args "neighborhood" (AStr "") = AStr s ->
     query_permit_api_paginated service fuel (neighborhood_clause s) "*" (Some limit)
       1000 [] = Some (Ok (feature_collection fetched), t) ->
     call_tool pf service fuel "search_permits_by_neighborhood" args [] =
       Some (search_answer pf ("No permits found in neighborhood: " ^^ s)
               (fun total => "Found " ^^ total ^^ " permit(s) in '" ^^ s ^^
                             "':" ^^ nl ^^ nl) fetched, t)) /\
  (forall none_text header x e,
     In x fetched -> format_permit pf x = Raise e ->
     exists e', search_answer pf none_text header fetched = Raise e').
Proof.
  intros Hlimit. split; [|split].
  - intros s Hs Hrun.
    change (call_tool pf service fuel "search_permits_by_address" args [])
      with (search_permits_by_address pf service fuel args []).
    unfold search_permits_by_address. rewrite Hs, Hlimit.
    assert (address_where (AStr s) = Ok (address_clause s)) as ->.
    { unfold address_where, address_clause. simpl. now destruct (String.eqb s ""). }
    cbn [limit_of arg_str].
    rewrite (with_pages_fetched _ _ _ _ _ _ _ Hrun).
    now rewrite found_or_none_collection.
  - intros s Hs Hrun.
    change (call_tool pf service fuel "search_permits_by_neighborhood" args [])
      with (search_permits_by_neighborhood pf service fuel args []).
    unfold search_permits_by_neighborhood. rewrite Hs, Hlimit.
    change (neighborhood_where (AStr s)) with (Ok (neighborhood_clause s)).
    cbn [limit_of arg_str].
    rewrite (with_pages_fetched _ _ _ _ _ _ _ Hrun).
    now rewrite found_or_none_collection.
  - intros none_text header x e Hin Hx. unfold search_answer.
    destruct fetched as [|y fetched']; [contradiction|].
    destruct (map_outcome_raises _ _ _ _ Hin Hx) as [e' ->]. cbn [bind]. eauto.
Qed.

(** A run: two permits in Canton. *)
Lemma search_reports_what_it_renders_example :
  let db := [Reference.permit "A" 1000; Reference.permit "B" 3000] in
  let args := [("neighborhood", AStr "Canton"); ("limit", AInt 5)] in
  let t := [build_params "Neighborhood LIKE '%Canton%'" "*" (Some 0) (Some 5) false] in
  arg_get args "limit" (AInt 50) = AInt 5 /\
  call_tool Reference.utc (Reference.dataset db 1000) 3 "search_permits_by_neighborhood"
    args [] =
    Some (search_answer Reference.utc "No permits found in neighborhood: Canton"
            (fun total => "Found " ^^ total ^^ " permit(s) in '" ^^ "Canton" ^^
                          "':" ^^ nl ^^ nl) db, t).
Proof.
  cbv zeta. split; [reflexivity|].
  exact (proj1 (proj2 (search_reports_what_it_renders Reference.utc
                         (Reference.dataset [Reference.permit "A" 1000;
                                             Reference.permit "B" 3000] 1000) 3
                         [("neighborhood", AStr "Canton"); ("limit", AInt 5)] 5
                         [Reference.permit "A" 1000; Reference.permit "B" 3000]
                         [build_params "Neighborhood LIKE '%Canton%'" "*" (Some 0) (Some 5)
                            false]
                         eq_refl))
           "Canton" eq_refl eq_refl).
Defined.

(** X6.  A limit of zero or less asks the service nothing: the searches
    (the date range with two dates that parse and convert) and
    [get_recent_permits] (with a number of days for which the cutoff can be
    computed) issue no request and answer with their "No permits found ..."
    text. *)
Theorem nonpositive_limit_asks_nothing (pf : platform) (service : remote) (fuel : nat)
    (args : arguments) (limit : Z) :
  arg_get args "limit" (AInt 50) = AInt limit ->
  limit <= 0 ->
  (forall s,
     arg_get args "address" (AStr "") = AStr s ->
     call_tool pf service fuel "search_permits_by_address" args [] =
       Some (Ok [TextContent ("No permits found matching address: " ^^ s)], [])) /\
  (forall s,
     arg_get args "neighborhood" (AStr "") = AStr s ->
     call_tool pf service fuel "search_permits_by_neighborhood" args [] =
       Some (Ok [TextContent ("No permits found in neighborhood: " ^^ s)], [])) /\
  (forall s e a b,
     arg_get args "start_date" (AStr "") = AStr s ->
     arg_get args "end_date" (AStr "") = AStr e ->
     date_ms pf (AStr s) = Ok a -> date_ms pf (AStr e) = Ok b ->
     call_tool pf service fuel "search_permits_by_date_range" args [] =
       Some (Ok [TextContent ("No permits found for date range " ^^ s ^^ " to " ^^ e)],
             [])) /\
  (forall d cutoff,
     arg_get args "days" (AInt 30) = AInt d ->
     cutoff_ts pf d = Ok cutoff ->
     call_tool pf service fuel "get_recent_permits" args [] =
       Some (Ok [TextContent ("No permits found in the last " ^^ str_of_int d ^^
                              " days")], [])).
Proof.
  intros Hlimit Hle. split; [|split; [|split]].
  - intros s Hs.
    change (call_tool pf service fuel "search_permits_by_address" args [])
      with (search_permits_by_address pf service fuel args []).
    unfold search_permits_by_address. rewrite Hs, Hlimit.
    assert (address_where (AStr s) = Ok (address_clause s)) as ->.
    { unfold address_where, address_clause. simpl. now destruct (String.eqb s ""). }
    cbn [limit_of arg_str]. rewrite with_pages_nothing by exact Hle.
    now rewrite found_or_none_collection.
  - intros s Hs.
    change (call_tool pf service fuel "search_permits_by_neighborhood" args [])
      with (search_permits_by_neighborhood pf service fuel args []).
    unfold search_permits_by_neighborhood. rewrite Hs, Hlimit.
    change (neighborhood_where (AStr s)) with (Ok (neighborhood_clause s)).
    cbn [limit_of arg_str]. rewrite with_pages_nothing by exact Hle.
    now rewrite found_or_none_collection.
  - intros s e a b Hs He Hps Hpe.
    change (call_tool pf service fuel "search_permits_by_date_range" args [])
      with (search_permits_by_date_range pf service fuel args []).
    unfold search_permits_by_date_range. rewrite Hs, He, Hlimit.
    rewrite Hps, Hpe. cbn [bind limit_of arg_str].
    rewrite with_pages_nothing by exact Hle.
    now rewrite found_or_none_collection.
  - intros d cutoff Hd Hcut.
    change (call_tool pf service fuel "get_recent_permits" args [])
      with (get_recent_permits pf service fuel args []).
    unfold get_recent_permits. rewrite Hd, Hlimit, Hcut. cbn [limit_of arg_str].
    rewrite with_pages_nothing by lia. reflexivity.
Qed.

(** A run: a search for addresses with a limit of 0. *)
Lemma nonpositive_limit_asks_nothing_example :
  let args := [("address", AStr "Pratt"); ("limit", AInt 0)] in
  arg_get args "limit" (AInt 50) = AInt 0 /\
  call_tool Reference.utc (Reference.dataset [Reference.permit "A" 1] 1000) 3
    "search_permits_by_address" args [] =
    Some (Ok [TextContent ("No permits found matching address: " ^^ "Pratt")], []).
Proof.
  cbv zeta. split; [reflexivity|].
  refine (proj1 (nonpositive_limit_asks_nothing Reference.utc
                   (Reference.dataset [Reference.permit "A" 1] 1000) 3
                   [("address", AStr "Pratt"); ("limit", AInt 0)] 0 eq_refl _)
            "Pratt" eq_refl).
  lia.
Defined.

(** ** The case-number operation *)

(** X7.  [search_permits_by_case_number] issues exactly one request, without
    offset or record count.  A reply without features (missing, [null] or
    empty) gives the "No permit found ..." text, not an error; a reply with a
    list of features renders the first one only; a transport error raises the
    wrapped exception. *)
Theorem case_number_renders_first (pf : platform) (service : remote) (fuel : nat)
    (args : arguments) (s : string) :
  arg_get args "case_number" (AStr "") = AStr s ->
  let request := build_params ("CaseNumber = '" ^^ escape_quotes s ^^ "'") "*"
                   None None false in
  (exists out, call_tool pf service fuel "search_permits_by_case_number" args [] =
               Some (out, [request])) /\
  (forall data features,
     service 0%nat request = Body data ->
     dict_get data "features" JNull = Ok features ->
     truthy features = false ->
     call_tool pf service fuel "search_permits_by_case_number" args [] =
       Some (Ok [TextContent ("No permit found with case number: " ^^ s)], [request])) /\
  (forall data x others,
     service 0%nat request = Body data ->
     dict_get data "features" JNull = Ok (JArr (x :: others)) ->
     call_tool pf service fuel "search_permits_by_case_number" args [] =
       Some (r <- format_permit pf x ;;
             Ok [TextContent ("Permit details:" ^^ nl ^^ nl ^^ r)], [request])) /\
  (forall msg,
     service 0%nat request = HTTPError msg ->
     call_tool pf service fuel "search_permits_by_case_number" args [] =
       Some (Raise (Exception ("Failed to fetch permit data: " ^^ msg)), [request])).
Proof.
  intros Hs. cbv zeta.
  change (call_tool pf service fuel "search_permits_by_case_number" args [])
    with (search_permits_by_case_number pf service args []).
  unfold search_permits_by_case_number. rewrite Hs.
  unfold case_number_where. cbn [replace_quotes bind arg_str].
  unfold io_bind, query_permit_api, io_ret. simpl List.length. simpl app.
  split; [|split; [|split]].
  - destruct (service _ _); eexists; reflexivity.
  - intros data features -> Hf Ht. rewrite Hf. cbn [bind]. rewrite Ht. reflexivity.
  - intros data x others -> Hf. rewrite Hf. reflexivity.
  - intros msg ->. reflexivity.
Qed.

(** A run: a case number the service does not know. *)
Lemma case_number_renders_first_example :
  let args := [("case_number", AStr "COM2018-00000")] in
  let request := build_params ("CaseNumber = '" ^^ escape_quotes "COM2018-00000" ^^ "'")
                   "*" None None false in
  arg_get args "case_number" (AStr "") = AStr "COM2018-00000" /\
  call_tool Reference.utc (Reference.dataset [] 1000) 0 "search_permits_by_case_number"
    args [] =
    Some (Ok [TextContent ("No permit found with case number: " ^^ "COM2018-00000")],
          [request]).
Proof.
  cbv zeta. split; [reflexivity|].
  exact (proj1 (proj2 (case_number_renders_first Reference.utc (Reference.dataset [] 1000) 0
                         [("case_number", AStr "COM2018-00000")] "COM2018-00000" eq_refl))
           _ (JArr []) eq_refl eq_refl eq_refl).
Defined.

(** ** The shape of an answer *)

Lemma found_or_none_one pf none_text header data cs :
  found_or_none pf none_text header data = Ok cs -> exists text, cs = [TextContent text].
Proof.
  unfold found_or_none.
  destruct (dict_get data "features" JNull) as [features|]; cbn [bind]; [|discriminate].
  destruct (truthy features); cbn [negb]; [|intros [= <-]; eauto].
  destruct (py_iter features) as [feats|]; cbn [bind]; [|discriminate].
  destruct (map_outcome (format_permit pf) feats) as [results|]; cbn [bind]; [|discriminate].
  destruct (dict_get data "totalRetrieved" _) as [total|]; cbn [bind]; [|discriminate].
  intros [= <-]. eauto.
Qed.

Lemma with_pages_one service fuel w M rest t cs t' :
  (forall data cs, rest data = Ok cs -> exists text, cs = [TextContent text]) ->
  with_pages service fuel w M rest t = Some (Ok cs, t') ->
  exists text, cs = [TextContent text].
Proof.
  intros Hrest. unfold with_pages.
  destruct (query_permit_api_paginated service fuel w "*" (Some M) 1000 t)
    as [[[data|e] t0]|]; try discriminate.
  intros [= H _]. eauto.
Qed.

(** X8.  Whenever [call_tool] returns, it returns exactly one text block. *)
Theorem answer_is_one_text (pf : platform) (service : remote) (fuel : nat)
    (name : string) (args : arguments) (t t' : trace) (cs : list content) :
  call_tool pf service fuel name args t = Some (Ok cs, t') ->
  exists text, cs = [TextContent text].
Proof.
  unfold call_tool.
  destruct (String.eqb name "search_permits_by_address").
  { unfold search_permits_by_address.
    destruct (address_where _); [|discriminate].
    destruct (limit_of _); [|discriminate].
    apply with_pages_one. apply found_or_none_one. }
  destruct (String.eqb name "search_permits_by_date_range").
  { unfold search_permits_by_date_range.
    destruct (date_ms pf (arg_get args "start_date" (AStr ""))) as [a|e]; cbn [bind].
    2:{ destruct e; try discriminate. intros [= <- _]. eauto. }
    destruct (date_ms pf (arg_get args "end_date" (AStr ""))) as [b|e]; cbn [bind].
    2:{ destruct e; try discriminate. intros [= <- _]. eauto. }
    destruct (limit_of _); [|discriminate].
    apply with_pages_one. apply found_or_none_one. }
  destruct (String.eqb name "search_permits_by_neighborhood").
  { unfold search_permits_by_neighborhood.
    destruct (neighborhood_where _); [|discriminate].
    destruct (limit_of _); [|discriminate].
    apply with_pages_one. apply found_or_none_one. }
  destruct (String.eqb name "search_permits_by_case_number").
  { unfold search_permits_by_case_number.
    destruct (case_number_where _); [|discriminate].
    unfold io_bind, query_permit_api, io_ret.
    destruct (service _ _) as [data|m|m]; try discriminate.
    destruct (dict_get data "features" JNull) as [features|]; cbn [bind]; [|discriminate].
    destruct (truthy features); cbn [negb]; [|intros [= <- _]; eauto].
    destruct (first_item features); cbn [bind]; [|discriminate].
    destruct (format_permit pf _); cbn [bind]; [|discriminate].
    intros [= <- _]. eauto. }
  destruct (String.eqb name "get_recent_permits").
  { unfold get_recent_permits.
    destruct (arg_get args "days" (AInt 30)) as [|d]; [discriminate|].
    destruct (cutoff_ts pf d) as [cutoff|]; [|discriminate].
    destruct (limit_of _); [|discriminate].
    apply with_pages_one. intros data cs0.
    destruct (dict_get data "features" JNull) as [fetched|]; cbn [bind]; [|discriminate].
    destruct (truthy fetched); cbn [negb]; [|intros [= <-]; eauto].
    destruct (py_iter fetched) as [feats|]; cbn [bind]; [|discriminate].
    destruct (recent_selection _ feats); cbn [bind]; [|discriminate].
    destruct (map_outcome (format_permit pf) _); cbn [bind]; [|discriminate].
    intros [= <-]. eauto. }
  destruct (String.eqb name "count_permits"); [|discriminate].
  unfold count_permits, io_bind, query_permit_api, io_ret.
  destruct (service _ _) as [data|m|m]; try discriminate.
  destruct (count_of data); cbn [bind]; [|discriminate].
  intros [= <- _]. eauto.
Qed.

(** A run: a count. *)
Lemma answer_is_one_text_example :
  exists text,
    [TextContent "Found 42 permit(s) matching the query: 1=1"] = [TextContent text].
Proof.
  exact (answer_is_one_text Reference.utc (Reference.constant (JObj [("count", JInt 42)]))
           0 "count_permits" [("where_clause", AStr "1=1")] [] _ _ eq_refl).
Defined.

(** ** The registry and the dispatcher *)

(** The trace of the loop only grows, and a run that issued no request
    returns the records it started with. *)
Lemma paginate_silent service w f max_records page_size fuel all off t out t' :
  paginate service fuel w f max_records page_size all off t = Some (out, t') ->
  (List.length t <= List.length t')%nat /\
  (List.length t' = List.length t -> out = Ok all).
Proof.
  intros Hrun.
  refine (paginate_rule service w f max_records page_size
            (fun a _ t1 => (List.length t <= List.length t1)%nat /\
                           (List.length t1 = List.length t -> a = all))
            (fun o t1 => (List.length t <= List.length t1)%nat /\
                         (List.length t1 = List.length t -> o = Ok all))
            _ _ fuel all off t out t' _ Hrun).
  - intros a o t1 [Hle Heq] _. split; [exact Hle|]. intros H. now rewrite (Heq H).
  - intros a o t1 [Hle _] _. rewrite page_round_eq. cbv zeta.
    assert (List.length t <= List.length (t1 ++ [build_params w f (Some o)
              (Some (batch_size_of a max_records page_size)) false]))%nat as Hle'
      by (rewrite length_app; simpl; lia).
    assert (List.length (t1 ++ [build_params w f (Some o)
              (Some (batch_size_of a max_records page_size)) false]) <> List.length t) as Hne
      by (rewrite length_app; simpl; lia).
    destruct (service _ _) as [data|m|m]; try (split; [exact Hle'|tauto]).
    destruct (after_page _ _ _ _) as [[a' o'|a']|e]; split; solve [exact Hle'|tauto].
  - split; [lia|reflexivity].
Qed.

Lemma with_pages_quiet service fuel w M rest t o :
  with_pages service fuel w M rest t = Some (o, t) -> o = rest (feature_collection []).
Proof.
  unfold with_pages, query_permit_api_paginated.
  destruct (paginate service fuel w "*" (Some M) 1000 [] 0 t) as [[out t1]|] eqn:Hrun;
    [|discriminate].
  apply paginate_silent in Hrun. destruct Hrun as [_ Hsame].
  destruct out as [all|e]; intros [= <- ->].
  - specialize (Hsame eq_refl). now injection Hsame as ->.
  - specialize (Hsame eq_refl). discriminate.
Qed.

Lemma trace_extended (t : trace) (p : params) : t ++ [p] <> t.
Proof.
  intros H. apply (f_equal (@List.length params)) in H.
  rewrite length_app in H. simpl in H. lia.
Qed.

(** The cutoff fails only where a float cannot hold the seconds, or cannot
    be cut to an integer. *)
Lemma cutoff_ts_raises pf days e :
  cutoff_ts pf days = Raise e ->
  e = OverflowError \/ e = ValueError "cannot convert float NaN to integer".
Proof.
  unfold cutoff_ts, float_of_int.
  destruct (binary_normalize 53 1024 (days * 24 * 60 * 60) 0 false); cbn [bind];
    try (intros [= <-]; now left);
    (destruct (binary_normalize 53 1024 1000 0 false); cbn [bind];
     try (intros [= <-]; now left);
     (destruct (float_mul _ _); cbn [int_of_float]; intros [= <-]; auto)).
Qed.

(** X9.  The names [list_tools] declares are exactly the names [call_tool]
    serves: the call ends in [ValueError("Unknown tool: ...")], with no
    request issued, if and only if the name is not a declared one. *)
Theorem unknown_tool_iff_undeclared (pf : platform) (service : remote) (fuel : nat)
    (name : string) (args : arguments) (t : trace) :
  call_tool pf service fuel name args t =
    Some (Raise (ValueError ("Unknown tool: " ^^ name)), t)
  <-> ~ In name (map tool_name list_tools).
Proof.
  unfold call_tool. cbn [map list_tools tool_name In].
  destruct (String.eqb_spec name "search_permits_by_address") as [->|N1].
  { split; [|tauto]. intros H. exfalso. revert H.
    unfold search_permits_by_address.
    destruct (address_where _) as [w|e] eqn:Hw.
    2:{ unfold address_where in Hw.
        destruct (arg_truthy _); [|discriminate].
        destruct (arg_get args "address" (AStr "")); simpl in Hw; [discriminate|].
        injection Hw as <-. discriminate. }
    destruct (limit_of _) as [M|e] eqn:Hl.
    2:{ destruct (arg_get args "limit" (AInt 50)); simpl in Hl; [|discriminate].
        injection Hl as <-. discriminate. }
    intros H. apply with_pages_quiet in H. simpl in H. discriminate. }
  destruct (String.eqb_spec name "search_permits_by_date_range") as [->|N2].
  { split; [|tauto]. intros H. exfalso. revert H.
    unfold search_permits_by_date_range.
    destruct (date_ms pf (arg_get args "start_date" (AStr ""))) as [a|e] eqn:Ha; cbn [bind].
    2:{ destruct e; try discriminate;
        destruct (arg_get args "start_date" (AStr "")); simpl in Ha; try discriminate;
        destruct (strptime pf s) as [[[y m] d]|]; discriminate. }
    destruct (date_ms pf (arg_get args "end_date" (AStr ""))) as [b|e] eqn:Hb; cbn [bind].
    2:{ destruct e; try discriminate;
        destruct (arg_get args "end_date" (AStr "")); simpl in Hb; try discriminate;
        destruct (strptime pf s) as [[[y m] d]|]; discriminate. }
    destruct (limit_of _) as [M|e] eqn:Hl.
    2:{ destruct (arg_get args "limit" (AInt 50)); simpl in Hl; [|discriminate].
        injection Hl as <-. discriminate. }
    intros H. apply with_pages_quiet in H. simpl in H. discriminate. }
  destruct (String.eqb_spec name "search_permits_by_neighborhood") as [->|N3].
  { split; [|tauto]. intros H. exfalso. revert H.
    unfold search_permits_by_neighborhood.
    destruct (neighborhood_where _) as [w|e] eqn:Hw.
    2:{ unfold neighborhood_where in Hw.
        destruct (arg_get args "neighborhood" (AStr "")); simpl in Hw; [discriminate|].
        injection Hw as <-. discriminate. }
    destruct (limit_of _) as [M|e] eqn:Hl.
    2:{ destruct (arg_get args "limit" (AInt 50)); simpl in Hl; [|discriminate].
        injection Hl as <-. discriminate. }
    intros H. apply with_pages_quiet in H. simpl in H. discriminate. }
  destruct (String.eqb_spec name "search_permits_by_case_number") as [->|N4].
  { split; [|tauto]. intros H. exfalso. revert H.
    unfold search_permits_by_case_number.
    destruct (case_number_where _) as [w|e] eqn:Hw.
    2:{ unfold case_number_where in Hw.
        destruct (arg_get args "case_number" (AStr "")); simpl in Hw; [discriminate|].
        injection Hw as <-. discriminate. }
    unfold io_bind, query_permit_api, io_ret.
    destruct (service _ _); intros [= _ H]; exact (trace_extended _ _ H). }
  destruct (String.eqb_spec name "get_recent_permits") as [->|N5].
  { split; [|tauto]. intros H. exfalso. revert H.
    unfold get_recent_permits.
    destruct (arg_get args "days" (AInt 30)) as [|d]; [discriminate|].
    destruct (cutoff_ts pf d) as [cutoff|e] eqn:Hcut.
    2:{ destruct (cutoff_ts_raises _ _ _ Hcut) as [->| ->]; discriminate. }
    destruct (limit_of _) as [M|e] eqn:Hl.
    2:{ destruct (arg_get args "limit" (AInt 50)); simpl in Hl; [|discriminate].
        injection Hl as <-. discriminate. }
    intros H. apply with_pages_quiet in H. simpl in H. discriminate. }
  destruct (String.eqb_spec name "count_permits") as [->|N6].
  { split; [|tauto]. intros H. exfalso. revert H.
    unfold count_permits, io_bind, query_permit_api, io_ret.
    destruct (service _ _); intros [= _ H]; exact (trace_extended _ _ H). }
  split; [|reflexivity].
  intros _ [H|[H|[H|[H|[H|[H|[]]]]]]]; congruence.
Qed.

Lemma arg_get_default k d args k' d' :
  arg_lookup k args = None ->
  (k' = k -> d' = d) ->
  arg_get ((k, d) :: args) k' d' = arg_get args k' d'.
Proof.
  intros Hnone Hd. unfold arg_get. cbn [arg_lookup].
  destruct (String.eqb_spec k' k) as [->|_]; [|reflexivity].
  rewrite Hnone. symmetry. now apply Hd.
Qed.

(** X10.  The defaults the input schemas declare are the defaults the handlers
    apply: for every declared tool and every property of it that declares a
    default, a call that leaves the argument out behaves as the call that
    passes the declared default. *)
Theorem declared_defaults_apply (pf : platform) (service : remote) (fuel : nat)
    (tool : Tool) (key : string) (p : property) (d : arg) (args : arguments) (t : trace) :
  In tool list_tools ->
  In (key, p) (tool_properties tool) ->
  prop_default p = Some d ->
  arg_lookup key args = None ->
  call_tool pf service fuel (tool_name tool) args t =
  call_tool pf service fuel (tool_name tool) ((key, d) :: args) t.
Proof.
  intros Htool Hprop Hd Hnone.
  cbn [list_tools In] in Htool.
  destruct Htool as [<-|[<-|[<-|[<-|[<-|[<-|[]]]]]]]; cbn [tool_properties In] in Hprop;
    cbn [tool_name].
  - destruct Hprop as [[= <- <-]|[[= <- <-]|[]]]; [discriminate|].
    injection Hd as <-.
    change (search_permits_by_address pf service fuel args t =
            search_permits_by_address pf service fuel (("limit", AInt 50) :: args) t).
    unfold search_permits_by_address. cbv zeta.
    rewrite !(arg_get_default "limit" (AInt 50) args) by (auto; discriminate).
    reflexivity.
  - destruct Hprop as [[= <- <-]|[[= <- <-]|[[= <- <-]|[]]]]; try discriminate.
    injection Hd as <-.
    change (search_permits_by_date_range pf service fuel args t =
            search_permits_by_date_range pf service fuel (("limit", AInt 50) :: args) t).
    unfold search_permits_by_date_range. cbv zeta.
    rewrite !(arg_get_default "limit" (AInt 50) args) by (auto; discriminate).
    reflexivity.
  - destruct Hprop as [[= <- <-]|[[= <- <-]|[]]]; [discriminate|].
    injection Hd as <-.
    change (search_permits_by_neighborhood pf service fuel args t =
            search_permits_by_neighborhood pf service fuel (("limit", AInt 50) :: args) t).
    unfold search_permits_by_neighborhood. cbv zeta.
    rewrite !(arg_get_default "limit" (AInt 50) args) by (auto; discriminate).
    reflexivity.
  - destruct Hprop as [[= <- <-]|[]]. discriminate.
  - destruct Hprop as [[= <- <-]|[[= <- <-]|[]]]; injection Hd as <-.
    + change (get_recent_permits pf service fuel args t =
              get_recent_permits pf service fuel (("limit", AInt 50) :: args) t).
      unfold get_recent_permits. cbv zeta.
      rewrite !(arg_get_default "limit" (AInt 50) args) by (auto; discriminate).
      reflexivity.
    + change (get_recent_permits pf service fuel args t =
              get_recent_permits pf service fuel (("days", AInt 30) :: args) t).
      unfold get_recent_permits. cbv zeta.
      rewrite !(arg_get_default "days" (AInt 30) args) by (auto; discriminate).
      reflexivity.
  - destruct Hprop as [[= <- <-]|[]]. discriminate.
Qed.

(** A run: [get_recent_permits] without [days] looks back 30 days. *)
Lemma declared_defaults_apply_example :
  call_tool Reference.utc (Reference.dataset [] 1000) 1 "get_recent_permits"
    [("limit", AInt 5)] [] =
  call_tool Reference.utc (Reference.dataset [] 1000) 1 "get_recent_permits"
    [("days", AInt 30); ("limit", AInt 5)] [].
Proof.
  pose (tool := nth 4 list_tools
                  {| tool_name := ""; tool_description := "";
                     tool_properties := []; tool_required := [] |}).
  pose (p := snd (nth 1 (tool_properties tool) ("", limit_property))).
  refine (declared_defaults_apply Reference.utc (Reference.dataset [] 1000) 1
            tool "days" p (AInt 30) [("limit", AInt 5)] [] _ _ eq_refl eq_refl).
  - do 4 right. left. reflexivity.
  - right. left. reflexivity.
Defined.

(** ** The order of equally dated records *)

Lemma insert_desc_stable (keep : json -> bool) x l r :
  Forall dated l ->
  (forall y, keep x = true -> keep y = true -> issued_ms y = issued_ms x) ->
  insert_desc (JInt (issued_ms x)) x l = Ok r ->
  filter keep (map snd r) = filter keep (x :: map snd l).
Proof.
  intros Hd Hkeep. revert r. induction Hd as [|[ky y] l Hy Hl IH]; intros r.
  - intros [= <-]. reflexivity.
  - unfold dated in Hy. simpl in Hy. subst ky.
    cbn [insert_desc]. rewrite py_lt_int. cbn [bind].
    destruct (Z.ltb_spec (issued_ms x) (issued_ms y)) as [Hlt|Hge].
    + destruct (insert_desc (JInt (issued_ms x)) x l) as [r'|]; cbn [bind]; [|discriminate].
      intros [= <-]. cbn [map snd filter]. rewrite (IH r' eq_refl). cbn [filter].
      destruct (keep x) eqn:Hx, (keep y) eqn:Hy; try reflexivity.
      specialize (Hkeep y eq_refl Hy). lia.
    + intros [= <-]. reflexivity.
Qed.

Lemma sort_desc_stable (keep : json -> bool) l r :
  Forall dated l ->
  (forall x y, keep x = true -> keep y = true -> issued_ms y = issued_ms x) ->
  sort_desc l = Ok r ->
  filter keep (map snd r) = filter keep (map snd l).
Proof.
  intros Hd Hkeep. revert r. induction Hd as [|[k x] l Hx Hl IH]; intros r.
  - intros [= <-]. reflexivity.
  - unfold dated in Hx. simpl in Hx. subst k.
    cbn [sort_desc].
    destruct (sort_desc_dated l Hl) as (s & Hs & Hperm & _).
    rewrite Hs. cbn [bind]. intros Hr.
    assert (Forall dated s) as Hds by (eapply Permutation_Forall; eauto).
    rewrite (insert_desc_stable keep x s r Hds (Hkeep x) Hr).
    cbn [map snd filter]. now rewrite (IH s Hs).
Qed.

(** X11.  The sort of [get_recent_permits] is stable: records issued at the same
    instant come out in the order in which they were fetched, so that the cut
    to [limit] keeps the earlier fetched of them. *)
Theorem recent_sort_is_stable (items sorted : list json) (z : Z) :
  Forall (fun x => exists k, issued_key x = Ok (JInt k)) items ->
  sorted_by_issued_desc items = Ok sorted ->
  filter (fun x => issued_ms x =? z) sorted = filter (fun x => issued_ms x =? z) items.
Proof.
  intros Hk. unfold sorted_by_issued_desc. rewrite (issued_keys items Hk). cbn [bind].
  set (pairs := combine (map (fun x => JInt (issued_ms x)) items) items).
  assert (Forall dated pairs) as Hd.
  { unfold pairs. clear Hk. induction items; simpl; constructor; auto. reflexivity. }
  assert (map snd pairs = items) as Hsnd.
  { unfold pairs. clear Hk Hd. induction items; simpl; [reflexivity|]. now f_equal. }
  destruct (sort_desc pairs) as [s|] eqn:Hs; cbn [bind]; [|discriminate].
  intros [= <-]. rewrite <- Hsnd.
  apply (sort_desc_stable _ pairs s Hd); [|exact Hs].
  intros x y Hx Hy. apply Z.eqb_eq in Hx, Hy. lia.
Qed.

(** A run: two permits of the same instant around a newer one. *)
Lemma recent_sort_is_stable_example :
  let items := [Reference.permit "A" 1000; Reference.permit "B" 3000;
                Reference.permit "C" 1000] in
  let sorted := [Reference.permit "B" 3000; Reference.permit "A" 1000;
                 Reference.permit "C" 1000] in
  sorted_by_issued_desc items = Ok sorted /\
  filter (fun x => issued_ms x =? 1000) sorted =
  filter (fun x => issued_ms x =? 1000) items.
Proof.
  cbv zeta. split; [reflexivity|].
  apply recent_sort_is_stable; [|reflexivity].
  repeat constructor; eexists; reflexivity.
Defined.

(** ** The date-range operation *)

(** X12.  With two dates that parse and that the host converts to
    timestamps, every request of [search_permits_by_date_range] carries the
    filter [IssuedDate >= a AND IssuedDate <= b], where [a] and [b] are the
    local midnights that begin the start day and the end day, in
    milliseconds: the end day itself is left out but for its first instant,
    and the two dates are not compared with one another.  The answer is that of the other
    searches: the records fetched, rendered under a header with their number,
    or the "No permits found ..." text. *)
Theorem date_range_between_midnights (pf : platform) (service : remote) (fuel : nat)
    (args : arguments) (s e : string) (y m d y' m' d' a b : Z) :
  arg_get args "start_date" (AStr "") = AStr s ->
  arg_get args "end_date" (AStr "") = AStr e ->
  strptime pf s = Ok (y, m, d) ->
  local_midnight pf y m d = Ok a ->
  strptime pf e = Ok (y', m', d') ->
  local_midnight pf y' m' d' = Ok b ->
  let where_clause :=
    "IssuedDate >= " ^^ str_of_int (a * 1000) ^^
    " AND IssuedDate <= " ^^ str_of_int (b * 1000) in
  (forall out t,
     call_tool pf service fuel "search_permits_by_date_range" args [] = Some (out, t) ->
     Forall (fun p => param "where" p = Some (PStr where_clause)) t) /\
  (forall limit fetched t,
     arg_get args "limit" (AInt 50) = AInt limit ->
     query_permit_api_paginated service fuel where_clause "*" (Some limit) 1000 [] =
       Some (Ok (feature_collection fetched), t) ->
     call_tool pf service fuel "search_permits_by_date_range" args [] =
       Some (search_answer pf ("No permits found for date range " ^^ s ^^ " to " ^^ e)
               (fun total => "Found " ^^ total ^^ " permit(s) from " ^^ s ^^ " to " ^^ e ^^
                             ":" ^^ nl ^^ nl) fetched, t)).
Proof.
  intros Hs He Hps Ha Hpe Hb. cbv zeta.
  change (call_tool pf service fuel "search_permits_by_date_range" args [])
    with (search_permits_by_date_range pf service fuel args []).
  unfold search_permits_by_date_range. rewrite Hs, He.
  unfold date_ms. rewrite Hps, Hpe. cbn [bind]. rewrite Ha, Hb. cbn [bind arg_str].
  split.
  - intros out t.
    destruct (limit_of _); [apply with_pages_requests|intros [= _ <-]; constructor].
  - intros limit fetched t -> Hrun. cbn [limit_of].
    rewrite (with_pages_fetched _ _ _ _ _ _ _ Hrun).
    now rewrite found_or_none_collection.
Qed.

(** A run: the year 2024, on a host in UTC. *)
Lemma date_range_between_midnights_example :
  let args := [("start_date", AStr "2024-01-01"); ("end_date", AStr "2024-12-31");
               ("limit", AInt 5)] in
  let db := [Reference.permit "A" 1704067200000] in
  exists out,
    call_tool Reference.utc (Reference.dataset db 1000) 3 "search_permits_by_date_range"
      args [] =
    Some (out, [build_params "IssuedDate >= 1704067200000 AND IssuedDate <= 1735603200000"
                  "*" (Some 0) (Some 5) false]) /\
    Forall (fun p => param "where" p =
                     Some (PStr "IssuedDate >= 1704067200000 AND IssuedDate <= 1735603200000"))
      [build_params "IssuedDate >= 1704067200000 AND IssuedDate <= 1735603200000"
         "*" (Some 0) (Some 5) false].
Proof.
  cbv zeta. eexists. split; [reflexivity|].
  refine (proj1 (date_range_between_midnights Reference.utc
                   (Reference.dataset [Reference.permit "A" 1704067200000] 1000) 3
                   [("start_date", AStr "2024-01-01"); ("end_date", AStr "2024-12-31");
                    ("limit", AInt 5)]
                   "2024-01-01" "2024-12-31" 2024 1 1 2024 12 31 1704067200 1735603200
                   eq_refl eq_refl eq_refl eq_refl eq_refl eq_refl) _ _ _).
  reflexivity.
Defined.

(** ** Records without an issue date *)

Lemma py_lt_null_l k : py_lt JNull k = Raise TypeError.
Proof. unfold py_lt. simpl. destruct (as_num k); reflexivity. Qed.

Lemma py_lt_null_r k : py_lt k JNull = Raise TypeError.
Proof. unfold py_lt. destruct k; reflexivity. Qed.

Lemma insert_desc_nonempty k x l r : insert_desc k x l = Ok r -> r <> [].
Proof.
  destruct l as [|[ky y] l]; cbn [insert_desc].
  - intros [= <-]. discriminate.
  - destruct (py_lt k ky) as [[|]|]; cbn [bind]; try discriminate.
    + destruct (insert_desc k x l); cbn [bind]; [|discriminate].
      intros [= <-]. discriminate.
    + intros [= <-]. discriminate.
Qed.

Lemma sort_desc_nonempty l r : sort_desc l = Ok r -> l <> [] -> r <> [].
Proof.
  destruct l as [|[k x] l]; [congruence|]. cbn [sort_desc].
  destruct (sort_desc l); cbn [bind]; [|discriminate].
  intros H _. exact (insert_desc_nonempty _ _ _ _ H).
Qed.

(** A sort of two or more pairs that ends has compared every key, so none of
    them is [None]. *)
Lemma sort_desc_compares_all l r :
  sort_desc l = Ok r -> (2 <= List.length l)%nat -> ~ In JNull (map fst l).
Proof.
  revert r. induction l as [|[k x] l IH]; intros r; [simpl; lia|].
  cbn [sort_desc]. destruct (sort_desc l) as [s|] eqn:Hs; cbn [bind]; [|discriminate].
  intros Hins Hlen. cbn [map fst In].
  destruct l as [|[k1 x1] l'].
  { simpl in Hlen. lia. }
  pose proof (sort_desc_nonempty _ _ Hs ltac:(discriminate)) as Hne.
  destruct s as [|[ks xs] s']; [congruence|]. clear Hne.
  assert (k <> JNull) as Hk.
  { intros ->. cbn [insert_desc] in Hins. rewrite py_lt_null_l in Hins. discriminate. }
  destruct l' as [|p l''].
  - cbn [sort_desc bind insert_desc] in Hs. injection Hs as <- <- <-.
    cbn [insert_desc] in Hins. cbn [map fst In].
    intros [H|[H|[]]]; [congruence|]. subst k1.
    rewrite py_lt_null_r in Hins. discriminate.
  - intros [H|H]; [congruence|].
    exact (IH _ eq_refl ltac:(simpl; lia) H).
Qed.

Lemma map_outcome_combine {A B : Type} (g : A -> outcome B) (l : list A) (ys : list B)
    (x : A) (y : B) :
  map_outcome g l = Ok ys -> In x l -> g x = Ok y ->
  In y (map fst (combine ys l)) /\ List.length (combine ys l) = List.length l.
Proof.
  revert ys. induction l as [|a l IH]; intros ys; [intros _ []|].
  cbn [map_outcome]. destruct (g a) as [b|] eqn:Ha; cbn [bind]; [|discriminate].
  destruct (map_outcome g l) as [bs|] eqn:Hl; cbn [bind]; [|discriminate].
  intros [= <-] Hin Hx. cbn [combine map fst In List.length].
  destruct Hin as [->|Hin].
  - split; [left; congruence|]. f_equal.
    rewrite length_combine, (map_outcome_length _ _ _ Hl). apply Nat.min_id.
  - destruct (IH bs eq_refl Hin Hx) as [H1 H2]. split; [right; exact H1|]. now f_equal.
Qed.

(** Induction on a JSON value, with the property at hand for the items of a
    list and the values of an object. *)
Lemma json_nested_ind (P : json -> Prop) :
  P JNull -> (forall b, P (JBool b)) -> (forall z, P (JInt z)) ->
  (forall m e, P (JFloat m e)) -> (forall s, P (JStr s)) ->
  (forall items, Forall P items -> P (JArr items)) ->
  (forall fields, Forall (fun kv => P (snd kv)) fields -> P (JObj fields)) ->
  forall v, P v.
Proof.
  intros Hnull Hbool Hint Hfloat Hstr Harr Hobj.
  fix IH 1. intros [|b|z|m e|s|items|fields].
  - exact Hnull.
  - apply Hbool.
  - apply Hint.
  - apply Hfloat.
  - apply Hstr.
  - apply Harr. induction items as [|x items IHitems]; constructor.
    + apply IH.
    + exact IHitems.
  - apply Hobj. induction fields as [|[k x] fields IHfields]; constructor.
    + apply IH.
    + exact IHfields.
Qed.

(** A comparison fails with a [TypeError] only. *)
Lemma py_lt_raises a b e : py_lt a b = Raise e -> e = TypeError.
Proof.
  revert b e. induction a as [|c|z|m k|s|items IH|fields IH] using json_nested_ind;
    intros v e; destruct v as [| | | | |items'|fields']; cbn [py_lt as_num];
    try congruence.
  revert items'.
  induction IH as [|x items Hx _ IHitems]; intros [|y items']; try discriminate.
  destruct (py_eq x y); [apply IHitems|apply Hx].
Qed.

Lemma insert_desc_raises k x l e : insert_desc k x l = Raise e -> e = TypeError.
Proof.
  induction l as [|[ky y] l IH]; cbn [insert_desc]; [discriminate|].
  destruct (py_lt k ky) as [[|]|e'] eqn:Hlt; cbn [bind].
  - destruct (insert_desc k x l); cbn [bind]; [discriminate|]. intros [= <-]. now apply IH.
  - discriminate.
  - intros [= <-]. exact (py_lt_raises _ _ _ Hlt).
Qed.

Lemma sort_desc_raises l e : sort_desc l = Raise e -> e = TypeError.
Proof.
  induction l as [|[k x] l IH]; cbn [sort_desc]; [discriminate|].
  destruct (sort_desc l) as [s|e']; cbn [bind].
  - apply insert_desc_raises.
  - intros [= <-]. now apply IH.
Qed.

Lemma map_outcome_raise {A B : Type} (g : A -> outcome B) (l : list A) (e : exn) :
  map_outcome g l = Raise e -> exists x, In x l /\ g x = Raise e.
Proof.
  induction l as [|a l IH]; cbn [map_outcome]; [discriminate|].
  destruct (g a) as [b|e'] eqn:Ha; cbn [bind].
  - destruct (map_outcome g l) as [bs|e']; cbn [bind]; [discriminate|].
    intros [= <-]. destruct (IH eq_refl) as (x & Hin & Hx). exists x. split; [now right|auto].
  - intros [= <-]. exists a. split; [now left|exact Ha].
Qed.

Lemma issued_key_raises x e : issued_key x = Raise e -> e = AttributeError.
Proof.
  unfold issued_key. destruct x; cbn [dict_get bind]; try congruence.
  destruct (match lookup "properties" fields with Some v => v | None => JObj [] end);
    cbn [dict_get]; congruence.
Qed.

(** X13.  [get_recent_permits] cannot order a record whose [IssuedDate] is present
    but [null]: as soon as two or more records are fetched and one of them is
    such a record, the call ends with an exception in place of an answer: the
    [TypeError] of the comparison when the key of every fetched record can be
    read, and otherwise the [AttributeError] of a record that is not an
    object with object properties. *)
Theorem null_issue_date_breaks_recent (pf : platform) (service : remote) (fuel : nat)
    (limit days cutoff : Z) (fetched : list json) (x : json) (t : trace) :
  In x fetched ->
  (2 <= List.length fetched)%nat ->
  issued_key x = Ok JNull ->
  cutoff_ts pf days = Ok cutoff ->
  query_permit_api_paginated service fuel (recent_clause cutoff) "*"
    (Some (limit * 2)) 1000 [] = Some (Ok (feature_collection fetched), t) ->
  exists e,
    sorted_by_issued_desc fetched = Raise e /\
    call_tool pf service fuel "get_recent_permits"
      [("limit", AInt limit); ("days", AInt days)] [] = Some (Raise e, t) /\
    (e = TypeError \/ e = AttributeError) /\
    (Forall (fun y => exists k, issued_key y = Ok k) fetched -> e = TypeError).
Proof.
  intros Hin Hlen Hx Hcut Hrun.
  assert (exists e, sorted_by_issued_desc fetched = Raise e /\
                    (e = TypeError \/ e = AttributeError) /\
                    (Forall (fun y => exists k, issued_key y = Ok k) fetched ->
                     e = TypeError)) as (e & He & Hkind & Hread).
  { unfold sorted_by_issued_desc.
    destruct (map_outcome issued_key fetched) as [keys|e] eqn:Hkeys; cbn [bind].
    - destruct (map_outcome_combine _ _ _ _ _ Hkeys Hin Hx) as [Hnull Hl].
      destruct (sort_desc (combine keys fetched)) as [s|e] eqn:Hs; cbn [bind].
      + exfalso. apply (sort_desc_compares_all _ _ Hs); [lia|exact Hnull].
      + pose proof (sort_desc_raises _ _ Hs) as ->. eauto.
    - destruct (map_outcome_raise _ _ _ Hkeys) as (y & Hy & Hfail).
      pose proof (issued_key_raises _ _ Hfail) as ->.
      exists AttributeError. split; [reflexivity|]. split; [now right|].
      intros Hall. rewrite Forall_forall in Hall.
      destruct (Hall y Hy) as [k Hk]. congruence. }
  exists e. split; [exact He|]. split; [|split; assumption].
  change (call_tool pf service fuel "get_recent_permits"
            [("limit", AInt limit); ("days", AInt days)] [])
    with (get_recent_permits pf service fuel
            [("limit", AInt limit); ("days", AInt days)] []).
  unfold get_recent_permits.
  change (arg_get [("limit", AInt limit); ("days", AInt days)] "days" (AInt 30))
    with (AInt days).
  change (arg_get [("limit", AInt limit); ("days", AInt days)] "limit" (AInt 50))
    with (AInt limit).
  cbv beta iota zeta. rewrite Hcut. cbn [limit_of arg_str].
  unfold recent_clause in Hrun.
  rewrite (with_pages_fetched _ _ _ _ _ _ _ Hrun).
  unfold feature_collection. cbn [dict_get lookup String.eqb Ascii.eqb Bool.eqb bind].
  destruct fetched as [|a fetched']; [contradiction|].
  cbn [truthy negb py_iter bind].
  unfold recent_selection. rewrite He. reflexivity.
Qed.

(** A run: a dated permit and one whose issue date is [null]. *)
Lemma null_issue_date_breaks_recent_example :
  let undated := JObj [("properties", JObj [("CaseNumber", JStr "B");
                                            ("IssuedDate", JNull)])] in
  let db := [Reference.permit "A" 1000; undated] in
  cutoff_ts Reference.utc 30 = Ok 1759622400000 /\
  sorted_by_issued_desc db = Raise TypeError /\
  exists e,
    sorted_by_issued_desc db = Raise e /\
    call_tool Reference.utc (Reference.dataset db 1000) 3 "get_recent_permits"
      [("limit", AInt 5); ("days", AInt 30)] [] =
    Some (Raise e,
          [build_params (recent_clause 1759622400000) "*" (Some 0) (Some 10) false]) /\
    (e = TypeError \/ e = AttributeError) /\
    (Forall (fun y => exists k, issued_key y = Ok k) db -> e = TypeError).
Proof.
  cbv zeta. split; [reflexivity|]. split; [reflexivity|].
  set (undated := JObj [("properties", JObj [("CaseNumber", JStr "B");
                                             ("IssuedDate", JNull)])]).
  refine (null_issue_date_breaks_recent Reference.utc
            (Reference.dataset [Reference.permit "A" 1000; undated] 1000) 3 5 30
            1759622400000
            [Reference.permit "A" 1000; undated] undated
            [build_params (recent_clause 1759622400000) "*" (Some 0) (Some 10) false]
            _ _ eq_refl eq_refl eq_refl).
  - right. left. reflexivity.
  - simpl. lia.
Defined.

(** ** Records the formatter renders *)

Lemma format_date_returns pf ps key v :
  dict_get (JObj ps) key JNull = Ok v ->
  (exists s, format_date pf (JObj ps) key = Ok s) <-> date_ok pf v.
Proof.
  intros Hv. unfold format_date, date_ok. rewrite Hv. cbn [bind].
  destruct (truthy v); [|split; [discriminate|eauto]].
  destruct (as_num v) as [n|]; [|split; [discriminate|eauto]].
  destruct (local_date pf n) as [s|e] eqn:Hd.
  - split; [|eauto]. intros _ _ n' e' [= <-] H. congruence.
  - split.
    + intros [s Hs] _ n' e' [= <-] H. rewrite Hd in H. injection H as <-.
      destruct e; try discriminate; reflexivity.
    + intros H. specialize (H eq_refl n e eq_refl Hd).
      destruct e; try discriminate; eauto.
Qed.

Lemma format_float_returns print v :
  (exists s, format_float print v = Ok s) <-> number_prints print v.
Proof.
  unfold format_float, number_prints. destruct (as_num v) as [n|].
  - split; [intros [s Hs]; eauto|intros (n' & s & [= <-] & Hs); eauto].
  - split; [|intros (n & s & H & _); discriminate].
    intros [s Hs]. destruct v; discriminate.
Qed.

Lemma format_coords_returns pf gs c :
  dict_get (JObj gs) "coordinates" JNull = Ok c ->
  (exists s, format_coords pf (JObj gs) = Ok s) <-> coords_ok pf c.
Proof.
  intros Hc. unfold format_coords, coords_ok. rewrite Hc. cbn [bind].
  destruct (truthy c); [|split; [discriminate|eauto]].
  unfold unpack2. split.
  - intros [s Hs] _.
    destruct (py_iter c) as [items|]; cbn [bind] in Hs; [|discriminate].
    destruct items as [|lon [|lat [|z rest]]]; cbn [bind] in Hs; try discriminate.
    destruct (format_float (fixed6 pf) lat) as [slat|] eqn:Hlat; cbn [bind] in Hs;
      [|discriminate].
    destruct (format_float (fixed6 pf) lon) as [slon|] eqn:Hlon; cbn [bind] in Hs;
      [|discriminate].
    exists lon, lat. split; [reflexivity|].
    split; apply format_float_returns; eauto.
  - intros H. destruct (H eq_refl) as (lon & lat & -> & Hlat & Hlon).
    apply format_float_returns in Hlat, Hlon. cbn [bind].
    destruct Hlat as [slat ->], Hlon as [slon ->]. cbn [bind]. eauto.
Qed.

Lemma format_cost_returns pf ps cost :
  dict_get (JObj ps) "Cost" JNull = Ok cost ->
  (exists s, format_cost pf (JObj ps) = Ok s) <-> cost_ok pf cost.
Proof.
  intros Hc. unfold format_cost, cost_ok. rewrite Hc. cbn [bind].
  destruct (truthy cost); [|split; [discriminate|eauto]].
  split.
  - intros [s Hs] _. apply format_float_returns.
    destruct (format_float (grouped0 pf) cost) as [s'|]; [eauto|discriminate].
  - intros H. apply format_float_returns in H; [|reflexivity].
    destruct H as [s' ->]. cbn [bind]. eauto.
Qed.

Lemma slice200_returns d : (exists d', slice200 d = Ok d') <-> sliceable d.
Proof.
  destruct d; simpl; split; try tauto; try (intros [d' H]; discriminate); eauto.
Qed.

(** X14.  [format_permit] returns a text exactly for the renderable records: the
    record is an object, its [properties] and [geometry] are objects when
    present, each date is empty, not a number, or a number whose conversion
    does not fail with an uncaught exception, the coordinates are empty or
    two numbers, the cost is empty or a number, and the description is a
    string (or a list) when present.  No other field of the record can make
    it raise. *)
Theorem format_permit_returns_iff_renderable (pf : platform) (permit : json) :
  (exists text, format_permit pf permit = Ok text) <-> renderable pf permit.
Proof.
  unfold format_permit, renderable. split.
  - intros [text H].
    destruct (dict_get permit "properties" (JObj [])) as [props|] eqn:Hprops;
      cbn [bind] in H; [|discriminate].
    destruct (dict_get permit "geometry" (JObj [])) as [geom|] eqn:Hgeom;
      cbn [bind] in H; [|discriminate].
    destruct (format_date pf props "IssuedDate") as [issued_date|] eqn:Hi;
      cbn [bind] in H; [|discriminate].
    destruct (format_date pf props "ExpirationDate") as [expiration_date|] eqn:He;
      cbn [bind] in H; [|discriminate].
    destruct (format_coords pf geom) as [coords|] eqn:Hc; cbn [bind] in H; [|discriminate].
    destruct (format_cost pf props) as [cost_str|] eqn:Hcost; cbn [bind] in H;
      [|discriminate].
    destruct props as [| | | | | |ps]; try discriminate.
    destruct geom as [| | | | | |gs]; try discriminate.
    unfold field in H. cbn [dict_get bind] in H.
    destruct (slice200 _) as [d200|] eqn:Hd in H; cbn [bind] in H; [|discriminate].
    eexists ps, gs, _, _, _, _, _.
    split; [reflexivity|]. split; [reflexivity|].
    split; [reflexivity|]. split; [eapply format_date_returns; [reflexivity|eauto]|].
    split; [reflexivity|]. split; [eapply format_date_returns; [reflexivity|eauto]|].
    split; [reflexivity|]. split; [eapply format_coords_returns; [reflexivity|eauto]|].
    split; [reflexivity|]. split; [eapply format_cost_returns; [reflexivity|eauto]|].
    split; [reflexivity|]. apply slice200_returns. eauto.
  - intros (ps & gs & issued & expires & c & cost & d &
            -> & -> & Hi & Hio & He & Heo & Hc & Hco & Hcost & Hcosto & Hd & Hdo).
    cbn [bind].
    apply (format_date_returns pf ps "IssuedDate" issued Hi) in Hio.
    apply (format_date_returns pf ps "ExpirationDate" expires He) in Heo.
    apply (format_coords_returns pf gs c Hc) in Hco.
    apply (format_cost_returns pf ps cost Hcost) in Hcosto.
    apply slice200_returns in Hdo.
    destruct Hio as [s1 ->], Heo as [s2 ->], Hco as [s3 ->], Hcosto as [s4 ->],
             Hdo as [d200 Hd200].
    cbn [bind]. unfold field. rewrite Hd. cbn [dict_get bind]. rewrite Hd200.
    cbn [bind]. eauto.
Qed.
